(** * WhatsApp chatbot relay: message pipeline, history store, sender

    A shallow embedding of the three services of the repository

      - [OpenaiService]   (src/openai/openai.service.ts, first class)
      - [SheetsService]   (the Google Sheets store that follows it there)
      - [WhatsappService] (src/whatsapp/whatsapp.service.ts, the version
                           that normalizes the recipient)

    The services are asynchronous TypeScript classes that talk to three
    remote systems (Google Sheets, the OpenAI chat API and the WhatsApp
    Cloud API) and to the process environment.  Every method is embedded
    as a computation in a state-and-exception monad over a [World]: the
    world holds the contents of the spreadsheet, what the surroundings
    will answer to the next remote calls, and the observable output of the
    process (log lines, HTTP requests, chat requests).  A JavaScript
    [throw] keeps the side effects done so far, so a thrown value comes
    with the world it was thrown in. *)

From Stdlib Require Import String Ascii List ZArith Bool Arith Lia DecimalString.
Import ListNotations.
Local Open Scope string_scope.
Local Open Scope Z_scope.

(** ** JavaScript values used by the services *)

Module Js.

  (** [s ? a : b], [!s], [s || d] on a string that may be [undefined]. *)
Definition truthy (o : option string) : bool :=
    match o with
    | Some s => negb (s =? "")%string
    | None => false
    end.

Definition or_else (o : option string) (d : string) : string :=
    match o with
    | Some s => if (s =? "")%string then d else s
    | None => d
    end.

  (** [r[i]] on a row of cells: [undefined] past the end. *)
Definition cell (r : list string) (i : nat) : option string := nth_error r i.

  (** [r[i] === s]. *)
Definition cell_is (r : list string) (i : nat) (s : string) : bool :=
    match cell r i with
    | Some c => (c =? s)%string
    | None => false
    end.

  (** Numbers that may be [NaN]: [None] is [NaN]. *)
Definition number := option Z.

  (** [!x] on a number: true for [0] and for [NaN]. *)
Definition not_number (x : number) : bool :=
    match x with
    | Some z => z =? 0
    | None => true
    end.

  (** [x > y] on numbers: false as soon as one side is [NaN]. *)
Definition gt (x y : number) : bool :=
    match x, y with
    | Some a, Some b => b <? a
    | _, _ => false
    end.

  (** [l.slice(start)] for an integer [start]: a negative [start] counts
      from the end, and [-0] is [0]. *)
Definition slice_from {A : Type} (start : Z) (l : list A) : list A :=
    let len := Z.of_nat (length l) in
    let k := if start <? 0 then Z.max (len + start) 0 else Z.min start len in
    skipn (Z.to_nat k) l.

Definition is_digit (c : ascii) : bool :=
    let n := nat_of_ascii c in ((48 <=? n) && (n <=? 57))%nat.

  (** [s.replace(/\D/g, '')]: every character that is not [0-9] is dropped.
      A character outside ASCII is a run of bytes above 127, none of which
      is a digit, so it is dropped as a whole. *)
Fixpoint remove_non_digits (s : string) : string :=
    match s with
    | EmptyString => EmptyString
    | String c s' =>
        if is_digit c then String c (remove_non_digits s') else remove_non_digits s'
    end.

  (** [s.replace(/_/g, ' ')]. *)
Fixpoint underscores_to_spaces (s : string) : string :=
    match s with
    | EmptyString => EmptyString
    | String c s' =>
        String (if (c =? "_")%char then " "%char else c) (underscores_to_spaces s')
    end.

Fixpoint drop (n : nat) (s : string) : string :=
    match n, s with
    | O, _ => s
    | S n', String _ s' => drop n' s'
    | S _, EmptyString => EmptyString
    end.

  (** [s.replace(pat, rep)] with a string pattern: only the first
      occurrence of [pat] is replaced ([rep] holds no [$]). *)
Fixpoint replace_first (pat rep s : string) : string :=
    if String.prefix pat s then rep ++ drop (String.length pat) s
    else match s with
         | EmptyString => EmptyString
         | String c s' => String c (replace_first pat rep s')
         end.

  (** [s.startsWith(p)]. *)
Definition startsWith (s p : string) : bool := String.prefix p s.

  (** [l.join(sep)]. *)
Definition join (sep : string) (l : list string) : string := String.concat sep l.

  (** White space of [String.prototype.trim].  Strings are sequences of
      bytes in UTF-8.  The ASCII ones are U+0009 to U+000D and U+0020; *)
Definition is_space (c : ascii) : bool :=
    let n := nat_of_ascii c in
    ((n =? 32) || ((9 <=? n) && (n <=? 13)))%nat.

  (** of two bytes, U+00A0; *)
Definition is_space2 (a b : nat) : bool := ((a =? 194) && (b =? 160))%nat.

  (** of three bytes, U+1680, U+2000 to U+200A, U+2028, U+2029, U+202F,
      U+205F, U+3000 and U+FEFF. *)
Definition is_space3 (a b c : nat) : bool :=
    (((a =? 225) && (b =? 154) && (c =? 128))
     || ((a =? 226) && (b =? 128)
         && (((128 <=? c) && (c <=? 138)) || (c =? 168) || (c =? 169) || (c =? 175)))
     || ((a =? 226) && (b =? 129) && (c =? 159))
     || ((a =? 227) && (b =? 128) && (c =? 128))
     || ((a =? 239) && (b =? 187) && (c =? 191)))%nat.

  (** The number of bytes of the white-space character [s] starts with,
      0 when it starts with none. *)
Definition space_width (s : string) : nat :=
    match s with
    | String a s1 =>
        if is_space a then 1
        else
          match s1 with
          | String b s2 =>
              if is_space2 (nat_of_ascii a) (nat_of_ascii b) then 2
              else
                match s2 with
                | String c _ =>
                    if is_space3 (nat_of_ascii a) (nat_of_ascii b) (nat_of_ascii c)
                    then 3 else 0
                | EmptyString => 0
                end
          | EmptyString => 0
          end
    | EmptyString => 0
    end%nat.

  (** The same for a string read from its end: [r] is reversed. *)
Definition space_width_reversed (r : string) : nat :=
    match r with
    | String c r1 =>
        if is_space c then 1
        else
          match r1 with
          | String b r2 =>
              if is_space2 (nat_of_ascii b) (nat_of_ascii c) then 2
              else
                match r2 with
                | String a _ =>
                    if is_space3 (nat_of_ascii a) (nat_of_ascii b) (nat_of_ascii c)
                    then 3 else 0
                | EmptyString => 0
                end
          | EmptyString => 0
          end
    | EmptyString => 0
    end%nat.

  (** [s] without its first [skip] bytes and without the white-space
      characters, measured by [width], that follow them. *)
Fixpoint strip (width : string -> nat) (skip : nat) (s : string) : string :=
    match s with
    | EmptyString => EmptyString
    | String _ s' =>
        match skip with
        | S k => strip width k s'
        | O =>
            match width s with
            | O => s
            | S k => strip width k s'
            end
        end
    end.

Fixpoint reverse_onto (s acc : string) : string :=
    match s with
    | EmptyString => acc
    | String c s' => reverse_onto s' (String c acc)
    end.

Definition trim_start (s : string) : string := strip space_width 0 s.

Definition trim_end (s : string) : string :=
    reverse_onto (strip space_width_reversed 0 (reverse_onto s EmptyString)) EmptyString.

  (** [s.trim()] *)
Definition trim (s : string) : string := trim_end (trim_start s).

Definition lower (c : ascii) : ascii :=
    let n := nat_of_ascii c in
    if ((65 <=? n) && (n <=? 90))%nat then ascii_of_nat (n + 32) else c.

Fixpoint lowercase (s : string) : string :=
    match s with
    | EmptyString => EmptyString
    | String c s' => String (lower c) (lowercase s')
    end.

Fixpoint contains (pat s : string) : bool :=
    String.prefix pat s ||
    match s with
    | EmptyString => false
    | String _ s' => contains pat s'
    end.

  (** [/a|b|c/i.test(s)] for literal alternatives. *)
Definition test_any_ci (alts : list string) (s : string) : bool :=
    existsb (fun a => contains (lowercase a) (lowercase s)) alts.

  (** Template-literal rendering of an integer. *)
Definition show (z : Z) : string := NilZero.string_of_int (Z.to_int z).

End Js.

(** ** Thrown values

    Everything the catch blocks of the services look at: [error.message],
    [error.response.status] and the Graph API error object
    [error.response.data.error]. *)

Record GraphError := mkGraphError {
  ge_message : option string;
  ge_code : option Z;
  ge_error_subcode : option Z;
  ge_type : option string;
  ge_fbtrace_id : option string
}.

Record JsError := mkJsError {
  e_message : option string;
  e_status : option Z;
  e_error : option GraphError
}.

Definition TypeError (msg : string) : JsError :=
  mkJsError (Some msg) None None.

(** A network failure, for the examples. *)
Definition boom : JsError :=
  mkJsError (Some "socket hang up") None None.

(** ** Messages of the chat API and requests of the Cloud API *)

Record ChatMessage := mkChat {
  role : string;
  content : string
}.

(** [completion.choices[i].message?.content]: the message may be missing
    and its content may be [null]. *)
Record Choice := mkChoice {
  message : option (option string)
}.

Inductive Completion :=
| Rejected (e : JsError)                       (* the call throws *)
| Resolved (choices : option (list Choice)).   (* [None]: no [choices] field *)

Record AxiosConfig := mkAxios {
  url : string;
  authorization : string;
  data_to : string;      (* [to] of the JSON body *)
  data_body : string     (* [text.body] of the JSON body *)
}.

Inductive AxiosResult :=
| Status (status : Z)
| Failed (e : JsError).

Inductive Level := LOG | WARN | ERROR.

Record LogLine := mkLog {
  level : Level;
  text : string;
  detail : option JsError
}.

(** ** The world *)

(** What [SheetsService.getClient] finds: a usable client together with
    the spreadsheet id, or one of its three ways to give up. *)
Inductive SheetsConfig :=
| Ready
| NoSpreadsheetId
| NoCredentials
| InitFails (e : JsError).

(** The surroundings of the process; no method changes them. *)
Record Env := mkEnv {
  WHATSAPP_API_KEY : option string;
  WHATSAPP_API_VERSION : option string;
  WHATSAPP_PHONE_NUMBER_ID : option string;
  sheets_config : SheetsConfig;
  (** [Date.parse]; [None] is [NaN]. *)
  Date_parse : string -> Js.number;
  (** the k-th evaluation of [new Date().toISOString()] *)
  clock : nat -> string;
  (** answer of the k-th [chat.completions.create] to its messages *)
  openai_api : nat -> list ChatMessage -> Completion;
  (** answer of the k-th [axios.request] to its config *)
  axios_api : nat -> AxiosConfig -> AxiosResult
}.

Record World := mkWorld {
  env : Env;
  (** number of clock readings so far *)
  ticks : nat;
  (** outcomes of the coming Google Sheets calls, in order: [Some e] makes
      the call throw [e]; once the list is used up every call succeeds *)
  faults : list (option JsError);
  (** titles of the tabs of the spreadsheet *)
  tabs : list string;
  (** data rows of the tab [messages] (range [A2:E]), in sheet order *)
  messages : list (list string);
  (** data rows of the tab [settings] (range [A2:B]), in sheet order *)
  settings : list (list string);
  (** lines written by the loggers and by [console.error] *)
  log : list LogLine;
  (** configs handed to [axios.request], oldest first *)
  requests : list AxiosConfig;
  (** message lists handed to [chat.completions.create], oldest first *)
  completions : list (list ChatMessage)
}.

Definition set_ticks (n : nat) (w : World) : World :=
  mkWorld (env w) n (faults w) (tabs w) (messages w) (settings w) (log w)
          (requests w) (completions w).

Definition set_faults (f : list (option JsError)) (w : World) : World :=
  mkWorld (env w) (ticks w) f (tabs w) (messages w) (settings w) (log w)
          (requests w) (completions w).

Definition set_tabs (t : list string) (w : World) : World :=
  mkWorld (env w) (ticks w) (faults w) t (messages w) (settings w) (log w)
          (requests w) (completions w).

Definition set_messages (m : list (list string)) (w : World) : World :=
  mkWorld (env w) (ticks w) (faults w) (tabs w) m (settings w) (log w)
          (requests w) (completions w).

Definition set_settings (s : list (list string)) (w : World) : World :=
  mkWorld (env w) (ticks w) (faults w) (tabs w) (messages w) s (log w)
          (requests w) (completions w).

Definition set_log (l : list LogLine) (w : World) : World :=
  mkWorld (env w) (ticks w) (faults w) (tabs w) (messages w) (settings w) l
          (requests w) (completions w).

Definition set_requests (r : list AxiosConfig) (w : World) : World :=
  mkWorld (env w) (ticks w) (faults w) (tabs w) (messages w) (settings w) (log w)
          r (completions w).

Definition set_completions (c : list (list ChatMessage)) (w : World) : World :=
  mkWorld (env w) (ticks w) (faults w) (tabs w) (messages w) (settings w) (log w)
          (requests w) c.

(** ** The monad of the services *)

Inductive Outcome (A : Type) :=
| Ok (a : A)
| Throw (e : JsError).
Arguments Ok {A} a.
Arguments Throw {A} e.

Definition M (A : Type) : Type := World -> Outcome A * World.

Definition ret {A : Type} (a : A) : M A := fun w => (Ok a, w).

Definition bind {A B : Type} (m : M A) (f : A -> M B) : M B :=
  fun w =>
    match m w with
    | (Ok a, w') => f a w'
    | (Throw e, w') => (Throw e, w')
    end.

Definition throw {A : Type} (e : JsError) : M A := fun w => (Throw e, w).

(** [try { m } catch (e) { h e }] *)
Definition try_catch {A : Type} (m : M A) (h : JsError -> M A) : M A :=
  fun w =>
    match m w with
    | (Ok a, w') => (Ok a, w')
    | (Throw e, w') => h e w'
    end.

Declare Scope js_scope.
Delimit Scope js_scope with js.
Notation "x <- m ;; k" := (bind m (fun x => k))
  (at level 61, m at next level, right associativity) : js_scope.
Notation "m ;; k" := (bind m (fun _ => k))
  (at level 61, right associativity) : js_scope.
Local Open Scope js_scope.

Definition gets {A : Type} (f : World -> A) : M A := fun w => (Ok (f w), w).
Definition modify (f : World -> World) : M unit := fun w => (Ok tt, f w).

Definition logger (l : Level) (t : string) (d : option JsError) : M unit :=
  modify (fun w => set_log (log w ++ [mkLog l t d]) w).

(** [new Date().toISOString()] *)
Definition now_iso : M string :=
  fun w => (Ok (clock (env w) (ticks w)), set_ticks (S (ticks w)) w).

(** A call to the Google Sheets API: it throws when the surroundings say
    so, and otherwise does [act] on the spreadsheet. *)
Definition remote {A : Type} (act : M A) : M A :=
  fun w =>
    let w' := set_faults (tl (faults w)) w in
    match hd None (faults w) with
    | Some e => (Throw e, w')
    | None => act w'
    end.

(** ** SheetsService: the history and settings store *)

Inductive Role := user | assistant.

Definition role_name (r : Role) : string :=
  match r with
  | user => "user"
  | assistant => "assistant"
  end.

(** A [Record<string, string>] built by assignments [map[k] = v], as the
    list of its own properties in the order in which they were added: an
    assignment to a key the object already has keeps the place of the
    key and changes its value, a new key goes last. *)
Fixpoint record_put (k v : string) (m : list (string * string)) : list (string * string) :=
  match m with
  | [] => [(k, v)]
  | (k', v') :: m' =>
      if (k' =? k)%string then (k', v) :: m' else (k', v') :: record_put k v m'
  end.

(** [map[k] = v] for a string [v].  The key [__proto__] is the accessor
    of [Object.prototype]: assigning a string to it is ignored, and the
    object gets no property. *)
Definition record_set (k v : string) (m : list (string * string)) : list (string * string) :=
  if (k =? "__proto__")%string then m else record_put k v m.

(** Write [x] at place [i] of [l] ([i] is a place of [l] wherever the
    service uses it). *)
Fixpoint replace_nth {A : Type} (i : nat) (x : A) (l : list A) : list A :=
  match i, l with
  | _, [] => []
  | O, _ :: l' => x :: l'
  | S i', y :: l' => y :: replace_nth i' x l'
  end.

(** The loop of [setSetting]: the index of the first row whose first cell
    is [key]. *)
Fixpoint find_row (key : string) (rows : list (list string)) (i : nat) : option nat :=
  match rows with
  | [] => None
  | r :: rows' => if Js.cell_is r 0 key then Some i else find_row key rows' (S i)
  end.

(** The loop of [getSetting]: the second cell of the first row whose first
    cell is [key] (that cell may be missing). *)
Fixpoint first_value (key : string) (rows : list (list string)) : option string :=
  match rows with
  | [] => None
  | r :: rows' => if Js.cell_is r 0 key then Js.cell r 1 else first_value key rows'
  end.

(** The loop of [getAllSettings]. *)
Fixpoint collect_settings (rows : list (list string)) (map : list (string * string))
  : list (string * string) :=
  match rows with
  | [] => map
  | row :: rows' =>
      let k := Js.or_else (Js.cell row 0) "" in
      let v := Js.or_else (Js.cell row 1) "" in
      collect_settings rows' (if Js.truthy (Some k) then record_set k v map else map)
  end.

Module SheetsService.

  (** [getClient()]: true when it returns a client; then [spreadsheetId]
      is set as well.  The three other outcomes log and give [undefined]. *)
Definition getClient : M bool :=
    cfg <- gets (fun w => sheets_config (env w)) ;;
    match cfg with
    | Ready => ret true
    | NoSpreadsheetId =>
        logger WARN "Google Sheets not configured. Set GOOGLE_SHEETS_ID" None ;;
        ret false
    | NoCredentials =>
        logger WARN "No Google credentials found. Place service-account.json at project root or set GOOGLE_SERVICE_ACCOUNT_PATH." None ;;
        ret false
    | InitFails e =>
        logger ERROR "Failed to init Google Sheets client" None ;;
        logger ERROR "" (Some e) ;;
        logger WARN "Provide credentials via file. Preferred: service-account.json at project root, or set GOOGLE_SERVICE_ACCOUNT_PATH to the file." None ;;
        ret false
    end.

  (** The calls of the Sheets API the service makes. *)
Definition spreadsheets_get : M (list string) := remote (gets tabs).

Definition batchUpdate_addSheet (title : string) : M unit :=
    remote (modify (fun w => set_tabs (tabs w ++ [title]) w)).

  (** [values.update] of a header row.  The header rows (row 1 of each
      tab) are not part of [messages] and [settings], which hold the
      data rows from row 2 on: here a write of a header row changes
      nothing but the outcomes left for the coming calls. *)
Definition values_update_header (range : string) : M unit := remote (ret tt).

Definition values_get_messages : M (list (list string)) := remote (gets messages).

Definition values_get_settings : M (list (list string)) := remote (gets settings).

  (** [values.append] with [valueInputOption: 'USER_ENTERED'].  The row
      is kept as it is written, every cell as text.  Google Sheets reads
      a cell entered this way as if it had been typed (a numeral becomes
      a number, a leading [=] starts a formula) and [values.get] leaves
      out empty cells at the end of a row, so a cell can read back
      otherwise than it was written; this is not followed here. *)
Definition values_append_messages (row : list string) : M unit :=
    remote (modify (fun w => set_messages (messages w ++ [row]) w)).

Definition values_append_settings (row : list string) : M unit :=
    remote (modify (fun w => set_settings (settings w ++ [row]) w)).

  (** [values.update] of [settings!A<i+2>:B<i+2>], with
      [valueInputOption: 'RAW']: the cells are stored as they are. *)
Definition values_update_settings (i : nat) (row : list string) : M unit :=
    remote (modify (fun w => set_settings (replace_nth i row (settings w)) w)).

Definition ensureSheetExists (title : string) : M unit :=
    sheets <- getClient ;;
    if negb sheets then ret tt else
    try_catch
      (meta <- spreadsheets_get ;;
       let exists_ := existsb (fun t => (t =? title)%string) meta in
       if negb exists_ then batchUpdate_addSheet title else ret tt)
      (fun e => logger ERROR ("ensureSheetExists(" ++ title ++ ") failed") (Some e)).

  (** [Promise.all] over the three header updates: the three calls are
      made, and the whole rejects with the first rejection. *)
Definition update_headers : M unit :=
    fun w =>
      let '(r1, w1) := values_update_header "settings!A1:B1" w in
      let '(r2, w2) := values_update_header "messages!A1:E1" w1 in
      let '(r3, w3) := values_update_header "facts!A1:D1" w2 in
      match r1, r2, r3 with
      | Throw e, _, _ => (Throw e, w3)
      | _, Throw e, _ => (Throw e, w3)
      | _, _, Throw e => (Throw e, w3)
      | Ok _, Ok _, Ok _ => (Ok tt, w3)
      end.

Definition ensureHeaders : M unit :=
    sheets <- getClient ;;
    if negb sheets then ret tt else
    ensureSheetExists "settings" ;;
    ensureSheetExists "messages" ;;
    ensureSheetExists "facts" ;;
    try_catch update_headers (fun _ => ret tt).

Definition appendMessage (waId : string) (r : Role) (content : string)
             (msgId : option string) : M unit :=
    sheets <- getClient ;;
    if negb sheets then ret tt else
    ensureHeaders ;;
    try_catch
      (ts <- now_iso ;;
       values_append_messages [ts; waId; role_name r; content; Js.or_else msgId ""])
      (fun e => logger ERROR "appendMessage failed" (Some e)).

Definition getSetting (key : string) : M (option string) :=
    sheets <- getClient ;;
    if negb sheets then ret None else
    try_catch
      (rows <- values_get_settings ;;
       ret (first_value key rows))
      (fun e => logger ERROR "getSetting failed" (Some e) ;; ret None).

  (** The predicate of the [filter] of [getRecentConversation]. *)
Definition in_window (parse : string -> Js.number) (waId : string)
             (resetTime : Js.number) (r : list string) : bool :=
    Js.cell_is r 1 waId &&
    (Js.not_number resetTime ||
     Js.gt (match Js.cell r 0 with Some c => parse c | None => None end) resetTime).

Definition to_turn (r : list string) : ChatMessage :=
    mkChat (Js.or_else (Js.cell r 2) "user") (Js.or_else (Js.cell r 3) "").

Definition getRecentConversation (waId : string) (limit : Z) : M (list ChatMessage) :=
    sheets <- getClient ;;
    if negb sheets then ret [] else
    try_catch
      (resetAt <- getSetting ("reset:" ++ waId) ;;
       parse <- gets (fun w => Date_parse (env w)) ;;
       let resetTime : Js.number :=
         if Js.truthy resetAt then parse (Js.or_else resetAt "") else Some 0 in
       values <- values_get_messages ;;
       ret (map to_turn
                (Js.slice_from (- limit)
                   (filter (in_window parse waId resetTime) values))))
      (fun e => logger ERROR "getRecentConversation failed" (Some e) ;; ret []).

  (** The parameter default [limit = 10]. *)
Definition getRecentConversation_default (waId : string) : M (list ChatMessage) :=
    getRecentConversation waId 10.

  (** [msgId] is [None] for a caller that passes [undefined]. *)
Definition hasMessage (msgId : option string) : M bool :=
    if negb (Js.truthy msgId) then ret false else
    sheets <- getClient ;;
    if negb sheets then ret false else
    try_catch
      (values <- values_get_messages ;;
       (* range E2:E: each row holds the cell of column E, or nothing *)
       ret (existsb
              (fun row => (Js.or_else (Js.cell row 4) "" =? Js.or_else msgId "")%string)
              values))
      (fun e => logger ERROR "hasMessage failed" (Some e) ;; ret false).

Definition setSetting (key value : string) : M unit :=
    sheets <- getClient ;;
    if negb sheets then ret tt else
    ensureHeaders ;;
    try_catch
      (rows <- values_get_settings ;;
       match find_row key rows 0 with
       | Some i => values_update_settings i [key; value]
       | None => values_append_settings [key; value]
       end)
      (fun e => logger ERROR "setSetting failed" (Some e)).

Definition getAllSettings : M (list (string * string)) :=
    sheets <- getClient ;;
    if negb sheets then ret [] else
    try_catch
      (rows <- values_get_settings ;;
       ret (collect_settings rows []))
      (fun e => logger ERROR "getAllSettings failed" (Some e) ;; ret []).

Definition resetConversation (waId : string) : M unit :=
    now <- now_iso ;;
    setSetting ("reset:" ++ waId) now.

End SheetsService.

(** ** OpenaiService *)

Definition fallback_text : string := "Sorry, I could not process your request.".

Module OpenaiService.

Definition system_message : ChatMessage :=
    mkChat "system" "You are a helpful WhatsApp assistant. Keep replies short and clear.".

  (** [this.openai.chat.completions.create({ model, messages })] *)
Definition chat_completions_create (msgs : list ChatMessage)
    : M (option (list Choice)) :=
    fun w =>
      let w' := set_completions (completions w ++ [msgs]) w in
      match openai_api (env w) (length (completions w)) msgs with
      | Rejected e => (Throw e, w')
      | Resolved choices => (Ok choices, w')
      end.

  (** [console.error(t, e)] *)
Definition console_error (t : string) (e : JsError) : M unit :=
    logger ERROR t (Some e).

  (** The array [messages] of [generateOpenAIResponse]: the system
      message, the history when there is one, the prompt. *)
Definition request_messages (prompt : string)
             (history : option (list ChatMessage)) : list ChatMessage :=
    ([system_message]
       ++ match history with
          | Some h => h
          | None => []
          end
       ++ [mkChat "user" prompt])%list.

Definition generateOpenAIResponse (prompt : string)
             (history : option (list ChatMessage)) : M string :=
    try_catch
      (let messages := request_messages prompt history in
       choices <- chat_completions_create messages ;;
       match choices with
       | None => throw (TypeError "Cannot read properties of undefined (reading '0')")
       | Some [] => throw (TypeError "Cannot read properties of undefined (reading 'message')")
       | Some (c :: _) =>
           ret (Js.or_else
                  (match message c with
                   | Some content => content
                   | None => None
                   end)
                  "No response")
       end)
      (fun error =>
         console_error "OpenAI error:" error ;;
         ret fallback_text).

End OpenaiService.

(** ** WhatsappService *)

(** Keys that JavaScript treats as array indices: the decimal numerals of
    the integers from 0 to 2^32 - 2.  [Object.entries] lists them first,
    in increasing order, and the other keys after them in the order in
    which they were added. *)
Fixpoint digits_value (s : string) (acc : Z) : option Z :=
  match s with
  | EmptyString => Some acc
  | String c s' =>
      if Js.is_digit c
      then digits_value s' (10 * acc + Z.of_nat (nat_of_ascii c - 48))
      else None
  end.

Definition array_index (k : string) : option Z :=
  match k with
  | EmptyString => None
  | _ =>
      match digits_value k 0 with
      | Some n => if ((Js.show n =? k)%string && (n <? 4294967295))%bool then Some n else None
      | None => None
      end
  end.

Definition is_array_index (k : string) : bool :=
  match array_index k with
  | Some _ => true
  | None => false
  end.

Definition index_of (e : string * string) : Z :=
  match array_index (fst e) with
  | Some n => n
  | None => 0
  end.

Fixpoint insert_by_index (e : string * string) (l : list (string * string))
  : list (string * string) :=
  match l with
  | [] => [e]
  | x :: l' => if index_of e <=? index_of x then e :: l else x :: insert_by_index e l'
  end.

Definition sort_by_index (l : list (string * string)) : list (string * string) :=
  fold_right insert_by_index [] l.

Definition Object_entries (o : list (string * string)) : list (string * string) :=
  (sort_by_index (filter (fun e => is_array_index (fst e)) o)
     ++ filter (fun e => negb (is_array_index (fst e))) o)%list.

Definition newline : string := String (ascii_of_nat 10) EmptyString.

(** The collaborators handed to the constructor of [WhatsappService], as
    far as the service calls them. *)
Class Sheets := {
  sheets_hasMessage : option string -> M bool;
  sheets_appendMessage : string -> Role -> string -> option string -> M unit;
  sheets_getRecentConversation : string -> Z -> M (list ChatMessage);
  sheets_getAllSettings : M (list (string * string))
}.

Class Openai := {
  openai_generateOpenAIResponse : string -> option (list ChatMessage) -> M string
}.

Module WhatsappService.

  (** [axios.request(config)]; the answer is the status of the response. *)
Definition axios_request (config : AxiosConfig) : M Z :=
    fun w =>
      let w' := set_requests (requests w ++ [config]) w in
      match axios_api (env w) (length (requests w)) config with
      | Status s => (Ok s, w')
      | Failed e => (Throw e, w')
      end.

  (** [process.env.X?.trim()] *)
Definition env_trim (x : Env -> option string) : M (option string) :=
    gets (fun w => option_map Js.trim (x (env w))).

Definition show_status (status : option Z) : string :=
    match status with
    | Some s => if s =? 0 then "no-status" else Js.show s
    | None => "no-status"
    end.

Definition show_or_na (x : option Z) : string :=
    match x with
    | Some z => Js.show z
    | None => "n/a"
    end.

Definition text_or_na (x : option string) : string :=
    match x with
    | Some s => s
    | None => "n/a"
    end.

Definition equals (x : option Z) (n : Z) : bool :=
    match x with
    | Some z => z =? n
    | None => false
    end.

  (** The catch block of [sendMessage]. *)
Definition send_failed (error : JsError) : M unit :=
    let status := e_status error in
    let errObj := e_error error in
    let errMsg :=
      Js.or_else (match errObj with Some o => ge_message o | None => None end)
                 (Js.or_else (e_message error) "unknown error") in
    let errCode := match errObj with Some o => ge_code o | None => None end in
    let errSub := match errObj with Some o => ge_error_subcode o | None => None end in
    let errType := match errObj with Some o => ge_type o | None => None end in
    let trace := match errObj with Some o => ge_fbtrace_id o | None => None end in
    logger ERROR
      ("WhatsApp send failed (" ++ show_status status ++ ") [code=" ++ show_or_na errCode
         ++ " sub=" ++ show_or_na errSub ++ " type=" ++ text_or_na errType
         ++ " trace=" ++ text_or_na trace ++ "]: " ++ errMsg) None ;;
    if equals status 401 || equals errCode 190 then
      logger WARN "Access token invalid/expired. Generate a new permanent token in Meta Developer and update WHATSAPP_API_KEY." None
    else if equals status 400
            && Js.test_any_ci ["Unsupported post request"; "does not exist"; "cannot be loaded"] errMsg then
      logger WARN "Phone Number ID likely does not belong to this token/app. Verify WHATSAPP_PHONE_NUMBER_ID and the token are from the same WhatsApp Business Account." None
    else if equals status 400 && Js.test_any_ci ["Invalid parameter"; "#100"] errMsg then
      logger WARN "Invalid parameter. Check WHATSAPP_API_VERSION and payload fields (to, type=text)." None
    else if equals status 403 || equals errCode 10 || equals errCode 200 then
      logger WARN "Permission issue. Ensure the app has WhatsApp permissions and the number is in the allowed/testers list if in Development mode." None
    else if equals status 429 || equals errCode 613 then
      logger WARN "Rate limit hit. Slow down message sending." None
    else ret tt.

Definition sendMessage (to message : string) : M unit :=
    apiKey <- env_trim WHATSAPP_API_KEY ;;
    apiVersion <- env_trim WHATSAPP_API_VERSION ;;
    phoneId <- env_trim WHATSAPP_PHONE_NUMBER_ID ;;
    if negb (Js.truthy apiKey) || negb (Js.truthy apiVersion) || negb (Js.truthy phoneId) then
      logger WARN "Missing WhatsApp API env vars. Skipping send." None
    else
      (* Normalize recipient number to digits-only (wa_id format) *)
      let toDigits := Js.remove_non_digits (Js.or_else (Some to) "") in
      if negb (Js.truthy (Some toDigits)) then
        logger WARN "sendMessage called with invalid recipient number" None
      else
        let config :=
          mkAxios ("https://graph.facebook.com/" ++ Js.or_else apiVersion "" ++ "/"
                     ++ Js.or_else phoneId "" ++ "/messages")
                  ("Bearer " ++ Js.or_else apiKey "")
                  toDigits message in
        try_catch
          (status <- axios_request config ;;
           logger LOG ("WhatsApp send ok: " ++ Js.show status) None)
          send_failed.

  (** Lines 127-134 of [handleUserMessage]: the prompt made of the
      business facts of the settings and of the message. *)
Definition bizEntries (settings : list (string * string)) : list string :=
    map (fun e => Js.underscores_to_spaces (Js.replace_first "biz:" "" (fst e))
                    ++ ": " ++ snd e)
        (filter (fun e => Js.startsWith (fst e) "biz:") (Object_entries settings)).

Definition bizContext (settings : list (string * string)) : string :=
    if (length (bizEntries settings) =? 0)%nat then ""
    else "Business facts — " ++ Js.join " | " (bizEntries settings).

Definition build_prompt (settings : list (string * string)) (message : string) : string :=
    if Js.truthy (Some (bizContext settings))
    then bizContext settings ++ newline ++ newline ++ "User: " ++ message
    else message.

Section Pipeline.

Context {sheets : Sheets} {openaiService : Openai}.

    (** The [try] block of [handleUserMessage]. *)
Definition handleUserMessage_try (number message : string) (msgId : option string)
      : M unit :=
      (* Dedupe by message ID if provided *)
      dup <- (if Js.truthy msgId then sheets_hasMessage msgId else ret false) ;;
      if dup then
        logger WARN ("Duplicate message ignored: " ++ Js.or_else msgId "") None
      else
        (* Save user message *)
        sheets_appendMessage number user message msgId ;;
        history <- sheets_getRecentConversation number 12 ;;
        (* Pull business facts from settings *)
        settings <- sheets_getAllSettings ;;
        let prompt := build_prompt settings message in
        reply <- openai_generateOpenAIResponse prompt (Some history) ;;
        (* Save bot reply *)
        sheets_appendMessage number assistant reply None ;;
        sendMessage number reply.

    (** The [catch] block of [handleUserMessage]. *)
Definition handleUserMessage_catch (number : string) (e : JsError) : M unit :=
      logger ERROR "Error handling user message:" (Some e) ;;
      sendMessage number fallback_text.

Definition handleUserMessage (number message : string) (msgId : option string)
      : M unit :=
      try_catch (handleUserMessage_try number message msgId)
                (handleUserMessage_catch number).

End Pipeline.

End WhatsappService.

(** The services as the application wires them. *)
#[export] Instance sheetsService : Sheets := {
  sheets_hasMessage := SheetsService.hasMessage;
  sheets_appendMessage := SheetsService.appendMessage;
  sheets_getRecentConversation := SheetsService.getRecentConversation;
  sheets_getAllSettings := SheetsService.getAllSettings
}.

#[export] Instance openaiService : Openai := {
  openai_generateOpenAIResponse := OpenaiService.generateOpenAIResponse
}.

Definition handle : string -> string -> option string -> M unit :=
  @WhatsappService.handleUserMessage sheetsService openaiService.

(** A store whose settings cannot be read in a way the store itself does
    not catch: a collaborator that throws. *)
Definition broken_sheets : Sheets := {|
  sheets_hasMessage := fun _ => ret false;
  sheets_appendMessage := fun _ _ _ _ => ret tt;
  sheets_getRecentConversation := fun _ _ => ret [];
  sheets_getAllSettings := throw boom
|}.

(** ** Concrete surroundings, for running the services *)

Definition digits_at (s : string) (start len : nat) : option Z :=
  let t := substring start len s in
  if (String.length t =? len)%nat then digits_value t 0 else None.

Definition char_at (s : string) (i : nat) (c : ascii) : bool :=
  match String.get i s with
  | Some c' => (c' =? c)%char
  | None => false
  end.

(** Days from 1970-01-01 to the day [d] of month [m] of year [y] in the
    proleptic Gregorian calendar. *)
Definition days_from_civil (y m d : Z) : Z :=
  let y' := if m <=? 2 then y - 1 else y in
  let era := y' / 400 in
  let yoe := y' - era * 400 in
  let doy := (153 * (if 2 <? m then m - 3 else m + 9) + 2) / 5 + d - 1 in
  let doe := yoe * 365 + yoe / 4 - yoe / 100 + doy in
  era * 146097 + doe - 719468.

Definition days_in_month (y m : Z) : Z :=
  if m =? 2 then
    if ((y mod 4 =? 0) && negb (y mod 100 =? 0)) || (y mod 400 =? 0) then 29 else 28
  else if (m =? 4) || (m =? 6) || (m =? 9) || (m =? 11) then 30
  else 31.

(** [Date.parse] on the strings [toISOString] produces,
    [YYYY-MM-DDTHH:mm:ss.sssZ]; every other string is [NaN] here, while the
    platform reads some other formats too. *)
Definition iso_Date_parse (s : string) : Js.number :=
  if ((String.length s =? 24)%nat
      && char_at s 4 "-" && char_at s 7 "-" && char_at s 10 "T"
      && char_at s 13 ":" && char_at s 16 ":" && char_at s 19 "." && char_at s 23 "Z")%bool
  then
    match digits_at s 0 4, digits_at s 5 2, digits_at s 8 2,
          digits_at s 11 2, digits_at s 14 2, digits_at s 17 2, digits_at s 20 3 with
    | Some y, Some mo, Some d, Some h, Some mi, Some se, Some ms =>
        if ((1 <=? mo) && (mo <=? 12) && (1 <=? d) && (d <=? days_in_month y mo)
            && (h <=? 23) && (mi <=? 59) && (se <=? 59))%bool
        then Some ((((days_from_civil y mo d * 24 + h) * 60 + mi) * 60 + se) * 1000 + ms)
        else None
    | _, _, _, _, _, _, _ => None
    end
  else None.

(** A day on which the clock is read once a minute from 10:00 on. *)
Definition demo_clock (k : nat) : string :=
  nth k ["2024-05-01T10:00:00.000Z"; "2024-05-01T10:01:00.000Z";
         "2024-05-01T10:02:00.000Z"; "2024-05-01T10:03:00.000Z"]
      "2024-05-01T10:04:00.000Z".

Definition demo_env : Env :=
  mkEnv (Some "EAAG-token") (Some "v21.0") (Some "123456789012345")
        Ready iso_Date_parse demo_clock
        (fun _ _ => Resolved (Some [mkChoice (Some (Some "We are open 9to5."))]))
        (fun _ _ => Status 200).

Definition all_tabs : list string := ["settings"; "messages"; "facts"].

(** A spreadsheet with the three tabs, the given data rows, and the given
    outcomes of the coming Sheets calls. *)
Definition demo_world (fs : list (option JsError)) (msgs sets : list (list string)) : World :=
  mkWorld demo_env 0 fs all_tabs msgs sets [] [] [].

(** ** Vocabulary of the properties *)

(** [m] never lets a thrown value out. *)
Definition safe {A : Type} (m : M A) : Prop :=
  forall w, exists a w', m w = (Ok a, w').

(** Whatever its outcome, [m] moves the world along [R]. *)
Definition keeps (R : World -> World -> Prop) {A : Type} (m : M A) : Prop :=
  forall w, R w (snd (m w)).

Fixpoint all_digits (s : string) : bool :=
  match s with
  | EmptyString => true
  | String c s' => Js.is_digit c && all_digits s'
  end.

(** The three variables [sendMessage] needs are set, and not blank. *)
Definition whatsapp_configured (w : World) : bool :=
  Js.truthy (option_map Js.trim (WHATSAPP_API_KEY (env w)))
  && Js.truthy (option_map Js.trim (WHATSAPP_API_VERSION (env w)))
  && Js.truthy (option_map Js.trim (WHATSAPP_PHONE_NUMBER_ID (env w))).

(** The log of [w'] is the log of [w] with [lines] after it. *)
Definition logged (w w' : World) (lines : list LogLine) : Prop :=
  log w' = (log w ++ lines)%list.

(** [m], run in [w], catches the failure [e]: it returns [d], and the log
    is the log of [w0] followed by one error line, [text] with [e]. *)
Definition caught_and_logged {A : Type} (m : M A) (d : A) (text : string)
           (e : JsError) (w0 w : World) : Prop :=
  exists w', m w = (Ok d, w') /\ logged w0 w' [mkLog ERROR text (Some e)].

(** What [getClient] logs when it fails to set the client up with [e]. *)
Definition init_failure_lines (e : JsError) : list LogLine :=
  [mkLog ERROR "Failed to init Google Sheets client" None;
   mkLog ERROR "" (Some e);
   mkLog WARN "Provide credentials via file. Preferred: service-account.json at project root, or set GOOGLE_SERVICE_ACCOUNT_PATH to the file." None].

(** [m], run in [w], gives up on a client that cannot be set up: it
    returns [d] after [getClient] has logged the failure. *)
Definition gives_up {A : Type} (m : M A) (d : A) (e : JsError) (w : World) : Prop :=
  exists w', m w = (Ok d, w') /\ logged w w' (init_failure_lines e).

(** The three tab checks [ensureHeaders] starts with; the three writes of
    the header rows come after them. *)
Definition tab_checks : M unit :=
  SheetsService.ensureSheetExists "settings" ;;
  SheetsService.ensureSheetExists "messages" ;;
  SheetsService.ensureSheetExists "facts".

(** The wording of the specification for one business fact: the key
    without its prefix [biz:], underscores turned into spaces, then the
    value. *)
Definition humanized (e : string * string) : string :=
  Js.underscores_to_spaces (Js.drop 4 (fst e)) ++ ": " ++ snd e.

Definition is_biz (e : string * string) : bool := Js.startsWith (fst e) "biz:".

(** The same wording, and the prompt of the specification, written on
    the characters and without the helpers of the service, to set the
    service against.  The line feed is the character of code 10. *)
Definition line_feed : ascii := "010"%char.

Definition key_words (k : string) : string :=
  string_of_list_ascii
    (map (fun c : ascii => if (c =? "_")%char then " "%char else c)
         (skipn 4 (list_ascii_of_string k))).

Definition fact_text (e : string * string) : string :=
  key_words (fst e) ++ ": " ++ snd e.

(** The message itself when no key starts with [biz:]; otherwise the line
    of the business facts, two line feeds, and the message after
    [User: ]. *)
Definition spec_prompt (settings : list (string * string)) (message : string) : string :=
  match filter is_biz settings with
  | [] => message
  | facts =>
      "Business facts — " ++ String.concat " | " (map fact_text facts)
        ++ String line_feed (String line_feed ("User: " ++ message))
  end.

(** What no method of the store changes apart from the rows: the
    surroundings, the requests sent and the chats asked for. *)
Definition outside_kept (w w' : World) : Prop :=
  env w' = env w /\ requests w' = requests w /\ completions w' = completions w.

(** The data rows of both tabs are the same, and so is the clock. *)
Definition rows_kept (w w' : World) : Prop :=
  outside_kept w w' /\ ticks w' = ticks w
  /\ messages w' = messages w /\ settings w' = settings w.

(** The settings are the same and the clock has not gone back. *)
Definition settings_kept (w w' : World) : Prop :=
  env w' = env w /\ settings w' = settings w /\ (ticks w <= ticks w')%nat.

Definition sheets_ready (w : World) : bool :=
  match sheets_config (env w) with
  | Ready => true
  | _ => false
  end.

(** The cutoff [getRecentConversation] computes from the value it finds
    under [reset:<waId>]. *)
Definition reset_time (parse : string -> Js.number) (resetAt : option string) : Js.number :=
  if Js.truthy resetAt then parse (Js.or_else resetAt "") else Some 0.

(** The rows of [w] that pass the filter of [getRecentConversation] for
    [waId] when the settings can be read. *)
Definition qualifying (w : World) (waId : string) : list (list string) :=
  filter (SheetsService.in_window (Date_parse (env w)) waId
            (reset_time (Date_parse (env w))
               (first_value ("reset:" ++ waId) (settings w))))
         (messages w).

(** The world after one more Sheets call has been answered. *)
Definition answered (w : World) : World := set_faults (tl (faults w)) w.

Definition with_log (lines : list LogLine) (w : World) : World :=
  set_log (log w ++ lines) w.

(** The value of a settings key after [setSetting key value] has gone
    through: the first row of the key is rewritten, or a row is added. *)
Definition upsert (key value : string) (rows : list (list string)) : list (list string) :=
  match find_row key rows 0 with
  | Some i => replace_nth i [key; value] rows
  | None => (rows ++ [[key; value]])%list
  end.

(** Once every coming Sheets call succeeds, this stays so. *)
Definition faults_done (w w' : World) : Prop :=
  faults w = [] -> faults w' = [].

(** The surroundings, the clock and the rows of both tabs are the same. *)
Definition store_kept (w w' : World) : Prop :=
  env w' = env w /\ ticks w' = ticks w
  /\ messages w' = messages w /\ settings w' = settings w.

(** The message id a row carries: the cell of column E, empty when the
    cell is missing. *)
Definition row_id (r : list string) : string := Js.or_else (Js.cell r 4) "".

(** A turn of role [user] with message id [m] is stored. *)
Definition has_user_turn (rows : list (list string)) (m : string) : Prop :=
  exists r, In r rows /\ Js.cell_is r 2 "user" = true /\ row_id r = m.

(** Only turns of role [user] carry a message id, as the pipeline writes
    them: it gives no id to the turns of the assistant. *)
Definition ids_on_user_turns (rows : list (list string)) : Prop :=
  forall r, In r rows -> row_id r <> "" -> Js.cell_is r 2 "user" = true.

(** The window of the specification, for the result [res] of a call of
    [getRecentConversation waId limit] in [w]: the result is the turns of
    at most [limit] stored rows of [waId], and these rows are the end of
    what a filter of the stored rows on user and cutoff gives. *)
Definition window_ok (waId : string) (limit : Z) (w : World)
           (res : Outcome (list ChatMessage) * World) : Prop :=
  exists rows w',
    res = (Ok (map SheetsService.to_turn rows), w')
    /\ (Z.of_nat (length rows) <= limit)
    /\ Forall (fun r => Js.cell_is r 1 waId = true) rows
    /\ (rows = [] \/
        exists resetTime before,
          filter (SheetsService.in_window (Date_parse (env w)) waId resetTime) (messages w)
          = (before ++ rows)%list).

(** [l] is made of elements of [l'], in the order they have in [l']. *)
Inductive subsequence {A : Type} : list A -> list A -> Prop :=
| subsequence_nil : subsequence [] []
| subsequence_skip x l l' : subsequence l l' -> subsequence l (x :: l')
| subsequence_keep x l l' : subsequence l l' -> subsequence (x :: l) (x :: l').

(** The rows [getRecentConversation] filters in [w] for [waId] once it
    has read the messages: with the cutoff of the marker when the marker
    was read, and without a cutoff when that read failed. *)
Definition filtered (w : World) (waId : string) : list (list string) :=
  match hd None (faults w) with
  | None => qualifying w waId
  | Some _ =>
      filter (SheetsService.in_window (Date_parse (env w)) waId (Some 0)) (messages w)
  end.

(** ** Histories of calls *)

(** What can happen to the store between two calls of interest: any
    method of the store, the pipeline, a send, and the surroundings
    deciding anew how the coming Sheets calls will end. *)
Inductive StoreCall :=
| CallHasMessage (msgId : option string)
| CallAppendMessage (waId : string) (r : Role) (content : string) (msgId : option string)
| CallGetRecentConversation (waId : string) (limit : Z)
| CallGetSetting (key : string)
| CallSetSetting (key value : string)
| CallGetAllSettings
| CallResetConversation (waId : string)
| CallHandleUserMessage (number message : string) (msgId : option string)
| CallSendMessage (to message : string)
| Surroundings (fs : list (option JsError)).

Definition call (c : StoreCall) (w : World) : World :=
  match c with
  | CallHasMessage msgId => snd (SheetsService.hasMessage msgId w)
  | CallAppendMessage waId r content msgId =>
      snd (SheetsService.appendMessage waId r content msgId w)
  | CallGetRecentConversation waId limit =>
      snd (SheetsService.getRecentConversation waId limit w)
  | CallGetSetting key => snd (SheetsService.getSetting key w)
  | CallSetSetting key value => snd (SheetsService.setSetting key value w)
  | CallGetAllSettings => snd (SheetsService.getAllSettings w)
  | CallResetConversation waId => snd (SheetsService.resetConversation waId w)
  | CallHandleUserMessage number message msgId => snd (handle number message msgId w)
  | CallSendMessage to message => snd (WhatsappService.sendMessage to message w)
  | Surroundings fs => set_faults fs w
  end.

Definition calls (cs : list StoreCall) (w : World) : World :=
  fold_left (fun w c => call c w) cs w.

(** The reset marker of [waId] is written by [resetConversation] only. *)
Definition leaves_marker (waId : string) (c : StoreCall) : Prop :=
  match c with
  | CallSetSetting key _ => key <> "reset:" ++ waId
  | _ => True
  end.

(** [Date.parse(r[0])], the instant of a stored row. *)
Definition timestamp (w : World) (r : list string) : Js.number :=
  match Js.cell r 0 with
  | Some c => Date_parse (env w) c
  | None => None
  end.

(** From the [k0]-th reading on, the clock shows instants from [T] on. *)
Definition clock_from (e : Env) (k0 : nat) (T : Z) : Prop :=
  forall k, (k0 <= k)%nat -> exists t, Date_parse e (clock e k) = Some t /\ T <= t.

(** The marker of [waId] in [w] is an instant from [T] on. *)
Definition marker_from (waId : string) (T : Z) (w : World) : Prop :=
  exists s t,
    first_value ("reset:" ++ waId) (settings w) = Some s
    /\ Date_parse (env w) s = Some t /\ T <= t.

(** [upsert], by recursion on the rows. *)
Fixpoint upsert_rec (key value : string) (rows : list (list string)) : list (list string) :=
  match rows with
  | [] => [[key; value]]
  | r :: rows' =>
      if Js.cell_is r 0 key then [key; value] :: rows' else r :: upsert_rec key value rows'
  end.


(** ** Vocabulary of the further properties *)

(** The value of the own property [k] of a record built by [record_set],
    as [Object.entries] lists it. *)
Fixpoint record_get (k : string) (m : list (string * string)) : option string :=
  match m with
  | [] => None
  | (k', v) :: m' => if (k' =? k)%string then Some v else record_get k m'
  end.

(** The first cells of the rows of a tab, [undefined] included. *)
Definition row_keys (rows : list (list string)) : list (option string) :=
  map (fun r => Js.cell r 0) rows.

(** The message rows of [w'] are those of [w], with rows after them. *)
Definition messages_grow (w w' : World) : Prop :=
  exists more, messages w' = (messages w ++ more)%list.

(** The tabs of [w'] include those of [w]. *)
Definition tabs_grow (w w' : World) : Prop :=
  forall t, In t (tabs w) -> In t (tabs w').

(** Nothing but the log differs between [w] and [w']. *)
Definition only_logged (w w' : World) : Prop :=
  exists lines, w' = with_log lines w.

(** The answer of [generateOpenAIResponse] to what the chat API did. *)
Definition reply_of (c : Completion) : string :=
  match c with
  | Rejected _ => fallback_text
  | Resolved None => fallback_text
  | Resolved (Some []) => fallback_text
  | Resolved (Some (c :: _)) =>
      Js.or_else (match message c with
                  | Some content => content
                  | None => None
                  end) "No response"
  end.

Fixpoint all_spaces (s : string) : bool :=
  match s with
  | EmptyString => true
  | String c s' => Js.is_space c && all_spaces s'
  end.

(** No Sheets call was made between [w] and [w'], and nothing was sent
    or asked for: the outcomes of the coming calls, the tabs and the rows
    are the same. *)
Definition untouched (w w' : World) : Prop :=
  faults w' = faults w /\ tabs w' = tabs w
  /\ messages w' = messages w /\ settings w' = settings w
  /\ requests w' = requests w /\ completions w' = completions w.

(** Every stored row is from [T] or before, or has no readable instant. *)
Definition all_until (T : Z) (w : World) : Prop :=
  forall r, In r (messages w) ->
            match timestamp w r with
            | Some t => t <= T
            | None => True
            end.

(** The calls that are not meant to write a setting. *)
Definition writes_no_setting (c : StoreCall) : Prop :=
  match c with
  | CallSetSetting _ _ => False
  | CallResetConversation _ => False
  | _ => True
  end.

(** If only [user] turns carried an id before, so it is after. *)
Definition ids_kept (w w' : World) : Prop :=
  ids_on_user_turns (messages w) -> ids_on_user_turns (messages w').

(** What a call leaves of a world in which no Sheets call will fail. *)
Definition healthy_after (w w' : World) : Prop :=
  env w' = env w /\ faults w' = [] /\ settings w' = settings w
  /\ requests w' = requests w /\ completions w' = completions w.

(** The request [sendMessage] makes in [w] for a recipient and a text:
    none without the three variables or without a digit. *)
Definition sent_to (w w' : World) (to text : string) : Prop :=
  if whatsapp_configured w && Js.truthy (Some (Js.remove_non_digits to)) then
    exists cfg,
      requests w' = (requests w ++ [cfg])%list
      /\ data_to cfg = Js.remove_non_digits to
      /\ data_body cfg = text
  else requests w' = requests w.

(** ** WhatsappController (src/whatsapp/whatsapp.controller.ts) *)

(** A value taken from a request body that nothing has checked, where
    the code goes on as if it were a string.  [JsOther] stands for every
    value that is not a string ([undefined] for a missing field, [null],
    a number, a boolean, an object) by what the code looks at: whether
    the value is truthy, and its rendering in a template literal. *)
Inductive JsValue :=
| JsString (s : string)
| JsOther (truthy : bool) (shown : string).

(** [!!v] *)
Definition value_truthy (v : JsValue) : bool :=
  match v with
  | JsString s => Js.truthy (Some s)
  | JsOther t _ => t
  end.

(** [`${v}`] *)
Definition value_show (v : JsValue) : string :=
  match v with
  | JsString s => s
  | JsOther _ shown => shown
  end.

(** [WhatsappService.sendMessage(to, message)] as the controller calls
    it, with a [to] that nothing has checked.  [(to || '')] is [to]
    itself when [to] is truthy, and a truthy value that is not a string
    has no method [replace]: once the three variables have been found
    the call throws a [TypeError], before the [try] of [sendMessage]. *)
Definition sendMessage_unchecked (to : JsValue) (message : string) : M unit :=
  match to with
  | JsString s => WhatsappService.sendMessage s message
  | JsOther false _ => WhatsappService.sendMessage "" message
  | JsOther true _ =>
      apiKey <- WhatsappService.env_trim WHATSAPP_API_KEY ;;
      apiVersion <- WhatsappService.env_trim WHATSAPP_API_VERSION ;;
      phoneId <- WhatsappService.env_trim WHATSAPP_PHONE_NUMBER_ID ;;
      if negb (Js.truthy apiKey) || negb (Js.truthy apiVersion) || negb (Js.truthy phoneId) then
        logger WARN "Missing WhatsApp API env vars. Skipping send." None
      else
        throw (TypeError "(to || '').replace is not a function")
  end.

(** What a handler does with [res]. *)
Inductive Response :=
| SendStatus (code : Z)                       (* [res.sendStatus(code)] *)
| StatusSend (code : Z) (body : option string) (* [res.status(code).send(body)] *)
| StatusJsonError (code : Z) (error : string)  (* [res.status(code).json({ error })] *)
| JsonOk.                                      (* [res.json({ ok: true })] *)

(** [req.query] of the verification request. *)
Record Query := mkQuery {
  hub_mode : option string;
  hub_verify_token : option string;
  hub_challenge : option string
}.

(** The body of [POST send-test]; [to] is handed to [sendMessage] as it
    came. *)
Record SendTestBody := mkSendTest {
  body_to : JsValue;
  body_text : option string
}.

(** The webhook payload, as far as [handleWebhook] reads it.  The
    [wa_id] of the contact is handed to the service as it came; the
    texts and ids of the message are strings where they are present. *)
Record Contact := mkContact {
  wa_id : JsValue;
  profile_name : option string
}.

Record InboundMessage := mkInbound {
  text_body : option string;
  button_text : option string;
  button_reply_title : option string;
  list_reply_title : option string;
  message_id : option string;
  message_key_id : option string
}.

Record ChangeValue := mkValue {
  value_contacts : option (list Contact);
  value_messages : option (list InboundMessage)
}.

Record Change := mkChange {
  change_value : option ChangeValue
}.

Record Entry := mkEntry {
  entry_changes : option (list Change)
}.

(** [req.body]; [entry] is [None] when the field is missing or is not an
    array. *)
Record WebhookBody := mkBody {
  body_entry : option (list Entry)
}.

(** The variables [health] looks at besides the three of [sendMessage]. *)
Record HealthEnv := mkHealthEnv {
  OPENAI_API_KEY : option string;
  GOOGLE_SERVICE_ACCOUNT : option string;
  GOOGLE_SERVICE_ACCOUNT_PATH : option string;
  GOOGLE_SHEETS_ID : option string
}.

Record Health := mkHealth {
  hasApiKey : bool;
  hasVersion : bool;
  hasPhoneId : bool;
  hasKey : bool;
  hasCreds : bool;
  hasSheetId : bool
}.

(** [a || b] on strings that may be [undefined]. *)
Definition or_option (a b : option string) : option string :=
  if Js.truthy a then a else b.

(** [`${x}`] for a string that may be [undefined]. *)
Definition show_option (x : option string) : string :=
  match x with
  | Some s => s
  | None => "undefined"
  end.

Module WhatsappController.

Definition test : string := "nugitha".

(** [verify_key] is [process.env.WHATSAPP_CHALLANGE_KEY]; the result is
    [None] when the handler sends no response. *)
Definition challengeWebhook (verify_key : option string) (q : Query)
  : M (option Response) :=
  let mode := hub_mode q in
  let token := hub_verify_token q in
  let challenge := hub_challenge q in
  if Js.truthy mode && Js.truthy token then
    let verifyToken := option_map Js.trim verify_key in
    if match mode with Some m => (m =? "subscribe")%string | None => false end
       && match token, verifyToken with
          | Some t, Some v => (t =? v)%string
          | None, None => true
          | _, _ => false
          end
    then
      logger LOG "WEBHOOK_VERIFIED" None ;;
      ret (Some (StatusSend 200 challenge))
    else ret (Some (SendStatus 403))
  else ret None.

Definition health (e : HealthEnv) : M Health :=
  w <- gets (fun w => w) ;;
  ret (mkHealth (Js.truthy (WHATSAPP_API_KEY (env w)))
                (Js.truthy (WHATSAPP_API_VERSION (env w)))
                (Js.truthy (WHATSAPP_PHONE_NUMBER_ID (env w)))
                (Js.truthy (OPENAI_API_KEY e))
                (Js.truthy (GOOGLE_SERVICE_ACCOUNT e)
                 || Js.truthy (GOOGLE_SERVICE_ACCOUNT_PATH e))
                (Js.truthy (GOOGLE_SHEETS_ID e))).

Definition sendTest (body : option SendTestBody) : M Response :=
  let to := match body with Some b => body_to b | None => JsOther false "undefined" end in
  let text :=
    Js.or_else (match body with Some b => body_text b | None => None end)
               "Hello! How can I assist you today?" in
  if negb (value_truthy to) then
    ret (StatusJsonError 400 "Missing to (phone number with country code)")
  else
    sendMessage_unchecked to text ;;
    ret JsonOk.

(** [l?.[0]] *)
Definition first {A : Type} (l : option (list A)) : option A :=
  match l with
  | Some (x :: _) => Some x
  | _ => None
  end.

Section Webhook.

(** [this.whatsappService.handleUserMessage], which [handleWebhook] calls
    with the [wa_id] of the body as it came. *)
Variable handleUserMessage_unchecked : JsValue -> string -> option string -> M unit.

(** The [try] block of [handleWebhook]. *)
Definition handleWebhook_try (body : option WebhookBody) : M Response :=
  let entry := match body with Some b => body_entry b | None => None end in
  match entry with
  | None | Some [] =>
      logger WARN "Webhook received without entry" None ;;
      ret (SendStatus 200)
  | Some (entry0 :: _) =>
      let change :=
        match first (entry_changes entry0) with
        | Some c => change_value c
        | None => None
        end in
      let contact := match change with Some v => first (value_contacts v) | None => None end in
      let message := match change with Some v => first (value_messages v) | None => None end in
      match contact, message with
      | Some contact, Some message =>
          let senderNumber := wa_id contact in
          let senderName := profile_name contact in
          let messageText :=
            Js.or_else
              (or_option (text_body message)
                 (or_option (button_text message)
                    (or_option (button_reply_title message) (list_reply_title message))))
              "" in
          let messageId :=
            Js.or_else (or_option (message_id message) (message_key_id message)) "" in
          logger LOG ("Sender Number: " ++ value_show senderNumber) None ;;
          logger LOG ("Message: " ++ messageText) None ;;
          logger LOG ("Sender Name: " ++ show_option senderName) None ;;
          if negb (Js.truthy (Some messageText)) then
            sendMessage_unchecked senderNumber "Please send a text message." ;;
            ret (SendStatus 200)
          else
            handleUserMessage_unchecked senderNumber messageText (Some messageId) ;;
            ret (SendStatus 200)
      | _, _ =>
          logger WARN "Webhook missing contact or message" None ;;
          ret (SendStatus 200)
      end
  end.

Definition handleWebhook (body : option WebhookBody) : M Response :=
  try_catch (handleWebhook_try body)
            (fun e => logger ERROR "" (Some e) ;; ret (SendStatus 500)).

End Webhook.

End WhatsappController.


(** The contact and the message [handleWebhook] works on: the first ones
    of the first change of the first entry. *)
Definition first_contact (body : option WebhookBody) : option Contact :=
  match body with
  | Some (mkBody (Some (mkEntry (Some (mkChange (Some v) :: _)) :: _))) =>
      WhatsappController.first (value_contacts v)
  | _ => None
  end.

Definition first_message (body : option WebhookBody) : option InboundMessage :=
  match body with
  | Some (mkBody (Some (mkEntry (Some (mkChange (Some v) :: _)) :: _))) =>
      WhatsappController.first (value_messages v)
  | _ => None
  end.



(** Such a service, for the examples: it runs the pipeline for a number
    that is a string and refuses every other number. *)
Definition pipeline_for_strings (number : JsValue) (message : string)
           (msgId : option string) : M unit :=
  match number with
  | JsString s => handle s message msgId
  | JsOther _ _ => throw (TypeError "number is not a string")
  end.

(** ** Clock order *)

Fixpoint nondecreasing (ts : list Z) : Prop :=
  match ts with
  | [] => True
  | t :: rest => Forall (Z.le t) rest /\ nondecreasing rest
  end.

(** Every row of [rows] has a readable instant, and the instants do not
    decrease along [rows]. *)
Definition ordered (w : World) (rows : list (list string)) : Prop :=
  exists ts, map (timestamp w) rows = map Some ts /\ nondecreasing ts.

(** From the [k0]-th reading on, the clock shows readable instants that
    do not go back. *)
Definition clock_monotone (e : Env) (k0 : nat) : Prop :=
  forall k k', (k0 <= k)%nat -> (k <= k')%nat ->
    exists t t',
      Date_parse e (clock e k) = Some t /\ Date_parse e (clock e k') = Some t' /\ t <= t'.

(** The stored rows are in clock order, none of them is later than the
    next reading of the clock, and the clock will not go back. *)
Definition chronological (w : World) : Prop :=
  clock_monotone (env w) (ticks w)
  /\ exists ts,
       map (timestamp w) (messages w) = map Some ts
       /\ nondecreasing ts
       /\ Forall (fun t => exists t0,
                     Date_parse (env w) (clock (env w) (ticks w)) = Some t0 /\ t <= t0) ts.

Definition order_kept (w w' : World) : Prop := chronological w -> chronological w'.

(** ** The earlier version of WhatsappService.sendMessage
       (src/whatsapp/whatsapp.service.ts, lines 49-93) *)

Module EarlierWhatsappService.

(** The catch block of the earlier [sendMessage]. *)
Definition send_failed (error : JsError) : M unit :=
  let status := e_status error in
  let errObj := e_error error in
  let errMsg :=
    Js.or_else (match errObj with Some o => ge_message o | None => None end)
               (Js.or_else (e_message error) "unknown error") in
  logger ERROR
    ("WhatsApp send failed (" ++ WhatsappService.show_status status ++ "): " ++ errMsg) None ;;
  if WhatsappService.equals status 401 then
    logger WARN "Your WHATSAPP_API_KEY is invalid or expired. Refresh the token in Meta Developer and update the env." None
  else ret tt.

Definition sendMessage (to message : string) : M unit :=
  apiKey <- gets (fun w => WHATSAPP_API_KEY (env w)) ;;
  apiVersion <- gets (fun w => WHATSAPP_API_VERSION (env w)) ;;
  phoneId <- gets (fun w => WHATSAPP_PHONE_NUMBER_ID (env w)) ;;
  if negb (Js.truthy apiKey) || negb (Js.truthy apiVersion) || negb (Js.truthy phoneId) then
    logger WARN "Missing WhatsApp API env vars. Skipping send." None
  else
    let config :=
      mkAxios ("https://graph.facebook.com/" ++ Js.or_else apiVersion "" ++ "/"
                 ++ Js.or_else phoneId "" ++ "/messages")
              ("Bearer " ++ Js.or_else apiKey "")
              to message in
    try_catch
      (status <- WhatsappService.axios_request config ;;
       logger LOG ("WhatsApp send ok: " ++ Js.show status) None)
      send_failed.

End EarlierWhatsappService.

(** The three variables are set and have no white space around them. *)
Definition variables_trimmed (w : World) : Prop :=
  option_map Js.trim (WHATSAPP_API_KEY (env w)) = WHATSAPP_API_KEY (env w)
  /\ option_map Js.trim (WHATSAPP_API_VERSION (env w)) = WHATSAPP_API_VERSION (env w)
  /\ option_map Js.trim (WHATSAPP_PHONE_NUMBER_ID (env w)) = WHATSAPP_PHONE_NUMBER_ID (env w).
(** * Properties *)

(** ** Reasoning about computations *)

Lemma safe_ret {A : Type} (a : A) : safe (ret a).
Proof. intros w. exists a, w. reflexivity. Qed.

Lemma safe_bind {A B : Type} (m : M A) (f : A -> M B) :
  safe m -> (forall a, safe (f a)) -> safe (bind m f).
Proof.
  intros Hm Hf w. unfold bind.
  destruct (Hm w) as (a & w' & ->). apply Hf.
Qed.

Lemma safe_try_catch {A : Type} (m : M A) (h : JsError -> M A) :
  (forall e, safe (h e)) -> safe (try_catch m h).
Proof.
  intros Hh w. unfold try_catch.
  destruct (m w) as [[a | e] w'].
  - exists a, w'. reflexivity.
  - apply Hh.
Qed.

Lemma safe_gets {A : Type} (f : World -> A) : safe (gets f).
Proof. intros w. exists (f w), w. reflexivity. Qed.

Lemma safe_logger l t d : safe (logger l t d).
Proof. intros w. eexists _, _. reflexivity. Qed.

Lemma safe_if {A : Type} (b : bool) (m1 m2 : M A) :
  safe m1 -> safe m2 -> safe (if b then m1 else m2).
Proof. destruct b; auto. Qed.

Create HintDb safe_db.
#[export] Hint Resolve safe_ret safe_gets safe_logger : safe_db.

Ltac safe_step :=
  lazymatch goal with
  | |- safe (ret _) => apply safe_ret
  | |- safe (gets _) => apply safe_gets
  | |- safe (logger _ _ _) => apply safe_logger
  | |- safe (try_catch _ _) => apply safe_try_catch; intros
  | |- safe (bind _ _) => apply safe_bind; [ | intros ]
  | |- safe (if _ then _ else _) => apply safe_if
  | |- safe (match ?x with _ => _ end) => destruct x
  | |- safe (let _ := _ in _) => cbv zeta
  | |- safe _ => solve [ auto with safe_db ]
  end.

Ltac prove_safe := repeat safe_step.

Section Frames.

Variable R : World -> World -> Prop.
Hypothesis R_refl : forall w, R w w.
Hypothesis R_trans : forall w1 w2 w3, R w1 w2 -> R w2 w3 -> R w1 w3.

Lemma keeps_ret {A : Type} (a : A) : keeps R (ret a).
Proof. intros w. apply R_refl. Qed.

Lemma keeps_gets {A : Type} (f : World -> A) : keeps R (gets f).
Proof. intros w. apply R_refl. Qed.

Lemma keeps_throw {A : Type} (e : JsError) : keeps R (@throw A e).
Proof. intros w. apply R_refl. Qed.

Lemma keeps_bind {A B : Type} (m : M A) (f : A -> M B) :
    keeps R m -> (forall a, keeps R (f a)) -> keeps R (bind m f).
Proof.
    intros Hm Hf w. unfold bind. specialize (Hm w).
    destruct (m w) as [[a | e] w']; cbn in *.
    - eapply R_trans; [ exact Hm | apply Hf ].
    - exact Hm.
Qed.

Lemma keeps_try_catch {A : Type} (m : M A) (h : JsError -> M A) :
    keeps R m -> (forall e, keeps R (h e)) -> keeps R (try_catch m h).
Proof.
    intros Hm Hh w. unfold try_catch. specialize (Hm w).
    destruct (m w) as [[a | e] w']; cbn in *.
    - exact Hm.
    - eapply R_trans; [ exact Hm | apply Hh ].
Qed.

Lemma keeps_if {A : Type} (b : bool) (m1 m2 : M A) :
    keeps R m1 -> keeps R m2 -> keeps R (if b then m1 else m2).
Proof. destruct b; auto. Qed.

Lemma keeps_modify (f : World -> World) :
    (forall w, R w (f w)) -> keeps R (modify f).
Proof. intros H w. apply H. Qed.

Lemma keeps_remote {A : Type} (act : M A) :
    (forall w, R w (set_faults (tl (faults w)) w)) -> keeps R act -> keeps R (remote act).
Proof.
    intros Hf Ha w. unfold remote.
    destruct (hd None (faults w)); cbn.
    - apply Hf.
    - eapply R_trans; [ apply Hf | apply Ha ].
Qed.

Lemma keeps_logger l t d :
    (forall w ls, R w (set_log ls w)) -> keeps R (logger l t d).
Proof. intros H w. apply H. Qed.

Lemma keeps_now_iso :
    (forall w, R w (set_ticks (S (ticks w)) w)) -> keeps R now_iso.
Proof. intros H w. apply H. Qed.

End Frames.

Lemma bind_gets {A B : Type} (f : World -> A) (k : A -> M B) w :
  bind (gets f) k w = k (f w) w.
Proof. reflexivity. Qed.

Lemma bind_ret {A B : Type} (a : A) (k : A -> M B) w :
  bind (ret a) k w = k a w.
Proof. reflexivity. Qed.

Lemma bind_modify {B : Type} (f : World -> World) (k : unit -> M B) w :
  bind (modify f) k w = k tt (f w).
Proof. reflexivity. Qed.

Lemma bind_ok {A B : Type} (m : M A) (k : A -> M B) w a w' :
  m w = (Ok a, w') -> bind m k w = k a w'.
Proof. intros H. unfold bind. rewrite H. reflexivity. Qed.

Lemma bind_throw {A B : Type} (m : M A) (k : A -> M B) w e w' :
  m w = (Throw e, w') -> bind m k w = (Throw e, w').
Proof. intros H. unfold bind. rewrite H. reflexivity. Qed.

Lemma try_ok {A : Type} (m : M A) (h : JsError -> M A) w a w' :
  m w = (Ok a, w') -> try_catch m h w = (Ok a, w').
Proof. intros H. unfold try_catch. rewrite H. reflexivity. Qed.

Lemma try_throw {A : Type} (m : M A) (h : JsError -> M A) w e w' :
  m w = (Throw e, w') -> try_catch m h w = h e w'.
Proof. intros H. unfold try_catch. rewrite H. reflexivity. Qed.

Lemma set_faults_same w : set_faults (faults w) w = w.
Proof. destruct w; reflexivity. Qed.

Lemma remote_ok {A : Type} (act : M A) w :
  hd None (faults w) = None ->
  remote act w = act (set_faults (tl (faults w)) w).
Proof. intros H. unfold remote. rewrite H. reflexivity. Qed.

Lemma remote_throws {A : Type} (act : M A) w e :
  hd None (faults w) = Some e ->
  remote act w = (Throw e, set_faults (tl (faults w)) w).
Proof. intros H. unfold remote. rewrite H. reflexivity. Qed.

(** ** JavaScript helpers *)


Lemma truthy_some s : Js.truthy (Some s) = true <-> s <> "".
Proof.
  cbn. destruct (String.eqb_spec s ""); cbn; split; congruence.
Qed.


Lemma remove_non_digits_all_digits s : all_digits (Js.remove_non_digits s) = true.
Proof.
  induction s as [| c s IH]; cbn; [ reflexivity | ].
  destruct (Js.is_digit c) eqn:E; cbn; [ rewrite E | ]; auto.
Qed.

Lemma remove_non_digits_fixed s :
  all_digits s = true -> Js.remove_non_digits s = s.
Proof.
  induction s as [| c s IH]; cbn; [ reflexivity | ].
  intros H. apply andb_true_iff in H as [Hc Hs]. rewrite Hc, IH; auto.
Qed.

(** ** OpenaiService *)

Lemma safe_generateOpenAIResponse prompt history :
  safe (OpenaiService.generateOpenAIResponse prompt history).
Proof.
  unfold OpenaiService.generateOpenAIResponse, OpenaiService.console_error.
  prove_safe.
Qed.



(** ** WhatsappService.sendMessage *)

Lemma set_log_nil w : set_log (log w ++ []) w = w.
Proof. rewrite app_nil_r. destruct w; reflexivity. Qed.

Lemma set_log_app w l1 l2 :
  set_log (log (set_log (log w ++ l1) w) ++ l2) (set_log (log w ++ l1) w)
  = set_log (log w ++ l1 ++ l2) w.
Proof. cbn. rewrite <- app_assoc. reflexivity. Qed.

(** The catch block of [sendMessage] only writes log lines. *)
Lemma send_failed_logs error w :
  exists lines, WhatsappService.send_failed error w = (Ok tt, set_log (log w ++ lines) w).
Proof.
  unfold WhatsappService.send_failed, bind, logger, modify.
  repeat match goal with
         | |- context [if ?b then _ else _] => destruct b
         end;
    cbn; first [ eexists; rewrite <- app_assoc; reflexivity | eexists; reflexivity ].
Qed.

Lemma safe_send_failed error : safe (WhatsappService.send_failed error).
Proof.
  intros w. destruct (send_failed_logs error w) as (lines & ->). eauto.
Qed.

#[export] Hint Resolve safe_send_failed : safe_db.


(** What [sendMessage] does, case by case. *)
Lemma sendMessage_run to message w :
  exists lines,
    (if whatsapp_configured w && Js.truthy (Some (Js.remove_non_digits to)) then
       exists cfg,
         WhatsappService.sendMessage to message w
         = (Ok tt, set_log (log w ++ lines) (set_requests (requests w ++ [cfg]) w))
         /\ data_to cfg = Js.remove_non_digits to
         /\ data_body cfg = message
     else
       exists t,
         lines = [mkLog WARN t None]
         /\ WhatsappService.sendMessage to message w
            = (Ok tt, set_log (log w ++ lines) w)).
Proof.
  unfold WhatsappService.sendMessage, WhatsappService.env_trim, whatsapp_configured.
  rewrite !bind_gets.
  destruct (Js.truthy (option_map Js.trim (WHATSAPP_API_KEY (env w)))); cbn [negb orb andb];
    [ | eexists; eexists; split; reflexivity ].
  destruct (Js.truthy (option_map Js.trim (WHATSAPP_API_VERSION (env w)))); cbn [negb orb andb];
    [ | eexists; eexists; split; reflexivity ].
  destruct (Js.truthy (option_map Js.trim (WHATSAPP_PHONE_NUMBER_ID (env w)))); cbn [negb orb andb];
    [ | eexists; eexists; split; reflexivity ].
  replace (Js.or_else (Some to) "") with to
    by (cbn; destruct (String.eqb_spec to ""); congruence).
  destruct (Js.truthy (Some (Js.remove_non_digits to))); cbn [negb];
    [ | eexists; eexists; split; reflexivity ].
  unfold try_catch, bind, WhatsappService.axios_request.
  match goal with
  | |- context [axios_api ?e ?k ?c] => destruct (axios_api e k c) as [st | err]
  end.
  - eexists. eexists. split; [ reflexivity | split; reflexivity ].
  - match goal with
    | |- context [WhatsappService.send_failed ?e ?w0] =>
        destruct (send_failed_logs e w0) as (lines & ->)
    end.
    exists lines. eexists. split; [ reflexivity | split; reflexivity ].
Qed.

(** C8. [sendMessage] never throws and leaves the store alone.  The
    recipient is reduced to its digits ("+1 (555) 123-4567" becomes
    "15551234567"), and a request, when one is made, has that string as
    its [to] and the text as its body: exactly one request is made when
    the three WhatsApp variables are set and the digits are not empty.
    When no digit is left (as for "not-a-number") no request is made and
    one warning is logged. *)
Theorem sendMessage_normalizes_recipient :
  forall (to text : string) (w : World),
  exists w' : World,
    WhatsappService.sendMessage to text w = (Ok tt, w')
    /\ all_digits (Js.remove_non_digits to) = true
    /\ messages w' = messages w /\ settings w' = settings w
    /\ (if whatsapp_configured w && Js.truthy (Some (Js.remove_non_digits to)) then
          exists cfg,
            requests w' = (requests w ++ [cfg])%list
            /\ data_to cfg = Js.remove_non_digits to
            /\ data_body cfg = text
        else
          requests w' = requests w
          /\ exists t, logged w w' [mkLog WARN t None])
    /\ (Js.remove_non_digits to = "" ->
        requests w' = requests w /\ exists t, logged w w' [mkLog WARN t None])
    /\ Js.remove_non_digits "+1 (555) 123-4567" = "15551234567"
    /\ Js.remove_non_digits "not-a-number" = "".
Proof.
  intros to text w.
  destruct (sendMessage_run to text w) as (lines & H).
  assert (Hempty : Js.remove_non_digits to = "" ->
                   whatsapp_configured w && Js.truthy (Some (Js.remove_non_digits to)) = false).
  { intros ->. apply andb_false_r. }
  destruct (whatsapp_configured w && Js.truthy (Some (Js.remove_non_digits to))) eqn:E.
  - destruct H as (cfg & -> & Hto & Hbody).
    eexists. split; [ reflexivity | ].
    split; [ apply remove_non_digits_all_digits | ].
    cbn. split; [ reflexivity | ]. split; [ reflexivity | ].
    split; [ exists cfg; auto | ].
    split; [ | split; reflexivity ].
    intros H0. specialize (Hempty H0). discriminate.
  - destruct H as (t & -> & ->).
    eexists. split; [ reflexivity | ].
    split; [ apply remove_non_digits_all_digits | ].
    cbn. split; [ reflexivity | ]. split; [ reflexivity | ].
    split; [ split; [ reflexivity | exists t; reflexivity ] | ].
    split; [ | split; reflexivity ].
    intros _. split; [ reflexivity | exists t; reflexivity ].
Qed.

(** A run of C8 on the two recipients of the specification. *)
Lemma sendMessage_normalizes_recipient_witness :
  (exists w', WhatsappService.sendMessage "not-a-number" "hi" (demo_world [] [] []) = (Ok tt, w')
              /\ requests w' = [])
  /\ (exists w' cfg,
        WhatsappService.sendMessage "+1 (555) 123-4567" "hi" (demo_world [] [] []) = (Ok tt, w')
        /\ requests w' = [cfg] /\ data_to cfg = "15551234567").
Proof.
  split.
  - destruct (sendMessage_normalizes_recipient "not-a-number" "hi" (demo_world [] [] []))
      as (w' & Hrun & _ & _ & _ & _ & Hempty & _).
    exists w'. split; [ exact Hrun | ].
    apply Hempty. reflexivity.
  - destruct (sendMessage_normalizes_recipient "+1 (555) 123-4567" "hi" (demo_world [] [] []))
      as (w' & Hrun & _ & _ & _ & Hreq & _).
    cbn in Hreq. destruct Hreq as (cfg & Hreq & Hto & _).
    exists w', cfg. auto.
Defined.

(** ** WhatsappService.handleUserMessage, for any collaborators *)

(** C6. Whatever the store and the completion client handed to the
    service do, throwing included, [handleUserMessage] returns normally.
    When its [try] block ends without a throw, nothing more happens.  When
    any step of the block throws [e], the block stops there, the error is
    logged with [e], and [sendMessage] is called with the user's number
    and the apology text: one request with that text is made when the
    WhatsApp variables are set and the number has a digit, none
    otherwise; that call does not throw either. *)
Theorem handleUserMessage_never_throws :
  forall (sheets : Sheets) (openaiService : Openai)
         (number message : string) (msgId : option string) (w : World),
  exists w' : World,
    WhatsappService.handleUserMessage number message msgId w = (Ok tt, w')
    /\ match WhatsappService.handleUserMessage_try number message msgId w with
       | (Ok _, w1) => w' = w1
       | (Throw e, w1) =>
           let oops := mkLog ERROR "Error handling user message:" (Some e) in
           exists lines,
             if whatsapp_configured w1 && Js.truthy (Some (Js.remove_non_digits number)) then
               exists cfg,
                 w' = set_log (log w1 ++ oops :: lines)
                              (set_requests (requests w1 ++ [cfg]) w1)
                 /\ data_to cfg = Js.remove_non_digits number
                 /\ data_body cfg = fallback_text
             else
               exists t,
                 lines = [mkLog WARN t None]
                 /\ w' = set_log (log w1 ++ oops :: lines) w1
       end.
Proof.
  intros sheets openaiService number message msgId w.
  unfold WhatsappService.handleUserMessage, try_catch.
  destruct (WhatsappService.handleUserMessage_try number message msgId w)
    as [[[] | e] w1].
  - exists w1. split; reflexivity.
  - unfold WhatsappService.handleUserMessage_catch, logger. rewrite bind_modify.
    set (w2 := set_log (log w1 ++ [mkLog ERROR "Error handling user message:" (Some e)]) w1).
    destruct (sendMessage_run number fallback_text w2) as (lines & H).
    change (whatsapp_configured w2) with (whatsapp_configured w1) in H.
    destruct (whatsapp_configured w1 && Js.truthy (Some (Js.remove_non_digits number))).
    + destruct H as (cfg & -> & Hto & Hbody).
      eexists. split; [ reflexivity | ].
      exists lines, cfg. repeat split; auto.
      subst w2. cbn. rewrite <- app_assoc. reflexivity.
    + destruct H as (t & -> & ->).
      eexists. split; [ reflexivity | ].
      eexists. exists t. split; [ reflexivity | ].
      subst w2. cbn. rewrite <- app_assoc. reflexivity.
Qed.

(** A run of C6 with a store that throws when the settings are read: the
    apology goes out. *)
Lemma handleUserMessage_never_throws_witness :
  exists w' cfg,
    @WhatsappService.handleUserMessage broken_sheets openaiService
      "55501" "Hi" None (demo_world [] [] []) = (Ok tt, w')
    /\ requests w' = [cfg]
    /\ data_to cfg = "55501"
    /\ data_body cfg = fallback_text.
Proof.
  destruct (handleUserMessage_never_throws broken_sheets openaiService
              "55501" "Hi" None (demo_world [] [] [])) as (w' & Hrun & Hcatch).
  change (@WhatsappService.handleUserMessage_try broken_sheets openaiService
            "55501" "Hi" None (demo_world [] [] []))
    with (@Throw unit boom, demo_world [] [] []) in Hcatch.
  cbv beta iota zeta in Hcatch.
  change (whatsapp_configured (demo_world [] [] [])
          && Js.truthy (Some (Js.remove_non_digits "55501"))) with true in Hcatch.
  destruct Hcatch as (lines & cfg & -> & Hto & Hbody).
  eexists. exists cfg. split; [ exact Hrun | ].
  split; [ reflexivity | ]. split; assumption.
Defined.

(** ** The prompt *)

Lemma prefix_cons a p c k :
  String.prefix (String a p) (String c k) = true -> a = c /\ String.prefix p k = true.
Proof.
  change (String.prefix (String a p) (String c k))
    with (if ascii_dec a c then String.prefix p k else false).
  destruct (ascii_dec a c); [ auto | discriminate ].
Qed.

Lemma biz_key_not_index k : Js.startsWith k "biz:" = true -> is_array_index k = false.
Proof.
  unfold Js.startsWith. destruct k as [| c k]; [ discriminate | ].
  intros H. apply prefix_cons in H as [<- _]. reflexivity.
Qed.

Lemma biz_key_replace k :
  Js.startsWith k "biz:" = true -> Js.replace_first "biz:" "" k = Js.drop 4 k.
Proof.
  unfold Js.startsWith. intros H.
  destruct k as [| c k]; [ discriminate | ].
  unfold Js.replace_first. rewrite H. reflexivity.
Qed.

Lemma Forall_insert_by_index (P : string * string -> Prop) e l :
  P e -> Forall P l -> Forall P (insert_by_index e l).
Proof.
  intros He Hl. induction Hl as [| x l Hx Hl IH]; cbn.
  - constructor; [ exact He | constructor ].
  - destruct (index_of e <=? index_of x); repeat constructor; auto.
Qed.

Lemma Forall_sort_by_index (P : string * string -> Prop) l :
  Forall P l -> Forall P (sort_by_index l).
Proof.
  induction 1 as [| x l Hx Hl IH]; cbn; [ constructor | ].
  apply Forall_insert_by_index; assumption.
Qed.

Lemma filter_none {A : Type} (p q : A -> bool) l :
  Forall (fun x => q x = true) l ->
  (forall x, p x = true -> q x = false) ->
  filter p l = [].
Proof.
  intros Hl Hpq. induction Hl as [| x l Hx Hl IH]; cbn; [ reflexivity | ].
  destruct (p x) eqn:E; [ | exact IH ].
  apply Hpq in E. congruence.
Qed.

Lemma filter_filter_implied {A : Type} (p q : A -> bool) l :
  (forall x, p x = true -> q x = true) ->
  filter p (filter q l) = filter p l.
Proof.
  intros Hpq. induction l as [| x l IH]; cbn; [ reflexivity | ].
  destruct (q x) eqn:Eq; cbn; destruct (p x) eqn:Ep; rewrite ?IH; auto.
  apply Hpq in Ep. congruence.
Qed.

(** The order in which [Object.entries] lists the array-index keys does
    not show in the business facts: their keys are none of them. *)
Lemma filter_biz_entries settings :
  filter is_biz (Object_entries settings) = filter is_biz settings.
Proof.
  unfold Object_entries. rewrite filter_app.
  rewrite (filter_none is_biz (fun e => is_array_index (fst e))).
  - cbn. apply filter_filter_implied.
    intros e He. apply biz_key_not_index in He. rewrite He. reflexivity.
  - apply Forall_sort_by_index. apply Forall_forall.
    intros e He. apply filter_In in He. apply He.
  - intros e He. apply biz_key_not_index. exact He.
Qed.

Lemma bizEntries_humanized settings :
  WhatsappService.bizEntries settings = map humanized (filter is_biz settings).
Proof.
  unfold WhatsappService.bizEntries.
  change (fun e : string * string => Js.startsWith (fst e) "biz:") with is_biz.
  rewrite filter_biz_entries.
  apply map_ext_in. intros e He. apply filter_In in He as [_ He].
  unfold humanized. rewrite biz_key_replace by exact He. reflexivity.
Qed.

Lemma drop_skipn n k :
  list_ascii_of_string (Js.drop n k) = skipn n (list_ascii_of_string k).
Proof.
  revert k. induction n as [| n IH]; intros k; [ reflexivity | ].
  destruct k as [| c k]; [ reflexivity | ]. cbn. apply IH.
Qed.

Lemma underscores_to_spaces_chars s :
  Js.underscores_to_spaces s
  = string_of_list_ascii
      (map (fun c : ascii => if (c =? "_")%char then " "%char else c)
           (list_ascii_of_string s)).
Proof.
  induction s as [| c s IH]; [ reflexivity | ].
  cbn [Js.underscores_to_spaces list_ascii_of_string map string_of_list_ascii].
  rewrite IH. reflexivity.
Qed.

Lemma humanized_fact_text e : humanized e = fact_text e.
Proof.
  unfold humanized, fact_text, key_words.
  rewrite underscores_to_spaces_chars, drop_skipn. reflexivity.
Qed.

(** C2. The prompt of the specification's example is exactly the text
    "Business facts — name: Acme | hours: 9to5", two line feeds,
    "User: Hi", and it is what the completion client receives as last
    message when the pipeline runs on a store with these two settings.
    On keys with underscores every underscore of the key, and none of
    the value or of the message, becomes a space, and a key without the
    prefix gives no fact.  In general the prompt is the prompt of the
    specification: the facts are the settings whose key starts with
    [biz:], in the order of the settings, each one the key after its
    prefix with spaces for underscores, ": " and the value, joined with
    " | " and followed by two line feeds and the message after "User: ";
    with no such setting the prompt is the message itself. *)
Theorem build_prompt_assembles_business_facts :
  WhatsappService.build_prompt [("biz:name", "Acme"); ("biz:hours", "9to5")] "Hi"
  = "Business facts — name: Acme | hours: 9to5"
      ++ String "010"%char (String "010"%char "User: Hi")
  /\ completions
       (snd (handle "55501" "Hi" (Some "wamid.1")
               (demo_world [] [] [["biz:name"; "Acme"]; ["biz:hours"; "9to5"]])))
     = [[mkChat "system" "You are a helpful WhatsApp assistant. Keep replies short and clear.";
         mkChat "user" "Hi";
         mkChat "user"
           ("Business facts — name: Acme | hours: 9to5"
              ++ String "010"%char (String "010"%char "User: Hi"))]]
  /\ WhatsappService.build_prompt
       [("biz:opening_hours", "Mon_Fri 9to5"); ("greeting", "hello_there");
        ("biz:pay_by_card", "yes")] "Any_news?"
     = "Business facts — opening hours: Mon_Fri 9to5 | pay by card: yes"
         ++ String "010"%char (String "010"%char "User: Any_news?")
  /\ (forall (settings : list (string * string)) (message : string),
        WhatsappService.build_prompt settings message = spec_prompt settings message)
  /\ (forall (settings : list (string * string)) (message : string),
        (forall e, In e settings -> Js.startsWith (fst e) "biz:" = false) ->
        WhatsappService.build_prompt settings message = message).
Proof.
  assert (Hgen : forall settings message,
             WhatsappService.build_prompt settings message = spec_prompt settings message).
  { intros settings message.
    unfold WhatsappService.build_prompt, WhatsappService.bizContext, spec_prompt.
    rewrite bizEntries_humanized.
    rewrite (map_ext _ _ humanized_fact_text).
    destruct (filter is_biz settings) as [| e facts]; [ reflexivity | ].
    cbn [map length Nat.eqb]. cbn [Js.truthy String.eqb append negb].
    unfold Js.join, newline, line_feed.
    generalize (String.concat " | " (fact_text e :: map fact_text facts)).
    intros facts_line. reflexivity. }
  split; [ vm_compute; reflexivity | ].
  split; [ vm_compute; reflexivity | ].
  split; [ vm_compute; reflexivity | ].
  split; [ exact Hgen | ].
  intros settings message Hno. rewrite Hgen. unfold spec_prompt.
  replace (filter is_biz settings) with (@nil (string * string)); [ reflexivity | ].
  symmetry. induction settings as [| e settings IH]; cbn; [ reflexivity | ].
  unfold is_biz at 1. rewrite (Hno e) by (left; reflexivity).
  apply IH. intros e' He'. apply Hno. right. exact He'.
Qed.

(** A run of C2 on settings without business facts. *)
Lemma build_prompt_assembles_business_facts_witness :
  WhatsappService.build_prompt [("greeting", "hello"); ("reset:55501", "2024-05-01T10:00:00.000Z")] "Hi"
  = "Hi".
Proof.
  apply (proj2 (proj2 (proj2 (proj2 build_prompt_assembles_business_facts)))).
  intros e [<- | [<- | []]]; reflexivity.
Defined.

(** ** SheetsService: what every method keeps, and that none throws *)

Lemma outside_kept_refl w : outside_kept w w.
Proof. repeat split. Qed.

Lemma outside_kept_trans w1 w2 w3 :
  outside_kept w1 w2 -> outside_kept w2 w3 -> outside_kept w1 w3.
Proof. unfold outside_kept. intuition congruence. Qed.

Lemma rows_kept_refl w : rows_kept w w.
Proof. repeat split. Qed.

Lemma rows_kept_trans w1 w2 w3 : rows_kept w1 w2 -> rows_kept w2 w3 -> rows_kept w1 w3.
Proof. unfold rows_kept, outside_kept. intuition congruence. Qed.

Lemma settings_kept_refl w : settings_kept w w.
Proof. repeat split. apply Nat.le_refl. Qed.

Lemma settings_kept_trans w1 w2 w3 :
  settings_kept w1 w2 -> settings_kept w2 w3 -> settings_kept w1 w3.
Proof.
  unfold settings_kept. intros (? & ? & ?) (? & ? & ?).
  repeat split; try congruence. eapply Nat.le_trans; eassumption.
Qed.

Create HintDb keeps_db.

(** One step of a frame proof, for a preorder [R] given by its two laws. *)
Ltac keeps_step Hrefl Htrans :=
  lazymatch goal with
  | |- keeps _ (ret _) => apply (keeps_ret _ Hrefl)
  | |- keeps _ (gets _) => apply (keeps_gets _ Hrefl)
  | |- keeps _ (throw _) => apply (keeps_throw _ Hrefl)
  | |- keeps _ (logger _ _ _) => apply keeps_logger
  | |- keeps _ now_iso => apply keeps_now_iso
  | |- keeps _ (modify _) => apply keeps_modify
  | |- keeps _ (remote _) => apply (keeps_remote _ Htrans)
  | |- keeps _ (try_catch _ _) => apply (keeps_try_catch _ Htrans); [ | intros ]
  | |- keeps _ (bind _ _) => apply (keeps_bind _ Htrans); [ | intros ]
  | |- keeps _ (if _ then _ else _) => apply keeps_if
  | |- keeps _ (match ?x with _ => _ end) => destruct x
  | |- keeps _ (let _ := _ in _) => cbv zeta
  | |- keeps _ _ => solve [ eauto with keeps_db ]
  end.

Ltac frame_leaf :=
  intros; unfold rows_kept, outside_kept, settings_kept; cbn;
  repeat split; auto with arith.

Ltac prove_keeps Hrefl Htrans :=
  repeat keeps_step Hrefl Htrans; try frame_leaf.

Lemma safe_getClient : safe SheetsService.getClient.
Proof.
  unfold SheetsService.getClient. apply safe_bind; [ apply safe_gets | ].
  intros []; prove_safe.
Qed.

#[export] Hint Resolve safe_getClient : safe_db.

Lemma getClient_run w :
  exists lines,
    SheetsService.getClient w = (Ok (sheets_ready w), set_log (log w ++ lines) w)
    /\ (sheets_ready w = true -> lines = []).
Proof.
  unfold SheetsService.getClient, sheets_ready. rewrite bind_gets.
  destruct (sheets_config (env w)); cbn.
  - exists []. rewrite set_log_nil. auto.
  - eexists. split; [ reflexivity | discriminate ].
  - eexists. split; [ reflexivity | discriminate ].
  - eexists. split; [ rewrite <- !app_assoc; reflexivity | discriminate ].
Qed.

Lemma getClient_ready w :
  sheets_ready w = true -> SheetsService.getClient w = (Ok true, w).
Proof.
  intros H. destruct (getClient_run w) as (lines & Hrun & Hl).
  rewrite Hrun, H, (Hl H), set_log_nil. reflexivity.
Qed.

Lemma getClient_not_ready w :
  sheets_ready w = false ->
  exists lines, SheetsService.getClient w = (Ok false, set_log (log w ++ lines) w).
Proof.
  intros H. destruct (getClient_run w) as (lines & Hrun & _).
  exists lines. rewrite Hrun, H. reflexivity.
Qed.

Lemma keeps_rows_getClient : keeps rows_kept SheetsService.getClient.
Proof. unfold SheetsService.getClient. prove_keeps rows_kept_refl rows_kept_trans. Qed.

Lemma safe_ensureSheetExists title : safe (SheetsService.ensureSheetExists title).
Proof. unfold SheetsService.ensureSheetExists. prove_safe. Qed.

Lemma safe_ensureHeaders : safe SheetsService.ensureHeaders.
Proof.
  unfold SheetsService.ensureHeaders. prove_safe; apply safe_ensureSheetExists.
Qed.

#[export] Hint Resolve safe_ensureSheetExists safe_ensureHeaders : safe_db.

Lemma keeps_rows_ensureSheetExists title :
  keeps rows_kept (SheetsService.ensureSheetExists title).
Proof.
  unfold SheetsService.ensureSheetExists, SheetsService.spreadsheets_get,
    SheetsService.batchUpdate_addSheet, SheetsService.getClient.
  prove_keeps rows_kept_refl rows_kept_trans.
Qed.

Lemma keeps_rows_update_headers : keeps rows_kept SheetsService.update_headers.
Proof.
  intros w. unfold SheetsService.update_headers, SheetsService.values_update_header, remote, ret.
  destruct (hd None (faults w)); cbn;
    match goal with |- context [hd None (tl ?f)] => destruct (hd None (tl f)) end; cbn;
    match goal with |- context [hd None (tl (tl ?f))] => destruct (hd None (tl (tl f))) end; cbn;
    frame_leaf.
Qed.

Lemma keeps_rows_ensureHeaders : keeps rows_kept SheetsService.ensureHeaders.
Proof.
  unfold SheetsService.ensureHeaders.
  apply (keeps_bind _ rows_kept_trans); [ apply keeps_rows_getClient | intros sheets ].
  apply keeps_if; [ apply (keeps_ret _ rows_kept_refl) | ].
  repeat (apply (keeps_bind _ rows_kept_trans);
          [ apply keeps_rows_ensureSheetExists | intros _ ]).
  apply (keeps_try_catch _ rows_kept_trans);
    [ apply keeps_rows_update_headers | intros; apply (keeps_ret _ rows_kept_refl) ].
Qed.

(** [ensureHeaders] always comes back, with the rows as they were. *)
Lemma ensureHeaders_run w :
  exists w1, SheetsService.ensureHeaders w = (Ok tt, w1) /\ rows_kept w w1.
Proof.
  destruct (safe_ensureHeaders w) as ([] & w1 & H).
  exists w1. split; [ exact H | ].
  pose proof (keeps_rows_ensureHeaders w) as K. rewrite H in K. exact K.
Qed.

Lemma keeps_weaken (R R' : World -> World -> Prop) {A : Type} (m : M A) :
  (forall w w', R w w' -> R' w w') -> keeps R m -> keeps R' m.
Proof. intros H K w. apply H, K. Qed.

Lemma rows_kept_settings_kept w w' : rows_kept w w' -> settings_kept w w'.
Proof.
  intros ((He & _) & Ht & _ & Hs). repeat split; auto. rewrite Ht. apply Nat.le_refl.
Qed.

Lemma safe_now_iso : safe now_iso.
Proof. intros w. eexists _, _. reflexivity. Qed.

#[export] Hint Resolve safe_now_iso : safe_db.

Lemma safe_hasMessage msgId : safe (SheetsService.hasMessage msgId).
Proof. unfold SheetsService.hasMessage. prove_safe. Qed.

Lemma safe_appendMessage waId r content msgId :
  safe (SheetsService.appendMessage waId r content msgId).
Proof. unfold SheetsService.appendMessage. prove_safe. Qed.

Lemma safe_getSetting key : safe (SheetsService.getSetting key).
Proof. unfold SheetsService.getSetting. prove_safe. Qed.

Lemma safe_getRecentConversation waId limit :
  safe (SheetsService.getRecentConversation waId limit).
Proof. unfold SheetsService.getRecentConversation. prove_safe. Qed.

Lemma safe_setSetting key value : safe (SheetsService.setSetting key value).
Proof. unfold SheetsService.setSetting. prove_safe. Qed.

Lemma safe_getAllSettings : safe SheetsService.getAllSettings.
Proof. unfold SheetsService.getAllSettings. prove_safe. Qed.

Lemma safe_resetConversation waId : safe (SheetsService.resetConversation waId).
Proof.
  unfold SheetsService.resetConversation.
  apply safe_bind; [ apply safe_now_iso | intros; apply safe_setSetting ].
Qed.

(** *** The reads, outcome by outcome *)

Lemma getSetting_run key w :
  sheets_ready w = true ->
  SheetsService.getSetting key w
  = match hd None (faults w) with
    | None => (Ok (first_value key (settings w)), answered w)
    | Some e => (Ok None, with_log [mkLog ERROR "getSetting failed" (Some e)] (answered w))
    end.
Proof.
  intros Hr. unfold SheetsService.getSetting.
  rewrite (bind_ok _ _ _ _ _ (getClient_ready w Hr)). cbn [negb].
  unfold try_catch, bind, SheetsService.values_get_settings, remote.
  destruct (hd None (faults w)); reflexivity.
Qed.

Lemma getAllSettings_run w :
  sheets_ready w = true ->
  SheetsService.getAllSettings w
  = match hd None (faults w) with
    | None => (Ok (collect_settings (settings w) []), answered w)
    | Some e => (Ok [], with_log [mkLog ERROR "getAllSettings failed" (Some e)] (answered w))
    end.
Proof.
  intros Hr. unfold SheetsService.getAllSettings.
  rewrite (bind_ok _ _ _ _ _ (getClient_ready w Hr)). cbn [negb].
  unfold try_catch, bind, SheetsService.values_get_settings, remote.
  destruct (hd None (faults w)); reflexivity.
Qed.

Lemma hasMessage_run msgId w :
  Js.truthy msgId = true ->
  sheets_ready w = true ->
  SheetsService.hasMessage msgId w
  = match hd None (faults w) with
    | None =>
        (Ok (existsb (fun row => (Js.or_else (Js.cell row 4) "" =? Js.or_else msgId "")%string)
                     (messages w)),
         answered w)
    | Some e => (Ok false, with_log [mkLog ERROR "hasMessage failed" (Some e)] (answered w))
    end.
Proof.
  intros Ht Hr. unfold SheetsService.hasMessage. rewrite Ht. cbn [negb].
  rewrite (bind_ok _ _ _ _ _ (getClient_ready w Hr)). cbn [negb].
  unfold try_catch, bind, SheetsService.values_get_messages, remote.
  destruct (hd None (faults w)); reflexivity.
Qed.

Lemma hasMessage_falsy msgId w :
  Js.truthy msgId = false -> SheetsService.hasMessage msgId w = (Ok false, w).
Proof. intros Ht. unfold SheetsService.hasMessage. rewrite Ht. reflexivity. Qed.

Lemma getRecentConversation_run waId limit w :
  sheets_ready w = true ->
  SheetsService.getRecentConversation waId limit w
  = let parse := Date_parse (env w) in
    let w1 := answered w in
    let w2 := answered w1 in
    match hd None (faults w), hd None (faults w1) with
    | None, None =>
        (Ok (map SheetsService.to_turn (Js.slice_from (- limit) (qualifying w waId))), w2)
    | Some e, None =>
        (Ok (map SheetsService.to_turn
               (Js.slice_from (- limit)
                  (filter (SheetsService.in_window parse waId (Some 0)) (messages w)))),
         with_log [mkLog ERROR "getSetting failed" (Some e)] w2)
    | None, Some e2 =>
        (Ok [], with_log [mkLog ERROR "getRecentConversation failed" (Some e2)] w2)
    | Some e, Some e2 =>
        (Ok [], with_log [mkLog ERROR "getSetting failed" (Some e);
                          mkLog ERROR "getRecentConversation failed" (Some e2)] w2)
    end.
Proof.
  intros Hr. unfold SheetsService.getRecentConversation.
  rewrite (bind_ok _ _ _ _ _ (getClient_ready w Hr)). cbn [negb].
  unfold try_catch at 1. unfold bind at 1.
  rewrite (getSetting_run _ w Hr).
  unfold qualifying, reset_time, answered, with_log.
  destruct (hd None (faults w)) as [e |];
    rewrite bind_gets; unfold bind, SheetsService.values_get_messages, remote; cbn;
    destruct (hd None (tl (faults w))) as [e2 |]; cbn; try reflexivity.
  rewrite <- app_assoc. reflexivity.
Qed.

(** *** The writes, outcome by outcome *)

Lemma faults_done_refl w : faults_done w w.
Proof. intros H. exact H. Qed.

Lemma faults_done_trans w1 w2 w3 :
  faults_done w1 w2 -> faults_done w2 w3 -> faults_done w1 w3.
Proof. unfold faults_done. auto. Qed.

Ltac faults_leaf :=
  intros; unfold faults_done; cbn;
  try match goal with
      | |- ?f = [] -> _ => let H := fresh in intros H; try rewrite H; reflexivity
      end; auto.

Lemma keeps_faults_ensureSheetExists title :
  keeps faults_done (SheetsService.ensureSheetExists title).
Proof.
  unfold SheetsService.ensureSheetExists, SheetsService.spreadsheets_get,
    SheetsService.batchUpdate_addSheet, SheetsService.getClient.
  repeat keeps_step faults_done_refl faults_done_trans; faults_leaf.
Qed.

Lemma keeps_faults_ensureHeaders : keeps faults_done SheetsService.ensureHeaders.
Proof.
  unfold SheetsService.ensureHeaders.
  apply (keeps_bind _ faults_done_trans).
  { unfold SheetsService.getClient.
    repeat keeps_step faults_done_refl faults_done_trans; faults_leaf. }
  intros sheets. apply keeps_if; [ apply (keeps_ret _ faults_done_refl) | ].
  repeat (apply (keeps_bind _ faults_done_trans);
          [ apply keeps_faults_ensureSheetExists | intros _ ]).
  apply (keeps_try_catch _ faults_done_trans);
    [ | intros; apply (keeps_ret _ faults_done_refl) ].
  intros w. unfold SheetsService.update_headers, SheetsService.values_update_header, remote, ret.
  intros H. rewrite H. reflexivity.
Qed.

Lemma ensureHeaders_quiet w w1 :
  SheetsService.ensureHeaders w = (Ok tt, w1) -> faults w = [] -> faults w1 = [].
Proof.
  intros H. pose proof (keeps_faults_ensureHeaders w) as K. rewrite H in K. exact K.
Qed.

Lemma appendMessage_run waId r content msgId w :
  sheets_ready w = true ->
  exists w1,
    SheetsService.ensureHeaders w = (Ok tt, w1) /\ rows_kept w w1
    /\ SheetsService.appendMessage waId r content msgId w
       = let row := [clock (env w) (ticks w); waId; role_name r; content; Js.or_else msgId ""] in
         let w2 := answered (set_ticks (S (ticks w)) w1) in
         match hd None (faults w1) with
         | None => (Ok tt, set_messages (messages w ++ [row]) w2)
         | Some e => (Ok tt, with_log [mkLog ERROR "appendMessage failed" (Some e)] w2)
         end.
Proof.
  intros Hr. destruct (ensureHeaders_run w) as (w1 & H1 & K).
  exists w1. split; [ exact H1 | ]. split; [ exact K | ].
  unfold SheetsService.appendMessage.
  rewrite (bind_ok _ _ _ _ _ (getClient_ready w Hr)). cbn [negb].
  rewrite (bind_ok _ _ _ _ _ H1).
  destruct K as ((He & _) & Ht & Hm & _).
  unfold try_catch, bind, now_iso, SheetsService.values_append_messages, remote, answered,
    with_log, modify.
  cbn. rewrite He, Ht, Hm.
  destruct (hd None (faults w1)); reflexivity.
Qed.

Lemma setSetting_run key value w :
  sheets_ready w = true ->
  exists w1,
    SheetsService.ensureHeaders w = (Ok tt, w1) /\ rows_kept w w1
    /\ SheetsService.setSetting key value w
       = match hd None (faults w1), hd None (tl (faults w1)) with
         | None, None =>
             (Ok tt, set_settings (upsert key value (settings w)) (answered (answered w1)))
         | None, Some e =>
             (Ok tt, with_log [mkLog ERROR "setSetting failed" (Some e)] (answered (answered w1)))
         | Some e, _ =>
             (Ok tt, with_log [mkLog ERROR "setSetting failed" (Some e)] (answered w1))
         end.
Proof.
  intros Hr. destruct (ensureHeaders_run w) as (w1 & H1 & K).
  exists w1. split; [ exact H1 | ]. split; [ exact K | ].
  unfold SheetsService.setSetting.
  rewrite (bind_ok _ _ _ _ _ (getClient_ready w Hr)). cbn [negb].
  rewrite (bind_ok _ _ _ _ _ H1).
  destruct K as (_ & _ & _ & Hs).
  unfold try_catch, bind, SheetsService.values_get_settings, remote, answered, with_log, upsert.
  destruct (hd None (faults w1)) as [e |]; [ reflexivity | ].
  cbn. rewrite Hs.
  destruct (find_row key (settings w) 0) as [i |];
    unfold SheetsService.values_update_settings, SheetsService.values_append_settings,
      remote, modify; cbn;
    destruct (hd None (tl (faults w1))); cbn; rewrite ?Hs; reflexivity.
Qed.

Lemma not_ready_returns {A : Type} (d : A) (k : M A) w :
  sheets_ready w = false ->
  exists lines,
    bind SheetsService.getClient (fun sheets => if negb sheets then ret d else k) w
    = (Ok d, with_log lines w).
Proof.
  intros H. destruct (getClient_not_ready w H) as (lines & Hc).
  exists lines. rewrite (bind_ok _ _ _ _ _ Hc). reflexivity.
Qed.

Lemma existsb_tab title ts :
  existsb (fun t => (t =? title)%string) ts = true <-> In title ts.
Proof.
  rewrite existsb_exists. split.
  - intros (t & Hin & H). apply String.eqb_eq in H. subst. exact Hin.
  - intros Hin. exists title. split; [ exact Hin | apply String.eqb_refl ].
Qed.

(** *** ensureHeaders, call by call *)

Lemma ensureSheetExists_run title w :
  sheets_ready w = true ->
  SheetsService.ensureSheetExists title w
  = let failed e := mkLog ERROR ("ensureSheetExists(" ++ title ++ ") failed") (Some e) in
    match hd None (faults w) with
    | Some e => (Ok tt, with_log [failed e] (answered w))
    | None =>
        if existsb (fun t => (t =? title)%string) (tabs w) then (Ok tt, answered w)
        else match hd None (tl (faults w)) with
             | Some e => (Ok tt, with_log [failed e] (answered (answered w)))
             | None => (Ok tt, set_tabs (tabs w ++ [title]) (answered (answered w)))
             end
    end.
Proof.
  intros Hr. unfold SheetsService.ensureSheetExists.
  rewrite (bind_ok _ _ _ _ _ (getClient_ready w Hr)). cbn [negb].
  unfold try_catch, bind, SheetsService.spreadsheets_get, SheetsService.batchUpdate_addSheet,
    remote, gets, modify, logger, answered, with_log.
  cbn zeta. destruct (hd None (faults w)) as [e |]; [ reflexivity | ].
  cbn [tabs set_faults].
  destruct (existsb (fun t => (t =? title)%string) (tabs w)); cbn [negb]; [ reflexivity | ].
  cbn [faults set_faults]. destruct (hd None (tl (faults w))); reflexivity.
Qed.

(** The three writes of the header rows are made, whatever becomes of
    them, and their catch block is empty: nothing else changes. *)
Lemma update_headers_caught w :
  try_catch SheetsService.update_headers (fun _ => ret tt) w
  = (Ok tt, set_faults (skipn 3 (faults w)) w).
Proof.
  destruct w as [en ti fs ta ms ss lo rq cs].
  destruct fs as [| [e1 |] [| [e2 |] [| [e3 |] fs]]]; reflexivity.
Qed.

Lemma ensureHeaders_steps w w0 :
  sheets_ready w = true ->
  tab_checks w = (Ok tt, w0) ->
  SheetsService.ensureHeaders w = (Ok tt, set_faults (skipn 3 (faults w0)) w0).
Proof.
  intros Hr H. unfold SheetsService.ensureHeaders.
  rewrite (bind_ok _ _ _ _ _ (getClient_ready w Hr)). cbn [negb].
  unfold tab_checks in H.
  destruct (safe_ensureSheetExists "settings" w) as ([] & wa & Ha).
  rewrite (bind_ok _ _ _ _ _ Ha) in H. rewrite (bind_ok _ _ _ _ _ Ha).
  destruct (safe_ensureSheetExists "messages" wa) as ([] & wb & Hb).
  rewrite (bind_ok _ _ _ _ _ Hb) in H. rewrite (bind_ok _ _ _ _ _ Hb).
  rewrite (bind_ok _ _ _ _ _ H).
  apply update_headers_caught.
Qed.

Lemma init_fails_returns {A : Type} (d : A) (k : M A) w e :
  sheets_config (env w) = InitFails e ->
  bind SheetsService.getClient (fun sheets => if negb sheets then ret d else k) w
  = (Ok d, with_log (init_failure_lines e) w).
Proof.
  intros H. unfold SheetsService.getClient, bind, gets. rewrite H.
  unfold logger, modify, ret, with_log, init_failure_lines. cbn.
  rewrite <- !app_assoc. reflexivity.
Qed.

(** C9 (amended). No method of the store ever throws, whatever Sheets
    calls fail and whether or not the store is configured.  When the
    method's own read or write of the data fails with [e], [e] is logged
    at error level and the result is the safe default: [false] for
    [hasMessage], [undefined] for [getSetting], the empty mapping for
    [getAllSettings], the empty sequence for the read of the rows in
    [getRecentConversation], nothing for the write of [appendMessage]
    and for the read and the write of [setSetting] and of
    [resetConversation].  When the read of the marker inside
    [getRecentConversation] fails, [getSetting] logs it and the window
    is computed without a cutoff.  Inside [ensureHeaders] a failing tab
    check or tab creation is logged and the three writes of the header
    rows are made all the same; whatever becomes of these writes no line
    is logged for them, and the method goes on with its own calls.
    When the client cannot be set up, [getClient] logs the failure and
    every method returns its default. *)
Theorem store_methods_never_throw :
  ((forall msgId, safe (SheetsService.hasMessage msgId))
   /\ (forall waId r content msgId, safe (SheetsService.appendMessage waId r content msgId))
   /\ (forall waId limit, safe (SheetsService.getRecentConversation waId limit))
   /\ (forall key, safe (SheetsService.getSetting key))
   /\ (forall key value, safe (SheetsService.setSetting key value))
   /\ safe SheetsService.getAllSettings
   /\ (forall waId, safe (SheetsService.resetConversation waId)))
  /\ (forall w e,
        sheets_ready w = true -> hd None (faults w) = Some e ->
        (forall msgId, Js.truthy msgId = true ->
           caught_and_logged (SheetsService.hasMessage msgId) false "hasMessage failed" e w w)
        /\ (forall key,
              caught_and_logged (SheetsService.getSetting key) None "getSetting failed" e w w)
        /\ caught_and_logged SheetsService.getAllSettings [] "getAllSettings failed" e w w
        /\ (forall waId limit,
              hd None (tl (faults w)) = None ->
              caught_and_logged (SheetsService.getRecentConversation waId limit)
                (map SheetsService.to_turn
                   (Js.slice_from (- limit)
                      (filter (SheetsService.in_window (Date_parse (env w)) waId (Some 0))
                              (messages w))))
                "getSetting failed" e w w))
  /\ (forall w e waId limit,
        sheets_ready w = true -> hd None (tl (faults w)) = Some e ->
        exists w' before,
          SheetsService.getRecentConversation waId limit w = (Ok [], w')
          /\ logged w w' (before ++ [mkLog ERROR "getRecentConversation failed" (Some e)]))
  /\ (forall w w1 e,
        sheets_ready w = true ->
        SheetsService.ensureHeaders w = (Ok tt, w1) ->
        (hd None (faults w1) = Some e ->
         forall waId r content msgId,
           caught_and_logged (SheetsService.appendMessage waId r content msgId) tt
             "appendMessage failed" e w1 w)
        /\ (hd None (faults w1) = Some e
            \/ (hd None (faults w1) = None /\ hd None (tl (faults w1)) = Some e) ->
            forall key value,
              caught_and_logged (SheetsService.setSetting key value) tt
                "setSetting failed" e w1 w))
  /\ (forall w w1 e waId,
        sheets_ready w = true ->
        SheetsService.ensureHeaders (set_ticks (S (ticks w)) w) = (Ok tt, w1) ->
        hd None (faults w1) = Some e
        \/ (hd None (faults w1) = None /\ hd None (tl (faults w1)) = Some e) ->
        caught_and_logged (SheetsService.resetConversation waId) tt
          "setSetting failed" e w1 w)
  /\ (forall w title e,
        sheets_ready w = true ->
        hd None (faults w) = Some e
        \/ (hd None (faults w) = None /\ ~ In title (tabs w)
            /\ hd None (tl (faults w)) = Some e) ->
        caught_and_logged (SheetsService.ensureSheetExists title) tt
          ("ensureSheetExists(" ++ title ++ ") failed") e w w)
  /\ (forall w,
        sheets_ready w = true ->
        exists w0 w1,
          tab_checks w = (Ok tt, w0)
          /\ SheetsService.ensureHeaders w = (Ok tt, w1)
          /\ log w1 = log w0
          /\ faults w1 = skipn 3 (faults w0))
  /\ (forall w w1,
        sheets_ready w = true ->
        SheetsService.ensureHeaders w = (Ok tt, w1) ->
        (hd None (faults w1) = None ->
         forall waId r content msgId,
         exists w' row,
           SheetsService.appendMessage waId r content msgId w = (Ok tt, w')
           /\ log w' = log w1
           /\ faults w' = tl (faults w1)
           /\ messages w' = (messages w ++ [row])%list)
        /\ (hd None (faults w1) = None -> hd None (tl (faults w1)) = None ->
            forall key value,
            exists w',
              SheetsService.setSetting key value w = (Ok tt, w')
              /\ log w' = log w1
              /\ faults w' = tl (tl (faults w1))))
  /\ (forall w w1 waId,
        sheets_ready w = true ->
        SheetsService.ensureHeaders (set_ticks (S (ticks w)) w) = (Ok tt, w1) ->
        hd None (faults w1) = None -> hd None (tl (faults w1)) = None ->
        exists w',
          SheetsService.resetConversation waId w = (Ok tt, w')
          /\ log w' = log w1
          /\ faults w' = tl (tl (faults w1)))
  /\ (forall w e,
        sheets_config (env w) = InitFails e ->
        (forall msgId, Js.truthy msgId = true ->
           gives_up (SheetsService.hasMessage msgId) false e w)
        /\ (forall waId r content msgId,
              gives_up (SheetsService.appendMessage waId r content msgId) tt e w)
        /\ (forall waId limit,
              gives_up (SheetsService.getRecentConversation waId limit) [] e w)
        /\ (forall key, gives_up (SheetsService.getSetting key) None e w)
        /\ (forall key value, gives_up (SheetsService.setSetting key value) tt e w)
        /\ gives_up SheetsService.getAllSettings [] e w
        /\ (forall waId, gives_up (SheetsService.resetConversation waId) tt e w)).
Proof.
  assert (Hgo : forall w w1 key value,
             sheets_ready w = true ->
             SheetsService.ensureHeaders w = (Ok tt, w1) ->
             hd None (faults w1) = None -> hd None (tl (faults w1)) = None ->
             exists w',
               SheetsService.setSetting key value w = (Ok tt, w')
               /\ log w' = log w1
               /\ faults w' = tl (tl (faults w1))).
  { intros w w1 key value Hr H1 Hf Hf2.
    destruct (setSetting_run key value w Hr) as (w1' & H1' & _ & Hrun).
    rewrite H1 in H1'. injection H1' as <-.
    rewrite Hrun, Hf, Hf2.
    eexists. split; [ reflexivity | ]. repeat split. }
  assert (Hset : forall w w1 e key value,
             sheets_ready w = true ->
             SheetsService.ensureHeaders w = (Ok tt, w1) ->
             hd None (faults w1) = Some e
             \/ (hd None (faults w1) = None /\ hd None (tl (faults w1)) = Some e) ->
             caught_and_logged (SheetsService.setSetting key value) tt
               "setSetting failed" e w1 w).
  { intros w w1 e key value Hr H1 Hf.
    destruct (setSetting_run key value w Hr) as (w1' & H1' & _ & Hrun).
    rewrite H1 in H1'. injection H1' as <-.
    unfold caught_and_logged. rewrite Hrun.
    destruct Hf as [Hf | [Hf Hf2]]; rewrite Hf; [ | rewrite Hf2 ];
      (eexists; split; [ reflexivity | ]; reflexivity). }
  split.
  { repeat split; intros.
    - apply safe_hasMessage.
    - apply safe_appendMessage.
    - apply safe_getRecentConversation.
    - apply safe_getSetting.
    - apply safe_setSetting.
    - apply safe_getAllSettings.
    - apply safe_resetConversation. }
  split.
  { intros w e Hr Hf. unfold caught_and_logged. split; [ | split; [ | split ] ].
    - intros msgId Ht. rewrite (hasMessage_run msgId w Ht Hr), Hf.
      eexists. split; reflexivity.
    - intros key. rewrite (getSetting_run key w Hr), Hf.
      eexists. split; reflexivity.
    - rewrite (getAllSettings_run w Hr), Hf.
      eexists. split; reflexivity.
    - intros waId limit Hf2.
      rewrite (getRecentConversation_run waId limit w Hr). cbn zeta.
      change (faults (answered w)) with (tl (faults w)). rewrite Hf, Hf2.
      eexists. split; reflexivity. }
  split.
  { intros w e waId limit Hr Hf.
    rewrite (getRecentConversation_run waId limit w Hr). cbn zeta.
    change (faults (answered w)) with (tl (faults w)). rewrite Hf.
    destruct (hd None (faults w)) as [e1 |].
    - eexists. exists [mkLog ERROR "getSetting failed" (Some e1)].
      split; reflexivity.
    - eexists. exists []. split; reflexivity. }
  split.
  { intros w w1 e Hr H1. split.
    - intros Hf waId r content msgId.
      destruct (appendMessage_run waId r content msgId w Hr) as (w1' & H1' & _ & Hrun).
      rewrite H1 in H1'. injection H1' as <-.
      unfold caught_and_logged. rewrite Hrun. cbn zeta. rewrite Hf.
      eexists. split; reflexivity.
    - intros Hf key value. exact (Hset w w1 e key value Hr H1 Hf). }
  split.
  { intros w w1 e waId Hr H1 Hf.
    unfold caught_and_logged.
    change (SheetsService.resetConversation waId w)
      with (SheetsService.setSetting ("reset:" ++ waId) (clock (env w) (ticks w))
              (set_ticks (S (ticks w)) w)).
    apply (Hset (set_ticks (S (ticks w)) w) w1 e); assumption. }
  split.
  { intros w title e Hr Hf.
    unfold caught_and_logged. rewrite (ensureSheetExists_run title w Hr). cbn zeta.
    destruct Hf as [Hf | (Hf & Hno & Hf2)]; rewrite Hf.
    - eexists. split; reflexivity.
    - destruct (existsb (fun t => (t =? title)%string) (tabs w)) eqn:E.
      + apply existsb_tab in E. contradiction.
      + rewrite Hf2. eexists. split; reflexivity. }
  split.
  { intros w Hr.
    assert (H0 : exists w0, tab_checks w = (Ok tt, w0)).
    { unfold tab_checks.
      destruct (safe_ensureSheetExists "settings" w) as ([] & wa & Ha).
      rewrite (bind_ok _ _ _ _ _ Ha).
      destruct (safe_ensureSheetExists "messages" wa) as ([] & wb & Hb).
      rewrite (bind_ok _ _ _ _ _ Hb).
      destruct (safe_ensureSheetExists "facts" wb) as ([] & wc & Hc).
      exists wc. exact Hc. }
    destruct H0 as (w0 & H0). exists w0. eexists.
    split; [ exact H0 | ]. split; [ exact (ensureHeaders_steps w w0 Hr H0) | ].
    split; reflexivity. }
  split.
  { intros w w1 Hr H1. split.
    - intros Hf waId r content msgId.
      destruct (appendMessage_run waId r content msgId w Hr) as (w1' & H1' & _ & Hrun).
      rewrite H1 in H1'. injection H1' as <-.
      rewrite Hrun. cbn zeta. rewrite Hf.
      eexists. eexists. split; [ reflexivity | ]. repeat split.
    - intros Hf Hf2 key value. exact (Hgo w w1 key value Hr H1 Hf Hf2). }
  split.
  { intros w w1 waId Hr H1 Hf Hf2.
    change (SheetsService.resetConversation waId w)
      with (SheetsService.setSetting ("reset:" ++ waId) (clock (env w) (ticks w))
              (set_ticks (S (ticks w)) w)).
    apply Hgo; assumption. }
  intros w e He. unfold gives_up.
  split; [ | split; [ | split; [ | split; [ | split; [ | split ] ] ] ] ].
  - intros msgId Ht. unfold SheetsService.hasMessage. rewrite Ht. cbn [negb].
    rewrite (init_fails_returns _ _ w e He). eexists. split; reflexivity.
  - intros waId r content msgId. unfold SheetsService.appendMessage.
    rewrite (init_fails_returns _ _ w e He). eexists. split; reflexivity.
  - intros waId limit. unfold SheetsService.getRecentConversation.
    rewrite (init_fails_returns _ _ w e He). eexists. split; reflexivity.
  - intros key. unfold SheetsService.getSetting.
    rewrite (init_fails_returns _ _ w e He). eexists. split; reflexivity.
  - intros key value. unfold SheetsService.setSetting.
    rewrite (init_fails_returns _ _ w e He). eexists. split; reflexivity.
  - unfold SheetsService.getAllSettings.
    rewrite (init_fails_returns _ _ w e He). eexists. split; reflexivity.
  - intros waId.
    change (SheetsService.resetConversation waId w)
      with (SheetsService.setSetting ("reset:" ++ waId) (clock (env w) (ticks w))
              (set_ticks (S (ticks w)) w)).
    unfold SheetsService.setSetting.
    rewrite (init_fails_returns _ _ (set_ticks (S (ticks w)) w) e He).
    eexists. split; reflexivity.
Qed.

(** A run of C9: the write of [setSetting] fails, after its read and the
    calls of [ensureHeaders] went well. *)
Lemma store_methods_never_throw_witness :
  exists w',
    SheetsService.setSetting "biz:hours" "9to5"
      (demo_world [None; None; None; None; None; None; None; Some boom] []
         [["biz:hours"; "8to4"]])
    = (Ok tt, w')
    /\ log w' = [mkLog ERROR "setSetting failed" (Some boom)].
Proof.
  destruct (proj2 (proj1 (proj2 (proj2 (proj2 store_methods_never_throw)))
                     (demo_world [None; None; None; None; None; None; None; Some boom] []
                        [["biz:hours"; "8to4"]])
                     (set_faults [None; Some boom]
                        (demo_world [None; None; None; None; None; None; None; Some boom] []
                           [["biz:hours"; "8to4"]]))
                     boom eq_refl eq_refl)
              (or_intror (conj eq_refl eq_refl)) "biz:hours" "9to5")
    as (w' & Hrun & Hlog).
  exists w'. split; [ exact Hrun | exact Hlog ].
Defined.

(** C9 as stated fails: when the write of the header rows is the call
    that fails, [appendMessage] catches the failure and goes on to add
    the row, but writes no log line for it. *)
Lemma header_failure_is_not_logged :
  In (Some boom) (faults (demo_world [None; None; None; Some boom] [] []))
  /\ fst (SheetsService.appendMessage "55501" user "Hi" (Some "wamid.1")
            (demo_world [None; None; None; Some boom] [] [])) = Ok tt
  /\ faults (snd (SheetsService.appendMessage "55501" user "Hi" (Some "wamid.1")
                    (demo_world [None; None; None; Some boom] [] []))) = []
  /\ log (snd (SheetsService.appendMessage "55501" user "Hi" (Some "wamid.1")
                 (demo_world [None; None; None; Some boom] [] []))) = []
  /\ messages (snd (SheetsService.appendMessage "55501" user "Hi" (Some "wamid.1")
                      (demo_world [None; None; None; Some boom] [] [])))
     = [["2024-05-01T10:00:00.000Z"; "55501"; "user"; "Hi"; "wamid.1"]].
Proof.
  split; [ right; right; right; left; reflexivity | ].
  repeat split; vm_compute; reflexivity.
Qed.

(** ** hasMessage *)

Lemma existsb_row_id m rows :
  existsb (fun row => (Js.or_else (Js.cell row 4) "" =? m)%string) rows = true
  <-> exists r, In r rows /\ row_id r = m.
Proof.
  rewrite existsb_exists. split; intros (r & Hin & H); exists r; split; auto.
  - apply String.eqb_eq in H. exact H.
  - apply String.eqb_eq. exact H.
Qed.

(** C7 (amended). For an empty or absent message id [hasMessage] answers
    [false] without reading the store, whatever rows the store holds.
    For a non-empty id, when the store is configured and the read of the
    ids succeeds, the answer is [true] exactly when some stored row
    carries that id; in a store where only [user] turns carry an id, that
    is exactly when a [user] turn with that id is stored. *)
Theorem hasMessage_finds_user_turn :
  forall (msgId : option string) (w : World),
    (Js.truthy msgId = false -> SheetsService.hasMessage msgId w = (Ok false, w))
    /\ (Js.truthy msgId = true ->
        sheets_ready w = true ->
        hd None (faults w) = None ->
        exists b,
          SheetsService.hasMessage msgId w = (Ok b, answered w)
          /\ (b = true <-> exists r, In r (messages w) /\ row_id r = Js.or_else msgId "")
          /\ (ids_on_user_turns (messages w) ->
              (b = true <-> has_user_turn (messages w) (Js.or_else msgId "")))).
Proof.
  intros msgId w. split; [ apply hasMessage_falsy | ].
  intros Ht Hr Hf. rewrite (hasMessage_run msgId w Ht Hr), Hf.
  eexists. split; [ reflexivity | ].
  split; [ apply existsb_row_id | ].
  intros Hids. rewrite existsb_row_id.
  split.
  - intros (r & Hin & Hid). exists r. split; [ exact Hin | ]. split; [ | exact Hid ].
    apply Hids; [ exact Hin | ]. rewrite Hid.
    destruct msgId as [m |]; [ | discriminate ].
    cbn in *. destruct (String.eqb_spec m ""); [ discriminate | assumption ].
  - intros (r & Hin & _ & Hid). exists r. auto.
Qed.

(** A run of C7 on a store with one turn of the user. *)
Lemma hasMessage_finds_user_turn_witness :
  SheetsService.hasMessage (Some "")
    (demo_world [] [["2024-05-01T09:00:00.000Z"; "55501"; "assistant"; "Hello"; ""]] [])
  = (Ok false, demo_world [] [["2024-05-01T09:00:00.000Z"; "55501"; "assistant"; "Hello"; ""]] [])
  /\ exists w',
       SheetsService.hasMessage (Some "wamid.1")
         (demo_world [] [["2024-05-01T09:00:00.000Z"; "55501"; "user"; "Hi"; "wamid.1"]] [])
       = (Ok true, w').
Proof.
  split.
  - apply (proj1 (hasMessage_finds_user_turn (Some "") _)). reflexivity.
  - destruct (proj2 (hasMessage_finds_user_turn (Some "wamid.1")
                       (demo_world [] [["2024-05-01T09:00:00.000Z"; "55501"; "user"; "Hi"; "wamid.1"]] []))
                eq_refl eq_refl eq_refl) as (b & Hrun & _ & Hiff).
    assert (Hb : b = true).
    { apply Hiff.
      - intros r [<- | []] _. reflexivity.
      - eexists. split; [ left; reflexivity | split; reflexivity ]. }
    subst b. eexists. exact Hrun.
Defined.

(** C7 as stated fails: a [user] turn with the id is stored, the read of
    the ids fails, and the answer is [false]. *)
Lemma hasMessage_false_when_read_fails :
  has_user_turn
    (messages (demo_world [Some boom]
                 [["2024-05-01T09:00:00.000Z"; "55501"; "user"; "Hi"; "wamid.1"]] []))
    "wamid.1"
  /\ fst (SheetsService.hasMessage (Some "wamid.1")
            (demo_world [Some boom]
               [["2024-05-01T09:00:00.000Z"; "55501"; "user"; "Hi"; "wamid.1"]] []))
     = Ok false.
Proof.
  split.
  - eexists. split; [ left; reflexivity | split; reflexivity ].
  - vm_compute. reflexivity.
Qed.

(** ** The pipeline on the store of the application *)

(** C1 (amended). When the message id is not empty, a [user] turn with
    that id is stored, the store is configured and the read of the ids
    succeeds, [handleUserMessage] stops after the check: it returns
    normally, one warning is logged, no row is added to the store, no
    setting changes, no completion is asked for and no request is sent. *)
Theorem duplicate_message_is_ignored :
  forall (number message m : string) (w : World),
    m <> "" ->
    sheets_ready w = true ->
    hd None (faults w) = None ->
    has_user_turn (messages w) m ->
    exists w',
      handle number message (Some m) w = (Ok tt, w')
      /\ messages w' = messages w
      /\ settings w' = settings w
      /\ completions w' = completions w
      /\ requests w' = requests w
      /\ logged w w' [mkLog WARN ("Duplicate message ignored: " ++ m) None].
Proof.
  intros number message m w Hm Hr Hf (r & Hin & _ & Hid).
  assert (Ht : Js.truthy (Some m) = true) by (apply truthy_some; exact Hm).
  assert (Hor : Js.or_else (Some m) "" = m).
  { cbn. destruct (String.eqb_spec m ""); [ contradiction | reflexivity ]. }
  unfold handle, WhatsappService.handleUserMessage, WhatsappService.handleUserMessage_try.
  cbn [sheets_hasMessage sheetsService]. rewrite Ht.
  assert (Hdup : SheetsService.hasMessage (Some m) w = (Ok true, answered w)).
  { rewrite (hasMessage_run (Some m) w Ht Hr), Hf. f_equal. f_equal.
    apply existsb_row_id. exists r. rewrite Hor. auto. }
  erewrite try_ok; [ | rewrite (bind_ok _ _ _ _ _ Hdup); reflexivity ].
  eexists. split; [ reflexivity | ].
  rewrite Hor. repeat split.
Qed.

(** A run of C1: the message of the specification's scenario arrives a
    second time. *)
Lemma duplicate_message_is_ignored_witness :
  exists w',
    handle "55501" "What are your hours?" (Some "wamid.1")
      (demo_world []
         [["2024-05-01T09:00:00.000Z"; "55501"; "user"; "What are your hours?"; "wamid.1"];
          ["2024-05-01T09:00:01.000Z"; "55501"; "assistant"; "We are open 9to5."; ""]]
         [["biz:hours"; "9to5"]])
    = (Ok tt, w')
    /\ length (messages w') = 2%nat
    /\ requests w' = [].
Proof.
  destruct (duplicate_message_is_ignored "55501" "What are your hours?" "wamid.1"
              (demo_world []
                 [["2024-05-01T09:00:00.000Z"; "55501"; "user"; "What are your hours?"; "wamid.1"];
                  ["2024-05-01T09:00:01.000Z"; "55501"; "assistant"; "We are open 9to5."; ""]]
                 [["biz:hours"; "9to5"]]))
    as (w' & Hrun & Hm & _ & _ & Hq & _).
  - discriminate.
  - reflexivity.
  - reflexivity.
  - eexists. split; [ left; reflexivity | split; reflexivity ].
  - exists w'. split; [ exact Hrun | ]. rewrite Hm, Hq. split; reflexivity.
Defined.

(** C1 as stated fails: the turn is stored, the read of the ids fails,
    the check answers [false], and the message is handled once more: a
    second [user] turn and a reply are stored, a completion is asked for
    and a request is sent. *)
Lemma duplicate_is_handled_when_read_fails :
  has_user_turn
    (messages (demo_world [Some boom]
                 [["2024-05-01T09:00:00.000Z"; "55501"; "user"; "What are your hours?"; "wamid.1"]]
                 [["biz:hours"; "9to5"]]))
    "wamid.1"
  /\ messages
       (snd (handle "55501" "What are your hours?" (Some "wamid.1")
               (demo_world [Some boom]
                  [["2024-05-01T09:00:00.000Z"; "55501"; "user"; "What are your hours?"; "wamid.1"]]
                  [["biz:hours"; "9to5"]])))
     = [["2024-05-01T09:00:00.000Z"; "55501"; "user"; "What are your hours?"; "wamid.1"];
        ["2024-05-01T10:00:00.000Z"; "55501"; "user"; "What are your hours?"; "wamid.1"];
        ["2024-05-01T10:01:00.000Z"; "55501"; "assistant"; "We are open 9to5."; ""]]
  /\ length (completions
               (snd (handle "55501" "What are your hours?" (Some "wamid.1")
                       (demo_world [Some boom]
                          [["2024-05-01T09:00:00.000Z"; "55501"; "user"; "What are your hours?"; "wamid.1"]]
                          [["biz:hours"; "9to5"]])))) = 1%nat
  /\ map data_to
         (requests
            (snd (handle "55501" "What are your hours?" (Some "wamid.1")
                    (demo_world [Some boom]
                       [["2024-05-01T09:00:00.000Z"; "55501"; "user"; "What are your hours?"; "wamid.1"]]
                       [["biz:hours"; "9to5"]])))) = ["55501"].
Proof.
  split.
  - eexists. split; [ left; reflexivity | split; reflexivity ].
  - repeat split; vm_compute; reflexivity.
Qed.

(** ** getRecentConversation: the window *)

Lemma slice_from_last {A : Type} (n : Z) (l : list A) :
  0 < n -> Js.slice_from (- n) l = skipn (length l - Z.to_nat n) l.
Proof.
  intros Hn. unfold Js.slice_from.
  destruct (Z.ltb_spec (- n) 0) as [_ | H]; [ | lia ].
  f_equal. lia.
Qed.

Lemma slice_from_zero {A : Type} (l : list A) : Js.slice_from (- 0) l = l.
Proof.
  unfold Js.slice_from. cbn [Z.opp Z.ltb Z.compare].
  replace (Z.min 0 (Z.of_nat (length l))) with 0 by lia. reflexivity.
Qed.

Lemma in_window_belongs parse waId resetTime r :
  SheetsService.in_window parse waId resetTime r = true -> Js.cell_is r 1 waId = true.
Proof. unfold SheetsService.in_window. intros H. apply andb_true_iff in H. apply H. Qed.

(** With a limit of at least one, the window is as the specification has
    it, whatever the outcome of the reads: at most [limit] turns, all of
    them stored rows of the user, in the order of the sheet. *)
Lemma recent_window_bounded waId limit w :
  0 < limit ->
  window_ok waId limit w (SheetsService.getRecentConversation waId limit w).
Proof.
  intros Hn.
  assert (Hnil : forall w', window_ok waId limit w (Ok [], w')).
  { intros w'. exists [], w'. split; [ reflexivity | ].
    split; [ cbn; lia | ]. split; [ constructor | left; reflexivity ]. }
  assert (Hwin : forall resetTime w',
             window_ok waId limit w
               (Ok (map SheetsService.to_turn
                      (Js.slice_from (- limit)
                         (filter (SheetsService.in_window (Date_parse (env w)) waId resetTime)
                                 (messages w)))), w')).
  { intros resetTime w'.
    set (q := filter (SheetsService.in_window (Date_parse (env w)) waId resetTime)
                     (messages w)).
    eexists. exists w'. split; [ reflexivity | ].
    rewrite slice_from_last by exact Hn.
    split; [ rewrite length_skipn; lia | ].
    split.
    - apply Forall_forall. intros r Hin.
      assert (Hq : In r q).
      { rewrite <- (firstn_skipn (length q - Z.to_nat limit) q).
        apply in_or_app. right. exact Hin. }
      apply filter_In in Hq as [_ Hq]. exact (in_window_belongs _ _ _ _ Hq).
    - right. exists resetTime, (firstn (length q - Z.to_nat limit) q).
      symmetry. apply firstn_skipn. }
  destruct (sheets_ready w) eqn:Hr.
  - rewrite (getRecentConversation_run waId limit w Hr). cbn zeta.
    destruct (hd None (faults w)), (hd None (faults (answered w)));
      first [ apply Hnil | apply Hwin ].
  - unfold SheetsService.getRecentConversation.
    match goal with
    | |- context [bind SheetsService.getClient (fun sheets => if negb sheets then ret [] else ?k)] =>
        destruct (not_ready_returns (@nil ChatMessage) k w Hr) as (lines & ->)
    end.
    apply Hnil.
Qed.

(** C4, at a limit of zero: one turn of the user is stored and
    [getRecentConversation] returns it, one turn more than the limit:
    [slice(-0)] is [slice(0)], the whole array. *)
Theorem recent_limit_zero_returns_a_turn :
  fst (SheetsService.getRecentConversation "55501" 0
         (demo_world [] [["2024-05-01T09:00:00.000Z"; "55501"; "user"; "Hi"; "wamid.1"]] []))
  = Ok [mkChat "user" "Hi"].
Proof. vm_compute. reflexivity. Qed.

(** C10 (amended). For a limit of at least one, when the store is
    configured and its two reads succeed, [getRecentConversation] returns
    the last [limit] of the rows that pass the filter on user and
    cutoff, in their order: the rows that pass are the dropped ones
    followed by the kept ones, and when more than [limit] rows pass,
    exactly [limit] are kept. *)
Theorem recent_window_keeps_the_latest :
  forall (waId : string) (limit : Z) (w : World),
    0 < limit ->
    sheets_ready w = true ->
    hd None (faults w) = None ->
    hd None (tl (faults w)) = None ->
    exists dropped kept w',
      SheetsService.getRecentConversation waId limit w
      = (Ok (map SheetsService.to_turn kept), w')
      /\ qualifying w waId = (dropped ++ kept)%list
      /\ kept = skipn (length (qualifying w waId) - Z.to_nat limit) (qualifying w waId)
      /\ (limit < Z.of_nat (length (qualifying w waId)) ->
          Z.of_nat (length kept) = limit).
Proof.
  intros waId limit w Hn Hr Hf1 Hf2.
  rewrite (getRecentConversation_run waId limit w Hr). cbn zeta.
  change (faults (answered w)) with (tl (faults w)). rewrite Hf1, Hf2.
  rewrite slice_from_last by exact Hn.
  eexists _, _, _. split; [ reflexivity | ].
  split; [ symmetry; apply firstn_skipn | ].
  split; [ reflexivity | ].
  intros Hmore. rewrite length_skipn. lia.
Qed.

(** A run of C10: three turns of the user pass, the limit is two. *)
Lemma recent_window_keeps_the_latest_witness :
  exists w',
    SheetsService.getRecentConversation "55501" 2
      (demo_world []
         [["2024-05-01T09:00:00.000Z"; "55501"; "user"; "one"; "wamid.1"];
          ["2024-05-01T09:00:01.000Z"; "55502"; "user"; "other"; "wamid.2"];
          ["2024-05-01T09:00:02.000Z"; "55501"; "assistant"; "two"; ""];
          ["2024-05-01T09:00:03.000Z"; "55501"; "user"; "three"; "wamid.3"]] [])
    = (Ok [mkChat "assistant" "two"; mkChat "user" "three"], w').
Proof.
  destruct (recent_window_keeps_the_latest "55501" 2
              (demo_world []
                 [["2024-05-01T09:00:00.000Z"; "55501"; "user"; "one"; "wamid.1"];
                  ["2024-05-01T09:00:01.000Z"; "55502"; "user"; "other"; "wamid.2"];
                  ["2024-05-01T09:00:02.000Z"; "55501"; "assistant"; "two"; ""];
                  ["2024-05-01T09:00:03.000Z"; "55501"; "user"; "three"; "wamid.3"]] []))
    as (dropped & kept & w' & Hrun & _ & Hkept & _); try reflexivity.
  exists w'. rewrite Hrun, Hkept. reflexivity.
Defined.

(** C10 as stated fails: two turns of the user pass the filter, the
    limit is one, the read of the messages fails, and the result is
    empty instead of the latest turn. *)
Lemma recent_window_empty_when_read_fails :
  length (qualifying
            (demo_world [None; Some boom]
               [["2024-05-01T09:00:00.000Z"; "55501"; "user"; "one"; "wamid.1"];
                ["2024-05-01T09:00:03.000Z"; "55501"; "user"; "two"; "wamid.2"]] [])
            "55501") = 2%nat
  /\ fst (SheetsService.getRecentConversation "55501" 1
            (demo_world [None; Some boom]
               [["2024-05-01T09:00:00.000Z"; "55501"; "user"; "one"; "wamid.1"];
                ["2024-05-01T09:00:03.000Z"; "55501"; "user"; "two"; "wamid.2"]] []))
     = Ok [].
Proof. split; vm_compute; reflexivity. Qed.

(** ** What the calls keep of the settings *)

Ltac settings_frame :=
  repeat keeps_step settings_kept_refl settings_kept_trans; try frame_leaf.

Lemma keeps_settings_ensureHeaders : keeps settings_kept SheetsService.ensureHeaders.
Proof.
  apply (keeps_weaken rows_kept); [ apply rows_kept_settings_kept | apply keeps_rows_ensureHeaders ].
Qed.

Lemma keeps_settings_getClient : keeps settings_kept SheetsService.getClient.
Proof.
  apply (keeps_weaken rows_kept); [ apply rows_kept_settings_kept | apply keeps_rows_getClient ].
Qed.

#[export] Hint Resolve keeps_settings_ensureHeaders keeps_settings_getClient : keeps_db.

Lemma keeps_settings_hasMessage msgId : keeps settings_kept (SheetsService.hasMessage msgId).
Proof.
  unfold SheetsService.hasMessage, SheetsService.values_get_messages. settings_frame.
Qed.

Lemma keeps_settings_appendMessage waId r content msgId :
  keeps settings_kept (SheetsService.appendMessage waId r content msgId).
Proof.
  unfold SheetsService.appendMessage, SheetsService.values_append_messages. settings_frame.
Qed.

Lemma keeps_settings_getSetting key : keeps settings_kept (SheetsService.getSetting key).
Proof.
  unfold SheetsService.getSetting, SheetsService.values_get_settings. settings_frame.
Qed.

#[export] Hint Resolve keeps_settings_getSetting : keeps_db.

Lemma keeps_settings_getRecentConversation waId limit :
  keeps settings_kept (SheetsService.getRecentConversation waId limit).
Proof.
  unfold SheetsService.getRecentConversation, SheetsService.values_get_messages.
  settings_frame.
Qed.

Lemma keeps_settings_getAllSettings : keeps settings_kept SheetsService.getAllSettings.
Proof.
  unfold SheetsService.getAllSettings, SheetsService.values_get_settings. settings_frame.
Qed.

Lemma keeps_settings_generateOpenAIResponse prompt history :
  keeps settings_kept (OpenaiService.generateOpenAIResponse prompt history).
Proof.
  intros w.
  destruct (safe_generateOpenAIResponse prompt history w) as (reply & w' & H).
  rewrite H. cbn.
  revert H. unfold OpenaiService.generateOpenAIResponse, try_catch, bind,
    OpenaiService.chat_completions_create, OpenaiService.console_error, logger, modify, throw, ret.
  destruct (openai_api (env w) (length (completions w))
              (OpenaiService.request_messages prompt history)) as [e | [[| c cs] |]];
    intros H; injection H as _ <-; frame_leaf.
Qed.

Lemma keeps_settings_sendMessage to message :
  keeps settings_kept (WhatsappService.sendMessage to message).
Proof.
  intros w. destruct (sendMessage_run to message w) as (lines & H).
  destruct (whatsapp_configured w && Js.truthy (Some (Js.remove_non_digits to))).
  - destruct H as (cfg & -> & _). frame_leaf.
  - destruct H as (t & _ & ->). frame_leaf.
Qed.

#[export] Hint Resolve keeps_settings_hasMessage keeps_settings_appendMessage
  keeps_settings_getRecentConversation keeps_settings_getAllSettings
  keeps_settings_generateOpenAIResponse keeps_settings_sendMessage : keeps_db.

Lemma keeps_settings_handle number message msgId :
  keeps settings_kept (handle number message msgId).
Proof.
  unfold handle, WhatsappService.handleUserMessage, WhatsappService.handleUserMessage_try,
    WhatsappService.handleUserMessage_catch.
  cbn [sheets_hasMessage sheets_appendMessage sheets_getRecentConversation
         sheets_getAllSettings openai_generateOpenAIResponse sheetsService openaiService].
  settings_frame.
Qed.

(** ** setSetting and the reset marker *)

Lemma find_row_ge key rows : forall i j, find_row key rows i = Some j -> (i <= j)%nat.
Proof.
  induction rows as [| r rows IH]; cbn; intros i j H; [ discriminate | ].
  destruct (Js.cell_is r 0 key).
  - injection H as <-. apply Nat.le_refl.
  - apply IH in H. lia.
Qed.

Lemma upsert_rec_find key value rows :
  forall i,
    match find_row key rows i with
    | Some j => replace_nth (j - i) [key; value] rows
    | None => (rows ++ [[key; value]])%list
    end = upsert_rec key value rows.
Proof.
  induction rows as [| r rows IH]; cbn; intros i; [ reflexivity | ].
  destruct (Js.cell_is r 0 key).
  - rewrite Nat.sub_diag. reflexivity.
  - specialize (IH (S i)).
    destruct (find_row key rows (S i)) as [j |] eqn:E.
    + apply find_row_ge in E.
      replace (j - i)%nat with (S (j - S i)) by lia.
      cbn. rewrite IH. reflexivity.
    + cbn. rewrite IH. reflexivity.
Qed.

Lemma upsert_upsert_rec key value rows : upsert key value rows = upsert_rec key value rows.
Proof.
  unfold upsert. rewrite <- (upsert_rec_find key value rows 0).
  destruct (find_row key rows 0); [ rewrite Nat.sub_0_r | ]; reflexivity.
Qed.

Lemma cell_is_key r key : Js.cell_is r 0 key = true -> Js.cell r 0 = Some key.
Proof.
  unfold Js.cell_is. destruct (Js.cell r 0) as [c |]; [ | discriminate ].
  intros H. apply String.eqb_eq in H. congruence.
Qed.

Lemma cell_is_other r key key' :
  Js.cell_is r 0 key = true -> key' <> key -> Js.cell_is r 0 key' = false.
Proof.
  intros H Hne. unfold Js.cell_is. rewrite (cell_is_key r key H).
  apply String.eqb_neq. congruence.
Qed.

(** After [setSetting key value] has gone through, [getSetting key] finds
    [value]. *)
Lemma first_value_upsert_same key value rows :
  first_value key (upsert key value rows) = Some value.
Proof.
  rewrite upsert_upsert_rec.
  assert (Hnew : Js.cell_is [key; value] 0 key = true).
  { unfold Js.cell_is. cbn. apply String.eqb_refl. }
  induction rows as [| r rows IH]; cbn [upsert_rec first_value].
  - rewrite Hnew. reflexivity.
  - destruct (Js.cell_is r 0 key) eqn:E; cbn [first_value].
    + rewrite Hnew. reflexivity.
    + rewrite E. exact IH.
Qed.

(** ... and the other keys keep their value. *)
Lemma first_value_upsert_other key value key' rows :
  key' <> key ->
  first_value key' (upsert key value rows) = first_value key' rows.
Proof.
  intros Hne. rewrite upsert_upsert_rec.
  assert (Hnew : Js.cell_is [key; value] 0 key' = false).
  { unfold Js.cell_is. cbn. apply String.eqb_neq. congruence. }
  induction rows as [| r rows IH]; cbn [upsert_rec first_value].
  - rewrite Hnew. reflexivity.
  - destruct (Js.cell_is r 0 key) eqn:E; cbn [first_value].
    + rewrite Hnew, (cell_is_other r key key' E Hne). reflexivity.
    + destruct (Js.cell_is r 0 key'); [ reflexivity | exact IH ].
Qed.

(** [setSetting] changes nothing but the settings, and these by an
    [upsert] or not at all. *)
Lemma setSetting_effect key value w :
  env (snd (SheetsService.setSetting key value w)) = env w
  /\ ticks (snd (SheetsService.setSetting key value w)) = ticks w
  /\ messages (snd (SheetsService.setSetting key value w)) = messages w
  /\ (settings (snd (SheetsService.setSetting key value w)) = settings w
      \/ settings (snd (SheetsService.setSetting key value w))
         = upsert key value (settings w)).
Proof.
  destruct (sheets_ready w) eqn:Hr.
  - destruct (setSetting_run key value w Hr) as (w1 & _ & K & ->).
    destruct K as ((He & _) & Ht & Hm & Hs).
    destruct (hd None (faults w1)), (hd None (tl (faults w1))); cbn; auto.
  - unfold SheetsService.setSetting.
    match goal with
    | |- context [bind SheetsService.getClient (fun sheets => if negb sheets then ret tt else ?k)] =>
        destruct (not_ready_returns tt k w Hr) as (lines & ->)
    end.
    cbn. auto.
Qed.

(** When the store is configured and no Sheets call fails, [setSetting]
    goes through. *)
Lemma setSetting_through key value w :
  sheets_ready w = true ->
  faults w = [] ->
  settings (snd (SheetsService.setSetting key value w)) = upsert key value (settings w)
  /\ faults (snd (SheetsService.setSetting key value w)) = [].
Proof.
  intros Hr Hf.
  destruct (setSetting_run key value w Hr) as (w1 & H1 & _ & ->).
  pose proof (ensureHeaders_quiet w w1 H1 Hf) as Hq.
  rewrite Hq. cbn. rewrite Hq. auto.
Qed.

Lemma reset_key_injective u v : "reset:" ++ v = "reset:" ++ u -> v = u.
Proof. cbn. intros H. injection H as H. exact H. Qed.

Lemma resetConversation_unfold waId w :
  SheetsService.resetConversation waId w
  = SheetsService.setSetting ("reset:" ++ waId) (clock (env w) (ticks w))
      (set_ticks (S (ticks w)) w).
Proof. reflexivity. Qed.

Lemma marker_from_settings waId T w w' :
  env w' = env w ->
  first_value ("reset:" ++ waId) (settings w') = first_value ("reset:" ++ waId) (settings w) ->
  marker_from waId T w -> marker_from waId T w'.
Proof.
  intros He Hs (s & t & H1 & H2 & H3). exists s, t.
  rewrite He, Hs. auto.
Qed.

(** The calls that do not write the marker of [waId] leave it as it is;
    a reset of [waId] moves it to the reading of the clock; and the
    clock is read later and later. *)
Lemma call_keeps_marker waId T e0 k0 c w :
  clock_from e0 k0 T ->
  leaves_marker waId c ->
  env w = e0 /\ (k0 <= ticks w)%nat /\ marker_from waId T w ->
  env (call c w) = e0 /\ (k0 <= ticks (call c w))%nat /\ marker_from waId T (call c w).
Proof.
  intros Hclock Hc (He & Hk & Hm).
  assert (Hkept : forall w', settings_kept w w' ->
                     env w' = e0 /\ (k0 <= ticks w')%nat /\ marker_from waId T w').
  { intros w' (He' & Hs' & Ht'). split; [ congruence | ]. split; [ lia | ].
    apply (marker_from_settings waId T w w'); [ exact He' | rewrite Hs'; reflexivity | exact Hm ]. }
  destruct c as [msgId | u r content msgId | u limit | key | key value | | v
                | number message msgId | to message | fs]; cbn [call].
  - apply Hkept, keeps_settings_hasMessage.
  - apply Hkept, keeps_settings_appendMessage.
  - apply Hkept, keeps_settings_getRecentConversation.
  - apply Hkept, keeps_settings_getSetting.
  - cbn [leaves_marker] in Hc.
    destruct (setSetting_effect key value w) as (He' & Ht' & _ & Hs').
    split; [ congruence | ]. split; [ lia | ].
    apply (marker_from_settings waId T w); [ exact He' | | exact Hm ].
    destruct Hs' as [-> | ->]; [ reflexivity | ].
    apply first_value_upsert_other. intros H. apply Hc. symmetry. exact H.
  - apply Hkept, keeps_settings_getAllSettings.
  - rewrite resetConversation_unfold.
    set (w0 := set_ticks (S (ticks w)) w).
    destruct (setSetting_effect ("reset:" ++ v) (clock (env w) (ticks w)) w0)
      as (He' & Ht' & _ & Hs').
    change (env w0) with (env w) in He'. change (ticks w0) with (S (ticks w)) in Ht'.
    change (settings w0) with (settings w) in Hs'.
    split; [ congruence | ]. split; [ lia | ].
    destruct Hs' as [Hs' | Hs'].
    + apply (marker_from_settings waId T w); [ exact He' | rewrite Hs'; reflexivity | exact Hm ].
    + destruct (string_dec v waId) as [-> | Hne].
      * destruct (Hclock (ticks w) Hk) as (t & Hparse & Hle).
        exists (clock (env w) (ticks w)), t.
        rewrite Hs', first_value_upsert_same, He', He. auto.
      * apply (marker_from_settings waId T w); [ exact He' | | exact Hm ].
        rewrite Hs'. apply first_value_upsert_other.
        intros H. apply reset_key_injective in H. congruence.
  - apply Hkept, keeps_settings_handle.
  - apply Hkept, keeps_settings_sendMessage.
  - auto.
Qed.

Lemma calls_keep_marker waId T e0 k0 cs :
  clock_from e0 k0 T ->
  Forall (leaves_marker waId) cs ->
  forall w,
    env w = e0 /\ (k0 <= ticks w)%nat /\ marker_from waId T w ->
    env (calls cs w) = e0 /\ (k0 <= ticks (calls cs w))%nat
    /\ marker_from waId T (calls cs w).
Proof.
  intros Hclock Hcs. induction Hcs as [| c cs Hc Hcs IH]; intros w Hw; [ exact Hw | ].
  cbn. apply IH. apply call_keeps_marker; assumption.
Qed.

Lemma In_slice_from {A : Type} (k : Z) (l : list A) x :
  In x (Js.slice_from k l) -> In x l.
Proof.
  unfold Js.slice_from. intros H.
  match type of H with
  | In _ (skipn ?n _) => rewrite <- (firstn_skipn n l)
  end.
  apply in_or_app. right. exact H.
Qed.

(** C3 (amended). Let [resetConversation waId] run on a configured store
    while no Sheets call fails, at a reading [T] of the clock that lies
    after the epoch.  Let then any calls follow that write the marker of
    [waId] only through further resets, on a clock that does not go
    back.  Then a call of [getRecentConversation waId limit] whose two
    reads succeed returns, for any [limit], turns of stored rows of
    [waId] only whose instant is after [T]. *)
Theorem reset_hides_earlier_turns :
  forall (waId : string) (T : Z) (w0 : World) (cs : list StoreCall) (limit : Z),
    sheets_ready w0 = true ->
    faults w0 = [] ->
    Date_parse (env w0) "" = None ->
    Date_parse (env w0) (clock (env w0) (ticks w0)) = Some T ->
    0 < T ->
    clock_from (env w0) (ticks w0) T ->
    Forall (leaves_marker waId) cs ->
    hd None (faults (calls cs (snd (SheetsService.resetConversation waId w0)))) = None ->
    hd None (tl (faults (calls cs (snd (SheetsService.resetConversation waId w0))))) = None ->
    exists rows w2,
      SheetsService.getRecentConversation waId limit
        (calls cs (snd (SheetsService.resetConversation waId w0)))
      = (Ok (map SheetsService.to_turn rows), w2)
      /\ Forall (fun r =>
                   In r (messages (calls cs (snd (SheetsService.resetConversation waId w0))))
                   /\ Js.cell_is r 1 waId = true
                   /\ exists t,
                        timestamp (calls cs (snd (SheetsService.resetConversation waId w0))) r
                        = Some t /\ T < t)
                rows.
Proof.
  intros waId T w0 cs limit Hr Hf Hempty HT Hpos Hclock Hcs.
  set (wr := snd (SheetsService.resetConversation waId w0)).
  assert (Hwr : env wr = env w0 /\ (ticks w0 <= ticks wr)%nat /\ marker_from waId T wr).
  { subst wr. rewrite resetConversation_unfold.
    set (wt := set_ticks (S (ticks w0)) w0).
    destruct (setSetting_effect ("reset:" ++ waId) (clock (env w0) (ticks w0)) wt)
      as (He & Ht & _ & _).
    destruct (setSetting_through ("reset:" ++ waId) (clock (env w0) (ticks w0)) wt Hr Hf)
      as (Hs & _).
    change (env wt) with (env w0) in He. change (ticks wt) with (S (ticks w0)) in Ht.
    split; [ exact He | ]. split; [ lia | ].
    exists (clock (env w0) (ticks w0)), T.
    rewrite Hs, first_value_upsert_same, He. split; [ reflexivity | ].
    split; [ exact HT | lia ]. }
  destruct (calls_keep_marker waId T (env w0) (ticks w0) cs Hclock Hcs wr Hwr)
    as (He1 & _ & (s & t & Hs & Hparse & Hle)).
  set (w1 := calls cs wr) in *.
  intros Hf1 Hf2.
  assert (Hr1 : sheets_ready w1 = true) by (unfold sheets_ready; rewrite He1; exact Hr).
  rewrite (getRecentConversation_run waId limit w1 Hr1). cbn zeta.
  change (faults (answered w1)) with (tl (faults w1)). rewrite Hf1, Hf2.
  eexists _, _. split; [ reflexivity | ].
  apply Forall_forall. intros r Hin.
  apply In_slice_from in Hin. unfold qualifying in Hin.
  apply filter_In in Hin as [Hin Hwin].
  split; [ exact Hin | ].
  rewrite Hs in Hwin.
  assert (Hne : s <> "").
  { intros ->. rewrite He1, Hempty in Hparse. discriminate. }
  assert (Hcut : reset_time (Date_parse (env w1)) (Some s) = Some t).
  { unfold reset_time. rewrite (proj2 (truthy_some s) Hne).
    cbn. destruct (String.eqb_spec s ""); [ contradiction | exact Hparse ]. }
  rewrite Hcut in Hwin. unfold SheetsService.in_window in Hwin.
  apply andb_true_iff in Hwin as [Hu Hgt].
  split; [ exact Hu | ].
  assert (Hnz : Js.not_number (Some t) = false) by (cbn; apply Z.eqb_neq; lia).
  rewrite Hnz in Hgt. cbn [orb] in Hgt.
  unfold timestamp.
  destruct (match Js.cell r 0 with
            | Some c => Date_parse (env w1) c
            | None => None
            end) as [a |]; [ | discriminate ].
  cbn in Hgt. apply Z.ltb_lt in Hgt. exists a. split; [ reflexivity | lia ].
Qed.

Lemma demo_clock_from :
  clock_from demo_env 0 1714557600000.
Proof.
  intros k _.
  do 5 (destruct k as [| k]; [ eexists; split; [ vm_compute; reflexivity | lia ] | ]).
  eexists; split; [ vm_compute; reflexivity | lia ].
Qed.

(** A run of C3: a turn of 09:00 is stored, the conversation is reset at
    10:00, the user writes again, and the window is asked for. *)
Lemma reset_hides_earlier_turns_witness :
  exists rows w2,
    SheetsService.getRecentConversation "55501" 12
      (calls [CallHandleUserMessage "55501" "Hello again" (Some "wamid.2")]
         (snd (SheetsService.resetConversation "55501"
                 (demo_world [] [["2024-05-01T09:00:00.000Z"; "55501"; "user"; "Hi"; "wamid.1"]] []))))
    = (Ok (map SheetsService.to_turn rows), w2)
    /\ Forall (fun r =>
                 In r (messages
                         (calls [CallHandleUserMessage "55501" "Hello again" (Some "wamid.2")]
                            (snd (SheetsService.resetConversation "55501"
                                    (demo_world []
                                       [["2024-05-01T09:00:00.000Z"; "55501"; "user"; "Hi"; "wamid.1"]]
                                       [])))))
                 /\ Js.cell_is r 1 "55501" = true
                 /\ exists t,
                      timestamp
                        (calls [CallHandleUserMessage "55501" "Hello again" (Some "wamid.2")]
                           (snd (SheetsService.resetConversation "55501"
                                   (demo_world []
                                      [["2024-05-01T09:00:00.000Z"; "55501"; "user"; "Hi"; "wamid.1"]]
                                      [])))) r
                      = Some t /\ 1714557600000 < t)
              rows.
Proof.
  apply (reset_hides_earlier_turns "55501" 1714557600000
           (demo_world [] [["2024-05-01T09:00:00.000Z"; "55501"; "user"; "Hi"; "wamid.1"]] [])
           [CallHandleUserMessage "55501" "Hello again" (Some "wamid.2")] 12).
  - reflexivity.
  - reflexivity.
  - reflexivity.
  - vm_compute. reflexivity.
  - lia.
  - exact demo_clock_from.
  - repeat constructor.
  - vm_compute. reflexivity.
  - vm_compute. reflexivity.
Defined.

(** C3 as stated fails: the reset of 10:00 has written its marker, the
    read of the settings fails in a later call of
    [getRecentConversation], and the turn of 09:00 is returned. *)
Lemma reset_is_missed_when_read_fails :
  settings
    (snd (SheetsService.resetConversation "55501"
            (demo_world [] [["2024-05-01T09:00:00.000Z"; "55501"; "user"; "Hi"; "wamid.1"]] [])))
  = [["reset:55501"; "2024-05-01T10:00:00.000Z"]]
  /\ iso_Date_parse "2024-05-01T10:00:00.000Z" = Some 1714557600000
  /\ iso_Date_parse "2024-05-01T09:00:00.000Z" = Some 1714554000000
  /\ fst (SheetsService.getRecentConversation "55501" 12
            (call (Surroundings [Some boom])
               (snd (SheetsService.resetConversation "55501"
                       (demo_world []
                          [["2024-05-01T09:00:00.000Z"; "55501"; "user"; "Hi"; "wamid.1"]] [])))))
     = Ok [mkChat "user" "Hi"].
Proof. repeat split; vm_compute; reflexivity. Qed.

(** * Further properties of the store *)

Lemma answered_quiet w : faults w = [] -> answered w = w.
Proof. intros H. unfold answered. rewrite H. cbn. rewrite <- H. apply set_faults_same. Qed.

Lemma existsb_key_in key rows :
  In (Some key) (row_keys rows) -> existsb (fun r => Js.cell_is r 0 key) rows = true.
Proof.
  induction rows as [| r rows IH]; cbn [row_keys map In existsb]; [ tauto | ].
  intros [Hk | Hin]; apply orb_true_iff.
  - left. unfold Js.cell_is. rewrite Hk. apply String.eqb_refl.
  - right. exact (IH Hin).
Qed.

Lemma row_keys_upsert_rec key value rows :
  row_keys (upsert_rec key value rows)
  = if existsb (fun r => Js.cell_is r 0 key) rows then row_keys rows
    else (row_keys rows ++ [Some key])%list.
Proof.
  induction rows as [| r rows IH]; cbn [upsert_rec existsb]; [ reflexivity | ].
  destruct (Js.cell_is r 0 key) eqn:E; cbn [orb].
  - cbn [row_keys map]. rewrite (cell_is_key r key E). reflexivity.
  - change (row_keys (r :: upsert_rec key value rows))
      with (Js.cell r 0 :: row_keys (upsert_rec key value rows)).
    rewrite IH. destruct (existsb (fun r0 => Js.cell_is r0 0 key) rows); reflexivity.
Qed.

(** [setSetting] on a key that has a row: whatever becomes of its calls,
    the first cells of the rows are as they were. *)
Lemma setSetting_keeps_row_keys key value w :
  In (Some key) (row_keys (settings w)) ->
  row_keys (settings (snd (SheetsService.setSetting key value w))) = row_keys (settings w).
Proof.
  intros Hin.
  destruct (setSetting_effect key value w) as (_ & _ & _ & [-> | ->]); [ reflexivity | ].
  rewrite upsert_upsert_rec, row_keys_upsert_rec, (existsb_key_in key _ Hin). reflexivity.
Qed.

(** X1. Update in place, then read: on a configured store, when no
    Sheets call fails and the key already has a row, [getSetting key]
    right after [setSetting key value] returns [value], for every
    non-empty [value], and no row has been added. *)
Theorem setSetting_then_getSetting :
  forall (key value : string) (w : World),
    sheets_ready w = true ->
    faults w = [] ->
    In (Some key) (row_keys (settings w)) ->
    value <> "" ->
    fst (SheetsService.getSetting key (snd (SheetsService.setSetting key value w)))
    = Ok (Some value)
    /\ length (settings (snd (SheetsService.setSetting key value w)))
       = length (settings w).
Proof.
  intros key value w Hr Hf Hin Hv. split.
  - destruct (setSetting_through key value w Hr Hf) as (Hs & Hf').
    destruct (setSetting_effect key value w) as (He & _).
    set (w' := snd (SheetsService.setSetting key value w)) in *.
    assert (Hr' : sheets_ready w' = true) by (unfold sheets_ready; rewrite He; exact Hr).
    rewrite (getSetting_run key w' Hr'), Hf'. cbn.
    rewrite Hs, first_value_upsert_same. reflexivity.
  - pose proof (setSetting_keeps_row_keys key value w Hin) as Hk.
    apply (f_equal (@length _)) in Hk. unfold row_keys in Hk.
    rewrite !length_map in Hk. exact Hk.
Qed.

Lemma setSetting_then_getSetting_witness :
  fst (SheetsService.getSetting "biz:hours"
         (snd (SheetsService.setSetting "biz:hours" "9to5"
                 (demo_world [] [] [["biz:name"; "Acme"]; ["biz:hours"; "8to4"]]))))
  = Ok (Some "9to5")
  /\ length (settings (snd (SheetsService.setSetting "biz:hours" "9to5"
                              (demo_world [] [] [["biz:name"; "Acme"]; ["biz:hours"; "8to4"]]))))
     = length (settings (demo_world [] [] [["biz:name"; "Acme"]; ["biz:hours"; "8to4"]])).
Proof.
  apply (setSetting_then_getSetting "biz:hours" "9to5"
           (demo_world [] [] [["biz:name"; "Acme"]; ["biz:hours"; "8to4"]]));
    [ reflexivity | reflexivity | right; left; reflexivity | discriminate ].
Defined.

(** X2. Whatever happens to its Sheets calls, [setSetting key value] on
    a key that already has a row leaves the value that [getSetting]
    finds under every other key as it was. *)
Theorem setSetting_keeps_other_keys :
  forall (key value other : string) (w : World),
    In (Some key) (row_keys (settings w)) ->
    other <> key ->
    first_value other (settings (snd (SheetsService.setSetting key value w)))
    = first_value other (settings w).
Proof.
  intros key value other w _ Hne.
  destruct (setSetting_effect key value w) as (_ & _ & _ & [-> | ->]);
    [ reflexivity | apply first_value_upsert_other; exact Hne ].
Qed.

Lemma setSetting_keeps_other_keys_witness :
  first_value "biz:name"
    (settings (snd (SheetsService.setSetting "biz:hours" "9to5"
                      (demo_world [None; Some boom] []
                         [["biz:name"; "Acme"]; ["biz:hours"; "8to4"]]))))
  = first_value "biz:name"
      (settings (demo_world [None; Some boom] []
                   [["biz:name"; "Acme"]; ["biz:hours"; "8to4"]])).
Proof.
  apply (setSetting_keeps_other_keys "biz:hours" "9to5" "biz:name");
    [ right; left; reflexivity | discriminate ].
Defined.

(** X3. [setSetting] on a key that already has a row adds no row and
    moves none: whatever happens to its Sheets calls, the first cells of
    the settings rows are the same, in the same order, after the call;
    so rows with pairwise distinct keys stay so. *)
Theorem setSetting_keeps_keys_distinct :
  forall (key value : string) (w : World),
    In (Some key) (row_keys (settings w)) ->
    row_keys (settings (snd (SheetsService.setSetting key value w)))
    = row_keys (settings w)
    /\ length (settings (snd (SheetsService.setSetting key value w)))
       = length (settings w)
    /\ (NoDup (row_keys (settings w)) ->
        NoDup (row_keys (settings (snd (SheetsService.setSetting key value w))))).
Proof.
  intros key value w Hin.
  pose proof (setSetting_keeps_row_keys key value w Hin) as Hk.
  split; [ exact Hk | ]. split.
  - apply (f_equal (@length _)) in Hk. unfold row_keys in Hk.
    rewrite !length_map in Hk. exact Hk.
  - rewrite Hk. auto.
Qed.

Lemma setSetting_keeps_keys_distinct_witness :
  row_keys (settings (snd (SheetsService.setSetting "biz:hours" "9to5"
                             (demo_world [] [] [["biz:name"; "Acme"]; ["biz:hours"; "8to4"]]))))
  = [Some "biz:name"; Some "biz:hours"].
Proof.
  apply (proj1 (setSetting_keeps_keys_distinct "biz:hours" "9to5"
                  (demo_world [] [] [["biz:name"; "Acme"]; ["biz:hours"; "8to4"]])
                  ltac:(right; left; reflexivity))).
Defined.

Lemma existsb_key_false key rows :
  existsb (fun r => Js.cell_is r 0 key) rows = false -> ~ In (Some key) (row_keys rows).
Proof.
  induction rows as [| r rows IH]; cbn [existsb row_keys map In]; [ tauto | ].
  intros H. apply orb_false_iff in H as [E H].
  intros [Hk | Hin]; [ | exact (IH H Hin) ].
  unfold Js.cell_is in E. rewrite Hk, String.eqb_refl in E. discriminate.
Qed.

(** *** getAllSettings against getSetting *)

Lemma record_get_set_same k v m :
  k <> "__proto__" -> record_get k (record_set k v m) = Some v.
Proof.
  intros Hk. unfold record_set.
  destruct (String.eqb_spec k "__proto__"); [ contradiction | ].
  induction m as [| [k' v'] m IH]; cbn.
  - rewrite String.eqb_refl. reflexivity.
  - destruct (String.eqb_spec k' k) as [-> | Hne]; cbn.
    + rewrite String.eqb_refl. reflexivity.
    + destruct (String.eqb_spec k' k); [ contradiction | exact IH ].
Qed.

Lemma record_get_set_other k v k' m :
  k' <> k -> record_get k' (record_set k v m) = record_get k' m.
Proof.
  intros Hne. unfold record_set.
  destruct (k =? "__proto__")%string; [ reflexivity | ].
  induction m as [| [k0 v0] m IH]; cbn.
  - destruct (String.eqb_spec k k'); [ congruence | reflexivity ].
  - destruct (String.eqb_spec k0 k) as [-> | H0]; cbn.
    + destruct (String.eqb_spec k k'); [ congruence | reflexivity ].
    + destruct (String.eqb_spec k0 k'); [ reflexivity | exact IH ].
Qed.

(** No row gives the mapping a property [__proto__]. *)
Lemma collect_settings_proto rows :
  forall m, record_get "__proto__" (collect_settings rows m) = record_get "__proto__" m.
Proof.
  induction rows as [| r rows IH]; intros m; [ reflexivity | ].
  cbn [collect_settings]. rewrite IH.
  destruct (Js.truthy (Some (Js.or_else (Js.cell r 0) ""))); [ | reflexivity ].
  destruct (String.eqb_spec (Js.or_else (Js.cell r 0) "") "__proto__") as [E | E].
  - rewrite E. reflexivity.
  - apply record_get_set_other. congruence.
Qed.

Lemma existsb_key_true key rows :
  existsb (fun r => Js.cell_is r 0 key) rows = true -> In (Some key) (row_keys rows).
Proof.
  induction rows as [| r rows IH]; cbn [existsb row_keys map In]; [ discriminate | ].
  intros H. apply orb_true_iff in H as [E | H]; [ left | right; exact (IH H) ].
  apply cell_is_key. exact E.
Qed.

Lemma collect_settings_get k rows :
  k <> "" ->
  k <> "__proto__" ->
  NoDup (row_keys rows) ->
  forall m,
    record_get k (collect_settings rows m)
    = if existsb (fun r => Js.cell_is r 0 k) rows
      then Some (Js.or_else (first_value k rows) "")
      else record_get k m.
Proof.
  intros Hk Hp. induction rows as [| r rows IH]; intros Hnd m; [ reflexivity | ].
  change (row_keys (r :: rows)) with (Js.cell r 0 :: row_keys rows) in Hnd.
  apply NoDup_cons_iff in Hnd as [Hnotin Hnd].
  cbn [collect_settings existsb first_value].
  destruct (Js.cell_is r 0 k) eqn:E; cbn [orb].
  - pose proof (cell_is_key r k E) as Hcell. rewrite Hcell in Hnotin.
    assert (Hor : Js.or_else (Js.cell r 0) "" = k).
    { rewrite Hcell. cbn. destruct (String.eqb_spec k ""); [ contradiction | reflexivity ]. }
    rewrite Hor, (proj2 (truthy_some k) Hk), (IH Hnd).
    destruct (existsb (fun r0 => Js.cell_is r0 0 k) rows) eqn:Ex.
    + apply existsb_key_true in Ex. contradiction.
    + apply record_get_set_same. exact Hp.
  - rewrite (IH Hnd).
    destruct (existsb (fun r0 => Js.cell_is r0 0 k) rows); [ reflexivity | ].
    destruct (Js.truthy (Some (Js.or_else (Js.cell r 0) ""))); [ | reflexivity ].
    apply record_get_set_other. intros Heq.
    unfold Js.cell_is in E. destruct (Js.cell r 0) as [c |]; cbn in Heq.
    + destruct (String.eqb_spec c ""); [ congruence | ].
      subst c. rewrite String.eqb_refl in E. discriminate.
    + congruence.
Qed.

(** X4. On a configured store whose settings rows have pairwise distinct
    first cells, a successful [getAllSettings] agrees with a successful
    [getSetting] on every non-empty key but [__proto__]: the mapping has
    the key exactly when a row has it, and the value [getSetting] finds
    is the value the mapping gives.  The mapping never has a property
    [__proto__], also when a row has this key and [getSetting] finds
    its value. *)
Theorem getAllSettings_agrees_with_getSetting :
  forall (key : string) (w : World),
    sheets_ready w = true ->
    hd None (faults w) = None ->
    NoDup (row_keys (settings w)) ->
    key <> "" ->
    exists map found,
      fst (SheetsService.getAllSettings w) = Ok map
      /\ fst (SheetsService.getSetting key w) = Ok found
      /\ found = first_value key (settings w)
      /\ (key <> "__proto__" ->
          (forall value, found = Some value -> record_get key map = Some value)
          /\ (record_get key map = None <-> ~ In (Some key) (row_keys (settings w))))
      /\ record_get "__proto__" map = None.
Proof.
  intros key w Hr Hf Hnd Hk.
  rewrite (getAllSettings_run w Hr), (getSetting_run key w Hr), Hf.
  eexists _, _. split; [ reflexivity | ]. split; [ reflexivity | ].
  split; [ reflexivity | ].
  split; [ | apply collect_settings_proto ].
  intros Hp.
  rewrite (collect_settings_get key (settings w) Hk Hp Hnd []).
  destruct (existsb (fun r => Js.cell_is r 0 key) (settings w)) eqn:Ex.
  - split.
    + intros value ->. cbn. destruct (String.eqb_spec value ""); congruence.
    + split; [ discriminate | ].
      intros Hnot. apply existsb_key_true in Ex. contradiction.
  - split.
    + intros value Hv. exfalso.
      apply existsb_key_false in Ex. apply Ex. clear Ex.
      induction (settings w) as [| r rows IH]; cbn [first_value] in Hv; [ discriminate | ].
      cbn [row_keys map In].
      destruct (Js.cell_is r 0 key) eqn:E;
        [ left; apply cell_is_key; exact E | right; apply IH ].
      * apply NoDup_cons_iff in Hnd. apply Hnd.
      * exact Hv.
    + split; [ intros _; apply existsb_key_false; exact Ex | reflexivity ].
Qed.

(** A run of X4 on a sheet with a row for [__proto__]: [getSetting]
    finds its value, the mapping has no such property. *)
Lemma getAllSettings_agrees_with_getSetting_witness :
  exists map,
    fst (SheetsService.getAllSettings
           (demo_world [] [] [["biz:name"; "Acme"]; ["__proto__"; "x"]])) = Ok map
    /\ fst (SheetsService.getSetting "__proto__"
              (demo_world [] [] [["biz:name"; "Acme"]; ["__proto__"; "x"]])) = Ok (Some "x")
    /\ record_get "__proto__" map = None.
Proof.
  destruct (getAllSettings_agrees_with_getSetting "__proto__"
              (demo_world [] [] [["biz:name"; "Acme"]; ["__proto__"; "x"]]))
    as (map & found & Hall & Hget & Hfound & _ & Hproto).
  - reflexivity.
  - reflexivity.
  - repeat constructor; cbn; intuition discriminate.
  - discriminate.
  - exists map. split; [ exact Hall | ]. split; [ | exact Hproto ].
    rewrite Hget, Hfound. reflexivity.
Defined.

(** *** What the calls keep of the rows *)

Lemma store_kept_refl w : store_kept w w.
Proof. repeat split. Qed.

Lemma store_kept_trans w1 w2 w3 : store_kept w1 w2 -> store_kept w2 w3 -> store_kept w1 w3.
Proof. unfold store_kept. intuition congruence. Qed.

Lemma rows_kept_store_kept w w' : rows_kept w w' -> store_kept w w'.
Proof. intros ((He & _) & Ht & Hm & Hs). repeat split; assumption. Qed.

Ltac store_leaf := intros; unfold store_kept; cbn; repeat split; reflexivity.

Ltac store_frame :=
  repeat keeps_step store_kept_refl store_kept_trans; try store_leaf.

Lemma keeps_store_getClient : keeps store_kept SheetsService.getClient.
Proof.
  apply (keeps_weaken rows_kept); [ apply rows_kept_store_kept | apply keeps_rows_getClient ].
Qed.

#[export] Hint Resolve keeps_store_getClient : keeps_db.

Lemma keeps_store_getSetting key : keeps store_kept (SheetsService.getSetting key).
Proof.
  unfold SheetsService.getSetting, SheetsService.values_get_settings. store_frame.
Qed.

#[export] Hint Resolve keeps_store_getSetting : keeps_db.

Lemma keeps_store_hasMessage msgId : keeps store_kept (SheetsService.hasMessage msgId).
Proof.
  unfold SheetsService.hasMessage, SheetsService.values_get_messages. store_frame.
Qed.

Lemma keeps_store_getRecentConversation waId limit :
  keeps store_kept (SheetsService.getRecentConversation waId limit).
Proof.
  unfold SheetsService.getRecentConversation, SheetsService.values_get_messages. store_frame.
Qed.

Lemma keeps_store_getAllSettings : keeps store_kept SheetsService.getAllSettings.
Proof.
  unfold SheetsService.getAllSettings, SheetsService.values_get_settings. store_frame.
Qed.

Lemma keeps_store_generateOpenAIResponse prompt history :
  keeps store_kept (OpenaiService.generateOpenAIResponse prompt history).
Proof.
  intros w.
  unfold OpenaiService.generateOpenAIResponse, try_catch, bind,
    OpenaiService.chat_completions_create, OpenaiService.console_error, logger, modify, throw, ret.
  destruct (openai_api (env w) (length (completions w))
              (OpenaiService.request_messages prompt history)) as [e | [[| c cs] |]];
    store_leaf.
Qed.

Lemma keeps_store_sendMessage to message :
  keeps store_kept (WhatsappService.sendMessage to message).
Proof.
  intros w. destruct (sendMessage_run to message w) as (lines & H).
  destruct (whatsapp_configured w && Js.truthy (Some (Js.remove_non_digits to))).
  - destruct H as (cfg & -> & _). store_leaf.
  - destruct H as (t & _ & ->). store_leaf.
Qed.

(** The rows [appendMessage] leaves: those there were, and at most the
    one it was asked to add, at the end. *)
Lemma appendMessage_messages waId r content msgId w :
  settings (snd (SheetsService.appendMessage waId r content msgId w)) = settings w
  /\ (messages (snd (SheetsService.appendMessage waId r content msgId w)) = messages w
      \/ messages (snd (SheetsService.appendMessage waId r content msgId w))
         = (messages w
              ++ [[clock (env w) (ticks w); waId; role_name r; content; Js.or_else msgId ""]])%list).
Proof.
  destruct (sheets_ready w) eqn:Hr.
  - destruct (appendMessage_run waId r content msgId w Hr) as (w1 & _ & K & ->).
    destruct K as (_ & _ & Hm & Hs). cbn zeta.
    destruct (hd None (faults w1)); cbn; auto.
  - unfold SheetsService.appendMessage.
    match goal with
    | |- context [bind SheetsService.getClient (fun sheets => if negb sheets then ret tt else ?k)] =>
        destruct (not_ready_returns tt k w Hr) as (lines & ->)
    end.
    cbn. auto.
Qed.

(** How a property of the worlds goes through the pipeline: it is enough
    that it goes through the two writes of the pipeline and through
    every call that keeps the rows. *)
Lemma keeps_handle (R : World -> World -> Prop) number message msgId :
  (forall w, R w w) ->
  (forall w1 w2 w3, R w1 w2 -> R w2 w3 -> R w1 w3) ->
  (forall w w', store_kept w w' -> R w w') ->
  keeps R (SheetsService.appendMessage number user message msgId) ->
  (forall reply, keeps R (SheetsService.appendMessage number assistant reply None)) ->
  keeps R (handle number message msgId).
Proof.
  intros Hrefl Htrans Hstore Huser Hassistant.
  assert (Hlog : forall l t d, keeps R (logger l t d)).
  { intros l t d w. apply Hstore. store_leaf. }
  assert (Hsend : forall to m, keeps R (WhatsappService.sendMessage to m)).
  { intros to m. apply (keeps_weaken store_kept); [ exact Hstore | apply keeps_store_sendMessage ]. }
  unfold handle, WhatsappService.handleUserMessage, WhatsappService.handleUserMessage_try,
    WhatsappService.handleUserMessage_catch.
  cbn [sheets_hasMessage sheets_appendMessage sheets_getRecentConversation
         sheets_getAllSettings openai_generateOpenAIResponse sheetsService openaiService].
  apply (keeps_try_catch _ Htrans).
  - apply (keeps_bind _ Htrans).
    + apply keeps_if; [ | apply (keeps_ret _ Hrefl) ].
      apply (keeps_weaken store_kept); [ exact Hstore | apply keeps_store_hasMessage ].
    + intros dup. apply keeps_if; [ apply Hlog | ].
      apply (keeps_bind _ Htrans); [ exact Huser | intros _ ].
      apply (keeps_bind _ Htrans);
        [ apply (keeps_weaken store_kept);
          [ exact Hstore | apply keeps_store_getRecentConversation ] | intros history ].
      apply (keeps_bind _ Htrans);
        [ apply (keeps_weaken store_kept);
          [ exact Hstore | apply keeps_store_getAllSettings ] | intros settings ].
      cbv zeta.
      apply (keeps_bind _ Htrans);
        [ apply (keeps_weaken store_kept);
          [ exact Hstore | apply keeps_store_generateOpenAIResponse ] | intros reply ].
      apply (keeps_bind _ Htrans); [ apply Hassistant | intros _ ].
      apply Hsend.
  - intros e. apply (keeps_bind _ Htrans); [ apply Hlog | intros _; apply Hsend ].
Qed.

Lemma messages_grow_refl w : messages_grow w w.
Proof. exists []. symmetry. apply app_nil_r. Qed.

Lemma messages_grow_trans w1 w2 w3 :
  messages_grow w1 w2 -> messages_grow w2 w3 -> messages_grow w1 w3.
Proof.
  intros (m1 & H1) (m2 & H2). exists (m1 ++ m2)%list.
  rewrite H2, H1, app_assoc. reflexivity.
Qed.

Lemma store_kept_messages_grow w w' : store_kept w w' -> messages_grow w w'.
Proof. intros (_ & _ & Hm & _). exists []. rewrite Hm, app_nil_r. reflexivity. Qed.

Lemma keeps_grow_appendMessage waId r content msgId :
  keeps messages_grow (SheetsService.appendMessage waId r content msgId).
Proof.
  intros w. destruct (appendMessage_messages waId r content msgId w) as (_ & [H | H]).
  - exists []. rewrite H, app_nil_r. reflexivity.
  - eexists. exact H.
Qed.

Lemma call_messages_grow c w : messages_grow w (call c w).
Proof.
  destruct c as [msgId | u r content msgId | u limit | key | key value | | v
                | number message msgId | to message | fs]; cbn [call].
  - apply store_kept_messages_grow, keeps_store_hasMessage.
  - apply keeps_grow_appendMessage.
  - apply store_kept_messages_grow, keeps_store_getRecentConversation.
  - apply store_kept_messages_grow, keeps_store_getSetting.
  - destruct (setSetting_effect key value w) as (_ & _ & Hm & _).
    exists []. rewrite Hm, app_nil_r. reflexivity.
  - apply store_kept_messages_grow, keeps_store_getAllSettings.
  - rewrite resetConversation_unfold.
    destruct (setSetting_effect ("reset:" ++ v) (clock (env w) (ticks w))
                (set_ticks (S (ticks w)) w)) as (_ & _ & Hm & _).
    exists []. rewrite Hm, app_nil_r. reflexivity.
  - apply (keeps_handle messages_grow);
      [ apply messages_grow_refl | apply messages_grow_trans
      | apply store_kept_messages_grow | apply keeps_grow_appendMessage
      | intros; apply keeps_grow_appendMessage ].
  - apply store_kept_messages_grow, keeps_store_sendMessage.
  - exists []. cbn. rewrite app_nil_r. reflexivity.
Qed.

(** X6. The stored turns are append-only: whatever calls are made on the
    store, the pipeline and the sender, and however their Sheets calls
    end, the message rows afterwards are the rows before, in the same
    order and unchanged, followed by the rows added. *)
Theorem stored_turns_are_append_only :
  forall (cs : list StoreCall) (w : World),
  exists more, messages (calls cs w) = (messages w ++ more)%list.
Proof.
  induction cs as [| c cs IH]; intros w; [ apply messages_grow_refl | ].
  cbn. exact (messages_grow_trans _ _ _ (call_messages_grow c w) (IH (call c w))).
Qed.

(** X7. The settings change only through [setSetting] and
    [resetConversation]: any sequence of the other calls, the pipeline
    included, leaves the settings rows as they are, however the Sheets
    calls end. *)
Theorem settings_change_only_by_setSetting :
  forall (cs : list StoreCall) (w : World),
    Forall writes_no_setting cs ->
    settings (calls cs w) = settings w.
Proof.
  intros cs w Hcs. revert w.
  induction Hcs as [| c cs Hc Hcs IH]; intros w; [ reflexivity | ].
  cbn. rewrite IH.
  destruct c as [msgId | u r content msgId | u limit | key | key value | | v
                | number message msgId | to message | fs]; cbn [call]; try contradiction.
  - apply keeps_settings_hasMessage.
  - apply keeps_settings_appendMessage.
  - apply keeps_settings_getRecentConversation.
  - apply keeps_settings_getSetting.
  - apply keeps_settings_getAllSettings.
  - apply keeps_settings_handle.
  - apply keeps_settings_sendMessage.
  - reflexivity.
Qed.

Lemma settings_change_only_by_setSetting_witness :
  settings (calls [CallHandleUserMessage "55501" "Hi" (Some "wamid.1");
                   CallGetRecentConversation "55501" 12]
              (demo_world [] [] [["biz:hours"; "9to5"]]))
  = settings (demo_world [] [] [["biz:hours"; "9to5"]]).
Proof.
  apply settings_change_only_by_setSetting. repeat constructor.
Defined.

Lemma ids_kept_refl w : ids_kept w w.
Proof. intros H. exact H. Qed.

Lemma ids_kept_trans w1 w2 w3 : ids_kept w1 w2 -> ids_kept w2 w3 -> ids_kept w1 w3.
Proof. unfold ids_kept. auto. Qed.

Lemma keeps_ids_appendMessage waId r content msgId :
  r = user \/ Js.or_else msgId "" = "" ->
  keeps ids_kept (SheetsService.appendMessage waId r content msgId).
Proof.
  intros Hok w Hids.
  destruct (appendMessage_messages waId r content msgId w) as (_ & [-> | ->]); [ exact Hids | ].
  intros row Hin Hid. apply in_app_or in Hin as [Hin | [<- | []]]; [ apply Hids; assumption | ].
  destruct Hok as [-> | Hempty]; [ reflexivity | ].
  exfalso. apply Hid. unfold row_id. cbn [Js.cell nth_error].
  rewrite Hempty. reflexivity.
Qed.

(** X8. The pipeline keeps the rule that only [user] turns carry a
    message id: if it holds of the stored rows before
    [handleUserMessage], it holds after, however the calls end. *)
Theorem handle_keeps_ids_on_user_turns :
  forall (number message : string) (msgId : option string) (w : World),
    ids_on_user_turns (messages w) ->
    ids_on_user_turns (messages (snd (handle number message msgId w))).
Proof.
  intros number message msgId w.
  apply (keeps_handle ids_kept number message msgId).
  - apply ids_kept_refl.
  - apply ids_kept_trans.
  - intros w1 w2 (_ & _ & Hm & _) H. rewrite Hm. exact H.
  - apply keeps_ids_appendMessage. left. reflexivity.
  - intros reply. apply keeps_ids_appendMessage. right. reflexivity.
Qed.

Lemma handle_keeps_ids_on_user_turns_witness :
  ids_on_user_turns
    (messages (snd (handle "55501" "Hi" (Some "wamid.1") (demo_world [] [] [])))).
Proof.
  apply handle_keeps_ids_on_user_turns. intros r [].
Defined.

(** *** ensureHeaders and the tabs *)

Lemma set_tabs_same w : set_tabs (tabs w) w = w.
Proof. destruct w; reflexivity. Qed.

Lemma ensureSheetExists_quiet title w :
  sheets_ready w = true ->
  faults w = [] ->
  SheetsService.ensureSheetExists title w
  = (Ok tt, if existsb (fun t => (t =? title)%string) (tabs w) then w
            else set_tabs (tabs w ++ [title]) w).
Proof.
  intros Hr Hf. unfold SheetsService.ensureSheetExists.
  rewrite (bind_ok _ _ _ _ _ (getClient_ready w Hr)). cbn [negb].
  unfold try_catch, bind, SheetsService.spreadsheets_get, SheetsService.batchUpdate_addSheet.
  rewrite (remote_ok _ w) by (rewrite Hf; reflexivity).
  fold (answered w). rewrite (answered_quiet w Hf). cbn [gets].
  destruct (existsb (fun t => (t =? title)%string) (tabs w)); cbn [negb]; [ reflexivity | ].
  rewrite (remote_ok _ w) by (rewrite Hf; reflexivity).
  fold (answered w). rewrite (answered_quiet w Hf). reflexivity.
Qed.

Lemma update_headers_quiet w :
  faults w = [] -> SheetsService.update_headers w = (Ok tt, w).
Proof.
  intros Hf. unfold SheetsService.update_headers, SheetsService.values_update_header, remote, ret.
  destruct w. cbn in Hf. subst. reflexivity.
Qed.

(** One tab made sure of, when nothing fails: the tab is there after,
    no tab is lost, no tab is added when the tab was there, and the rows
    are as they were. *)
Lemma ensureSheetExists_tabs title w :
  sheets_ready w = true ->
  faults w = [] ->
  exists w',
    SheetsService.ensureSheetExists title w = (Ok tt, w')
    /\ sheets_ready w' = true /\ faults w' = []
    /\ In title (tabs w')
    /\ tabs_grow w w'
    /\ (In title (tabs w) -> tabs w' = tabs w)
    /\ messages w' = messages w /\ settings w' = settings w /\ log w' = log w.
Proof.
  intros Hr Hf. rewrite (ensureSheetExists_quiet title w Hr Hf).
  destruct (existsb (fun t => (t =? title)%string) (tabs w)) eqn:E.
  - exists w. apply existsb_tab in E. repeat split; auto. intros t Ht. exact Ht.
  - eexists. split; [ reflexivity | ]. split; [ exact Hr | ]. split; [ exact Hf | ].
    split; [ cbn; apply in_or_app; right; left; reflexivity | ].
    split; [ intros t Ht; cbn; apply in_or_app; left; exact Ht | ].
    split; [ | repeat split ].
    intros Hin. apply existsb_tab in Hin. congruence.
Qed.

(** X9. On a configured store, when no Sheets call fails,
    [ensureHeaders] leaves the spreadsheet with the three tabs
    [settings], [messages] and [facts], loses no tab that was there,
    adds no tab when the three were there already, and leaves the data
    rows of the messages and of the settings, and the log, as they
    were. *)
Theorem ensureHeaders_makes_the_tabs :
  forall w : World,
    sheets_ready w = true ->
    faults w = [] ->
    exists w',
      SheetsService.ensureHeaders w = (Ok tt, w')
      /\ (forall t, In t all_tabs -> In t (tabs w'))
      /\ (forall t, In t (tabs w) -> In t (tabs w'))
      /\ ((forall t, In t all_tabs -> In t (tabs w)) -> tabs w' = tabs w)
      /\ messages w' = messages w /\ settings w' = settings w /\ log w' = log w.
Proof.
  intros w Hr Hf. unfold SheetsService.ensureHeaders.
  rewrite (bind_ok _ _ _ _ _ (getClient_ready w Hr)). cbn [negb].
  destruct (ensureSheetExists_tabs "settings" w Hr Hf)
    as (w1 & H1 & Hr1 & Hf1 & Hin1 & Hg1 & Hsame1 & Hm1 & Hs1 & Hl1).
  rewrite (bind_ok _ _ _ _ _ H1).
  destruct (ensureSheetExists_tabs "messages" w1 Hr1 Hf1)
    as (w2 & H2 & Hr2 & Hf2 & Hin2 & Hg2 & Hsame2 & Hm2 & Hs2 & Hl2).
  rewrite (bind_ok _ _ _ _ _ H2).
  destruct (ensureSheetExists_tabs "facts" w2 Hr2 Hf2)
    as (w3 & H3 & Hr3 & Hf3 & Hin3 & Hg3 & Hsame3 & Hm3 & Hs3 & Hl3).
  rewrite (bind_ok _ _ _ _ _ H3).
  rewrite (try_ok _ _ _ _ _ (update_headers_quiet w3 Hf3)).
  exists w3. split; [ reflexivity | ]. split; [ | split; [ | split ] ].
  - intros t [<- | [<- | [<- | []]]]; auto.
  - intros t Ht. auto.
  - intros Hall.
    assert (E1 : tabs w1 = tabs w) by (apply Hsame1, Hall; left; reflexivity).
    assert (E2 : tabs w2 = tabs w1).
    { apply Hsame2. rewrite E1. apply Hall. right. left. reflexivity. }
    assert (E3 : tabs w3 = tabs w2).
    { apply Hsame3. rewrite E2, E1. apply Hall. right. right. left. reflexivity. }
    congruence.
  - repeat split; congruence.
Qed.

Lemma ensureHeaders_makes_the_tabs_witness :
  exists w',
    SheetsService.ensureHeaders (mkWorld demo_env 0 [] ["Sheet1"; "messages"] [] [] [] [] [])
    = (Ok tt, w')
    /\ (forall t, In t all_tabs -> In t (tabs w'))
    /\ In "Sheet1" (tabs w').
Proof.
  destruct (ensureHeaders_makes_the_tabs
              (mkWorld demo_env 0 [] ["Sheet1"; "messages"] [] [] [] [] [])
              eq_refl eq_refl) as (w' & Hrun & Hall & Hkept & _).
  exists w'. split; [ exact Hrun | ]. split; [ exact Hall | ].
  apply Hkept. left. reflexivity.
Defined.

(** *** The store that is not configured *)

Lemma untouched_with_log lines w : untouched w (with_log lines w).
Proof. repeat split. Qed.

Ltac not_ready_case d Hr :=
  match goal with
  | |- context [bind SheetsService.getClient (fun sheets => if negb sheets then ret d else ?k) ?w] =>
      let lines := fresh "lines" in
      destruct (not_ready_returns d k w Hr) as (lines & ->)
  end.

(** X10. When the store is not configured (no spreadsheet id, no
    credentials, or a client that cannot be built), every method returns
    its default at once: no Sheets call is made, no row and no tab
    changes, nothing is sent; only log lines are written. *)
Theorem unconfigured_store_does_nothing :
  forall w : World,
    sheets_ready w = false ->
    (forall msgId, exists w',
        SheetsService.hasMessage msgId w = (Ok false, w') /\ untouched w w')
    /\ (forall waId r content msgId, exists w',
          SheetsService.appendMessage waId r content msgId w = (Ok tt, w')
          /\ untouched w w')
    /\ (forall waId limit, exists w',
          SheetsService.getRecentConversation waId limit w = (Ok [], w')
          /\ untouched w w')
    /\ (forall key, exists w',
          SheetsService.getSetting key w = (Ok None, w') /\ untouched w w')
    /\ (forall key value, exists w',
          SheetsService.setSetting key value w = (Ok tt, w') /\ untouched w w')
    /\ (exists w', SheetsService.getAllSettings w = (Ok [], w') /\ untouched w w')
    /\ (forall waId, exists w',
          SheetsService.resetConversation waId w = (Ok tt, w') /\ untouched w w')
    /\ (exists w', SheetsService.ensureHeaders w = (Ok tt, w') /\ untouched w w').
Proof.
  intros w Hr.
  split; [ | split; [ | split; [ | split; [ | split; [ | split; [ | split ] ] ] ] ] ].
  - intros msgId. unfold SheetsService.hasMessage.
    destruct (Js.truthy msgId); cbn [negb].
    + not_ready_case false Hr. eexists. split; [ reflexivity | apply untouched_with_log ].
    + exists w. split; [ reflexivity | repeat split ].
  - intros waId r content msgId. unfold SheetsService.appendMessage.
    not_ready_case tt Hr. eexists. split; [ reflexivity | apply untouched_with_log ].
  - intros waId limit. unfold SheetsService.getRecentConversation.
    not_ready_case (@nil ChatMessage) Hr.
    eexists. split; [ reflexivity | apply untouched_with_log ].
  - intros key. unfold SheetsService.getSetting.
    not_ready_case (@None string) Hr.
    eexists. split; [ reflexivity | apply untouched_with_log ].
  - intros key value. unfold SheetsService.setSetting.
    not_ready_case tt Hr. eexists. split; [ reflexivity | apply untouched_with_log ].
  - unfold SheetsService.getAllSettings.
    not_ready_case (@nil (string * string)) Hr.
    eexists. split; [ reflexivity | apply untouched_with_log ].
  - intros waId. rewrite resetConversation_unfold. unfold SheetsService.setSetting.
    assert (Hr' : sheets_ready (set_ticks (S (ticks w)) w) = false) by exact Hr.
    not_ready_case tt Hr'. eexists. split; [ reflexivity | repeat split ].
  - unfold SheetsService.ensureHeaders.
    not_ready_case tt Hr. eexists. split; [ reflexivity | apply untouched_with_log ].
Qed.

Lemma unconfigured_store_does_nothing_witness :
  exists w',
    SheetsService.getRecentConversation "55501" 12
      (mkWorld (mkEnv None None None NoSpreadsheetId iso_Date_parse demo_clock
                      (fun _ _ => Rejected boom) (fun _ _ => Failed boom))
               0 [] [] [["2024-05-01T09:00:00.000Z"; "55501"; "user"; "Hi"; "wamid.1"]] []
               [] [] [])
    = (Ok [], w').
Proof.
  destruct (proj1 (proj2 (proj2 (unconfigured_store_does_nothing
              (mkWorld (mkEnv None None None NoSpreadsheetId iso_Date_parse demo_clock
                              (fun _ _ => Rejected boom) (fun _ _ => Failed boom))
                       0 [] [] [["2024-05-01T09:00:00.000Z"; "55501"; "user"; "Hi"; "wamid.1"]] []
                       [] [] [])
              eq_refl))) "55501" 12) as (w' & H & _).
  exists w'. exact H.
Defined.

(** * The pipeline end to end *)

Lemma generateOpenAIResponse_run prompt history w :
  exists lines,
    OpenaiService.generateOpenAIResponse prompt history w
    = (Ok (reply_of (openai_api (env w) (length (completions w))
                       (OpenaiService.request_messages prompt history))),
       with_log lines
         (set_completions
            (completions w ++ [OpenaiService.request_messages prompt history]) w)).
Proof.
  unfold OpenaiService.generateOpenAIResponse, try_catch, bind,
    OpenaiService.chat_completions_create, OpenaiService.console_error, logger, modify,
    throw, ret, with_log.
  destruct (openai_api (env w) (length (completions w))
              (OpenaiService.request_messages prompt history)) as [e | [[| c cs] |]];
    cbn; try (eexists; reflexivity).
  exists []. cbn. rewrite app_nil_r. reflexivity.
Qed.

Lemma ready_env w w' : env w' = env w -> sheets_ready w' = sheets_ready w.
Proof. intros H. unfold sheets_ready. rewrite H. reflexivity. Qed.

Lemma configured_env w w' : env w' = env w -> whatsapp_configured w' = whatsapp_configured w.
Proof. intros H. unfold whatsapp_configured. rewrite H. reflexivity. Qed.

Lemma appendMessage_healthy waId r content msgId w :
  sheets_ready w = true ->
  faults w = [] ->
  exists w',
    SheetsService.appendMessage waId r content msgId w = (Ok tt, w')
    /\ healthy_after w w'
    /\ ticks w' = S (ticks w)
    /\ messages w'
       = (messages w
            ++ [[clock (env w) (ticks w); waId; role_name r; content; Js.or_else msgId ""]])%list.
Proof.
  intros Hr Hf.
  destruct (appendMessage_run waId r content msgId w Hr) as (w1 & H1 & K & ->).
  pose proof (ensureHeaders_quiet w w1 H1 Hf) as Hq.
  destruct K as ((He & Hq1 & Hq2) & Ht & Hm & Hs).
  cbn zeta. rewrite Hq. cbn [hd].
  eexists. split; [ reflexivity | ].
  unfold healthy_after. cbn. rewrite Hq. repeat split; auto.
Qed.

Lemma sendMessage_sent to text w :
  exists w',
    WhatsappService.sendMessage to text w = (Ok tt, w')
    /\ store_kept w w' /\ completions w' = completions w
    /\ sent_to w w' to text.
Proof.
  destruct (sendMessage_run to text w) as (lines & H). unfold sent_to.
  destruct (whatsapp_configured w && Js.truthy (Some (Js.remove_non_digits to))).
  - destruct H as (cfg & -> & Hto & Hbody).
    eexists. split; [ reflexivity | ]. split; [ repeat split | ].
    split; [ reflexivity | ]. exists cfg. auto.
  - destruct H as (t & _ & ->).
    eexists. split; [ reflexivity | ]. repeat split.
Qed.

Lemma sendMessage_faults to text w :
  faults (snd (WhatsappService.sendMessage to text w)) = faults w.
Proof.
  destruct (sendMessage_run to text w) as (lines & H).
  destruct (whatsapp_configured w && Js.truthy (Some (Js.remove_non_digits to))).
  - destruct H as (cfg & -> & _). reflexivity.
  - destruct H as (t & _ & ->). reflexivity.
Qed.

(** The pipeline on a healthy store, step by step. *)
Lemma handle_healthy_run :
  forall (number message : string) (msgId : option string) (w : World),
    sheets_ready w = true ->
    faults w = [] ->
    (Js.truthy msgId = true ->
     ~ exists r, In r (messages w) /\ row_id r = Js.or_else msgId "") ->
    let inbound :=
      [clock (env w) (ticks w); number; "user"; message; Js.or_else msgId ""] in
    let history :=
      map SheetsService.to_turn
          (Js.slice_from (- 12)
             (filter (SheetsService.in_window (Date_parse (env w)) number
                        (reset_time (Date_parse (env w))
                           (first_value ("reset:" ++ number) (settings w))))
                     (messages w ++ [inbound]))) in
    let request :=
      OpenaiService.request_messages
        (WhatsappService.build_prompt (collect_settings (settings w) []) message)
        (Some history) in
    let reply := reply_of (openai_api (env w) (length (completions w)) request) in
    exists w',
      handle number message msgId w = (Ok tt, w')
      /\ messages w'
         = (messages w
              ++ [inbound;
                  [clock (env w) (S (ticks w)); number; "assistant"; reply; ""]])%list
      /\ settings w' = settings w
      /\ completions w' = (completions w ++ [request])%list
      /\ sent_to w w' number reply
      /\ env w' = env w /\ faults w' = [].
Proof.
  intros number message msgId w Hr Hf Hnew inbound history request reply.
  unfold handle, WhatsappService.handleUserMessage.
  assert (Hdup : (if Js.truthy msgId then SheetsService.hasMessage msgId else ret false) w
                 = (Ok false, w)).
  { destruct (Js.truthy msgId) eqn:Ht; [ | reflexivity ].
    rewrite (hasMessage_run msgId w Ht Hr), Hf. cbn [hd].
    rewrite (answered_quiet w Hf). f_equal. f_equal.
    destruct (existsb _ (messages w)) eqn:Ex; [ | reflexivity ].
    apply existsb_row_id in Ex. exfalso. exact (Hnew eq_refl Ex). }
  destruct (appendMessage_healthy number user message msgId w Hr Hf)
    as (w1 & Happ1 & (He1 & Hf1 & Hs1 & Hq1 & Hc1) & Ht1 & Hm1).
  assert (Hr1 : sheets_ready w1 = true) by (rewrite (ready_env w w1 He1); exact Hr).
  assert (Hrecent : SheetsService.getRecentConversation number 12 w1 = (Ok history, w1)).
  { rewrite (getRecentConversation_run number 12 w1 Hr1). cbn zeta.
    rewrite (answered_quiet w1 Hf1), Hf1. cbn [hd].
    rewrite (answered_quiet w1 Hf1).
    unfold qualifying. rewrite He1, Hs1, Hm1. reflexivity. }
  assert (Hall : SheetsService.getAllSettings w1
                 = (Ok (collect_settings (settings w) []), w1)).
  { rewrite (getAllSettings_run w1 Hr1), Hf1. cbn [hd].
    rewrite (answered_quiet w1 Hf1), Hs1. reflexivity. }
  destruct (generateOpenAIResponse_run
              (WhatsappService.build_prompt (collect_settings (settings w) []) message)
              (Some history) w1) as (lines & Hgen).
  rewrite He1, Hc1 in Hgen. fold request in Hgen. fold reply in Hgen.
  set (w2 := with_log lines (set_completions (completions w ++ [request]) w1)) in Hgen.
  assert (Hr2 : sheets_ready w2 = true) by exact Hr1.
  assert (Hf2 : faults w2 = []) by exact Hf1.
  destruct (appendMessage_healthy number assistant reply None w2 Hr2 Hf2)
    as (w3 & Happ2 & (He3 & Hf3 & Hs3 & Hq3 & Hc3) & Ht3 & Hm3).
  destruct (sendMessage_sent number reply w3)
    as (w4 & Hsend & (He4 & _ & Hm4 & Hs4) & Hc4 & Hsent).
  assert (Hfaults4 : faults (snd (WhatsappService.sendMessage number reply w3)) = faults w4)
    by (rewrite Hsend; reflexivity).
  exists w4. split.
  - apply try_ok. unfold WhatsappService.handleUserMessage_try.
    cbn [sheets_hasMessage sheets_appendMessage sheets_getRecentConversation
           sheets_getAllSettings openai_generateOpenAIResponse sheetsService openaiService].
    rewrite (bind_ok _ _ _ _ _ Hdup). cbv iota.
    rewrite (bind_ok _ _ _ _ _ Happ1).
    rewrite (bind_ok _ _ _ _ _ Hrecent).
    rewrite (bind_ok _ _ _ _ _ Hall). cbv zeta.
    rewrite (bind_ok _ _ _ _ _ Hgen).
    rewrite (bind_ok _ _ _ _ _ Happ2).
    exact Hsend.
  - split.
    { rewrite Hm4, Hm3. change (messages w2) with (messages w1).
      change (env w2) with (env w1). change (ticks w2) with (ticks w1).
      rewrite Hm1, He1, Ht1, <- app_assoc. reflexivity. }
    split; [ rewrite Hs4, Hs3; exact Hs1 | ].
    split; [ rewrite Hc4, Hc3; reflexivity | ].
    unfold sent_to in *.
    rewrite (configured_env w w3) in Hsent by (rewrite He3; exact He1).
    change (requests w2) with (requests w1) in Hq3.
    rewrite Hq3, Hq1 in Hsent. split; [ exact Hsent | ].
    split; [ rewrite He4, He3; exact He1 | ].
    rewrite (sendMessage_faults number reply w3) in Hfaults4. congruence.
Qed.


Lemma slice_from_length {A : Type} (n : Z) (l : list A) :
  0 < n -> Z.of_nat (length (Js.slice_from (- n) l)) <= n.
Proof.
  intros Hn. unfold Js.slice_from.
  destruct (Z.ltb_spec (- n) 0) as [_ | H]; [ | lia ].
  rewrite length_skipn. lia.
Qed.

(** X11. The whole pipeline on a healthy store: the store is configured,
    no Sheets call fails, and the message is no duplicate (its id is
    empty or absent, or no stored row carries it).  Then
    [handleUserMessage] returns normally after it has added exactly two
    rows after the stored ones; asked the chat API once, with the system
    message, a window of at most twelve turns and, last, the prompt
    built from the settings; and handed the reply of the chat API to
    [sendMessage] for the user's number.  The settings are unchanged. *)
Theorem handle_on_a_healthy_store :
  forall (number message : string) (msgId : option string) (w : World),
    sheets_ready w = true ->
    faults w = [] ->
    (Js.truthy msgId = true ->
     ~ exists r, In r (messages w) /\ row_id r = Js.or_else msgId "") ->
    exists w' inbound outbound history,
      handle number message msgId w = (Ok tt, w')
      /\ messages w' = (messages w ++ [inbound; outbound])%list
      /\ settings w' = settings w
      /\ (length history <= 12)%nat
      /\ completions w'
         = (completions w
              ++ [[OpenaiService.system_message] ++ history
                    ++ [mkChat "user"
                          (WhatsappService.build_prompt
                             (collect_settings (settings w) []) message)]])%list
      /\ sent_to w w' number
           (reply_of
              (openai_api (env w) (length (completions w))
                 ([OpenaiService.system_message] ++ history
                    ++ [mkChat "user"
                          (WhatsappService.build_prompt
                             (collect_settings (settings w) []) message)])%list)).
Proof.
  intros number message msgId w Hr Hf Hnew.
  destruct (handle_healthy_run number message msgId w Hr Hf Hnew)
    as (w' & Hrun & Hm & Hs & Hc & Hsent & _).
  exists w'. eexists _, _, _.
  split; [ exact Hrun | ]. split; [ exact Hm | ]. split; [ exact Hs | ].
  split; [ | split; [ exact Hc | exact Hsent ] ].
  rewrite length_map.
  pose proof (slice_from_length 12
                (filter (SheetsService.in_window (Date_parse (env w)) number
                           (reset_time (Date_parse (env w))
                              (first_value ("reset:" ++ number) (settings w))))
                        (messages w
                           ++ [[clock (env w) (ticks w); number; "user"; message;
                                Js.or_else msgId ""]])) ltac:(lia)) as H.
  change (- (12)) with (- 12) in H. lia.
Qed.

Lemma handle_on_a_healthy_store_witness :
  exists w' inbound outbound,
    handle "55501" "What are your hours?" (Some "wamid.1")
      (demo_world [] [] [["biz:hours"; "9to5"]]) = (Ok tt, w')
    /\ messages w' = [inbound; outbound]
    /\ length (completions w') = 1%nat.
Proof.
  destruct (handle_on_a_healthy_store "55501" "What are your hours?" (Some "wamid.1")
              (demo_world [] [] [["biz:hours"; "9to5"]]) eq_refl eq_refl)
    as (w' & inbound & outbound & history & Hrun & Hm & _ & _ & Hc & _).
  - intros _ (r & [] & _).
  - exists w', inbound, outbound. split; [ exact Hrun | ]. split; [ exact Hm | ].
    rewrite Hc. reflexivity.
Defined.

Lemma hasMessage_not_ready msgId w :
  sheets_ready w = false ->
  exists lines, SheetsService.hasMessage msgId w = (Ok false, with_log lines w).
Proof.
  intros Hr. unfold SheetsService.hasMessage.
  destruct (Js.truthy msgId); cbn [negb].
  - not_ready_case false Hr. eexists. reflexivity.
  - exists []. unfold with_log. rewrite set_log_nil. reflexivity.
Qed.

Lemma appendMessage_not_ready waId r content msgId w :
  sheets_ready w = false ->
  exists lines,
    SheetsService.appendMessage waId r content msgId w = (Ok tt, with_log lines w).
Proof.
  intros Hr. unfold SheetsService.appendMessage.
  not_ready_case tt Hr. eexists. reflexivity.
Qed.

Lemma getRecentConversation_not_ready waId limit w :
  sheets_ready w = false ->
  exists lines,
    SheetsService.getRecentConversation waId limit w = (Ok [], with_log lines w).
Proof.
  intros Hr. unfold SheetsService.getRecentConversation.
  not_ready_case (@nil ChatMessage) Hr. eexists. reflexivity.
Qed.

Lemma getAllSettings_not_ready w :
  sheets_ready w = false ->
  exists lines, SheetsService.getAllSettings w = (Ok [], with_log lines w).
Proof.
  intros Hr. unfold SheetsService.getAllSettings.
  not_ready_case (@nil (string * string)) Hr. eexists. reflexivity.
Qed.

(** X12. The store is optional: when it is not configured,
    [handleUserMessage] still answers.  It returns normally, makes no
    Sheets call and writes no row, asks the chat API once with the
    system message and the raw message as prompt (no history, no
    business facts), and hands the reply to [sendMessage].  No inbound
    message is ever taken for a duplicate. *)
Theorem handle_without_a_store :
  forall (number message : string) (msgId : option string) (w : World),
    sheets_ready w = false ->
    let request := OpenaiService.request_messages message (Some []) in
    let reply := reply_of (openai_api (env w) (length (completions w)) request) in
    exists w',
      handle number message msgId w = (Ok tt, w')
      /\ faults w' = faults w
      /\ messages w' = messages w
      /\ settings w' = settings w
      /\ completions w' = (completions w ++ [request])%list
      /\ sent_to w w' number reply.
Proof.
  intros number message msgId w Hr request reply.
  assert (Hdup : exists l0,
             (if Js.truthy msgId then SheetsService.hasMessage msgId else ret false) w
             = (Ok false, with_log l0 w)).
  { destruct (Js.truthy msgId); [ apply hasMessage_not_ready; exact Hr | ].
    exists []. unfold with_log. rewrite set_log_nil. reflexivity. }
  destruct Hdup as (l0 & Hdup).
  set (w0 := with_log l0 w) in *.
  destruct (appendMessage_not_ready number user message msgId w0 Hr) as (l1 & Happ1).
  set (w1 := with_log l1 w0) in *.
  destruct (getRecentConversation_not_ready number 12 w1 Hr) as (l2 & Hrecent).
  set (w2 := with_log l2 w1) in *.
  destruct (getAllSettings_not_ready w2 Hr) as (l3 & Hall).
  set (w3 := with_log l3 w2) in *.
  destruct (generateOpenAIResponse_run (WhatsappService.build_prompt [] message)
              (Some []) w3) as (l4 & Hgen).
  change (WhatsappService.build_prompt [] message) with message in Hgen.
  change (env w3) with (env w) in Hgen. change (completions w3) with (completions w) in Hgen.
  fold request in Hgen. fold reply in Hgen.
  set (w4 := with_log l4 (set_completions (completions w ++ [request]) w3)) in *.
  destruct (appendMessage_not_ready number assistant reply None w4 Hr) as (l5 & Happ2).
  set (w5 := with_log l5 w4) in *.
  destruct (sendMessage_sent number reply w5)
    as (w6 & Hsend & (He6 & _ & Hm6 & Hs6) & Hc6 & Hsent).
  exists w6. split.
  - unfold handle, WhatsappService.handleUserMessage. apply try_ok.
    unfold WhatsappService.handleUserMessage_try.
    cbn [sheets_hasMessage sheets_appendMessage sheets_getRecentConversation
           sheets_getAllSettings openai_generateOpenAIResponse sheetsService openaiService].
    rewrite (bind_ok _ _ _ _ _ Hdup). cbv iota.
    rewrite (bind_ok _ _ _ _ _ Happ1).
    rewrite (bind_ok _ _ _ _ _ Hrecent).
    rewrite (bind_ok _ _ _ _ _ Hall). cbv zeta.
    change (WhatsappService.build_prompt [] message) with message.
    rewrite (bind_ok _ _ _ _ _ Hgen).
    rewrite (bind_ok _ _ _ _ _ Happ2).
    exact Hsend.
  - destruct (sendMessage_run number reply w5) as (lines & Hrun).
    assert (Hfaults : faults w6 = faults w).
    { change (whatsapp_configured w5) with (whatsapp_configured w) in Hrun.
      destruct (whatsapp_configured w && Js.truthy (Some (Js.remove_non_digits number))).
      - destruct Hrun as (cfg & Hrun & _). rewrite Hsend in Hrun.
        injection Hrun as ->. reflexivity.
      - destruct Hrun as (t & _ & Hrun). rewrite Hsend in Hrun.
        injection Hrun as ->. reflexivity. }
    split; [ exact Hfaults | ]. split; [ rewrite Hm6; reflexivity | ].
    split; [ rewrite Hs6; reflexivity | ]. split; [ rewrite Hc6; reflexivity | ].
    exact Hsent.
Qed.

Lemma handle_without_a_store_witness :
  exists w',
    handle "55501" "Hi" (Some "wamid.1")
      (mkWorld (mkEnv (Some "EAAG-token") (Some "v21.0") (Some "123456789012345")
                      NoSpreadsheetId iso_Date_parse demo_clock
                      (fun _ _ => Resolved (Some [mkChoice (Some (Some "Hello!"))]))
                      (fun _ _ => Status 200))
               0 [] [] [] [] [] [] [])
    = (Ok tt, w')
    /\ completions w' = [[OpenaiService.system_message; mkChat "user" "Hi"]].
Proof.
  destruct (handle_without_a_store "55501" "Hi" (Some "wamid.1")
              (mkWorld (mkEnv (Some "EAAG-token") (Some "v21.0") (Some "123456789012345")
                              NoSpreadsheetId iso_Date_parse demo_clock
                              (fun _ _ => Resolved (Some [mkChoice (Some (Some "Hello!"))]))
                              (fun _ _ => Status 200))
                       0 [] [] [] [] [] [] [])
              eq_refl) as (w' & Hrun & _ & _ & _ & Hc & _).
  exists w'. split; [ exact Hrun | ]. rewrite Hc. reflexivity.
Defined.

(** * Reset, seen by the next read *)

Lemma filter_nil_all {A : Type} (p : A -> bool) (l : list A) :
  (forall x, In x l -> p x = false) -> filter p l = [].
Proof.
  induction l as [| x l IH]; intros H; cbn; [ reflexivity | ].
  rewrite (H x (or_introl eq_refl)). apply IH. intros y Hy. apply H. right. exact Hy.
Qed.

Lemma slice_from_nil {A : Type} (k : Z) : Js.slice_from k (@nil A) = [].
Proof. unfold Js.slice_from. apply skipn_nil. Qed.

(** X13. A reset empties the window: on a configured store where no
    Sheets call fails, when every stored row is from the reading [T] of
    the clock or before (or has no readable instant) and [T] lies after
    the epoch, the call of [getRecentConversation] that follows
    [resetConversation] for the same user returns no turn, for every
    limit. *)
Theorem reset_empties_the_window :
  forall (waId : string) (T limit : Z) (w : World),
    sheets_ready w = true ->
    faults w = [] ->
    Date_parse (env w) "" = None ->
    Date_parse (env w) (clock (env w) (ticks w)) = Some T ->
    0 < T ->
    all_until T w ->
    fst (SheetsService.getRecentConversation waId limit
           (snd (SheetsService.resetConversation waId w)))
    = Ok [].
Proof.
  intros waId T limit w Hr Hf Hempty HT Hpos Hall.
  rewrite resetConversation_unfold.
  set (wt := set_ticks (S (ticks w)) w).
  set (now := clock (env w) (ticks w)) in *.
  destruct (setSetting_effect ("reset:" ++ waId) now wt) as (He & _ & Hm & _).
  destruct (setSetting_through ("reset:" ++ waId) now wt Hr Hf) as (Hs & Hf').
  set (w' := snd (SheetsService.setSetting ("reset:" ++ waId) now wt)) in *.
  change (env wt) with (env w) in He. change (messages wt) with (messages w) in Hm.
  change (settings wt) with (settings w) in Hs.
  assert (Hr' : sheets_ready w' = true) by (rewrite (ready_env w w' He); exact Hr).
  rewrite (getRecentConversation_run waId limit w' Hr'). cbn zeta.
  rewrite (answered_quiet w' Hf'), Hf'. cbn [hd fst].
  assert (Hq : qualifying w' waId = []).
  { unfold qualifying. rewrite Hs, first_value_upsert_same, He, Hm.
    assert (Hne : now <> "").
    { intros E. rewrite E, Hempty in HT. discriminate. }
    assert (Hcut : reset_time (Date_parse (env w)) (Some now) = Some T).
    { unfold reset_time. rewrite (proj2 (truthy_some now) Hne).
      cbn. destruct (String.eqb_spec now ""); [ contradiction | exact HT ]. }
    rewrite Hcut. apply filter_nil_all. intros r Hin.
    unfold SheetsService.in_window.
    assert (Hnz : Js.not_number (Some T) = false) by (cbn; apply Z.eqb_neq; lia).
    rewrite Hnz. cbn [orb].
    specialize (Hall r Hin). unfold timestamp in Hall.
    destruct (match Js.cell r 0 with
              | Some c => Date_parse (env w) c
              | None => None
              end) as [t |]; cbn.
    - replace (T <? t) with false by (symmetry; apply Z.ltb_ge; exact Hall).
      apply andb_false_r.
    - apply andb_false_r. }
  rewrite Hq, slice_from_nil. reflexivity.
Qed.

Lemma reset_empties_the_window_witness :
  fst (SheetsService.getRecentConversation "55501" 12
         (snd (SheetsService.resetConversation "55501"
                 (demo_world []
                    [["2024-05-01T09:00:00.000Z"; "55501"; "user"; "Hi"; "wamid.1"];
                     ["2024-05-01T09:00:05.000Z"; "55501"; "assistant"; "Hello!"; ""]] []))))
  = Ok [].
Proof.
  apply (reset_empties_the_window "55501" 1714557600000 12
           (demo_world []
              [["2024-05-01T09:00:00.000Z"; "55501"; "user"; "Hi"; "wamid.1"];
               ["2024-05-01T09:00:05.000Z"; "55501"; "assistant"; "Hello!"; ""]] [])).
  - reflexivity.
  - reflexivity.
  - reflexivity.
  - vm_compute. reflexivity.
  - lia.
  - intros r [<- | [<- | []]]; vm_compute; discriminate.
Defined.

(** * The controller *)

(** X14. The verification handshake gives the challenge back, with
    status 200, exactly when the mode is [subscribe] and the token is
    the configured key (trimmed); with a mode and a token that do not
    pass it answers 403; and with the mode or the token missing or empty
    it sends no response at all.  It never throws and changes nothing
    but the log. *)
Theorem challenge_needs_the_key :
  forall (verify_key : option string) (q : Query) (w : World),
  exists (r : option Response) (lines : list LogLine),
    WhatsappController.challengeWebhook verify_key q w = (Ok r, with_log lines w)
    /\ (r = Some (StatusSend 200 (hub_challenge q)) <->
        hub_mode q = Some "subscribe"
        /\ Js.truthy (hub_verify_token q) = true
        /\ hub_verify_token q = option_map Js.trim verify_key)
    /\ (r = None <->
        Js.truthy (hub_mode q) = false \/ Js.truthy (hub_verify_token q) = false)
    /\ (r = Some (StatusSend 200 (hub_challenge q)) \/ r = Some (SendStatus 403) \/ r = None).
Proof.
  intros verify_key [mode token challenge] w.
  unfold WhatsappController.challengeWebhook. cbn [hub_mode hub_verify_token hub_challenge].
  destruct (Js.truthy mode) eqn:Hm; cbn [andb].
  2:{ exists None, []. unfold with_log. rewrite set_log_nil.
      split; [ reflexivity | ]. split; [ | split; [ | auto ] ].
      - split; [ discriminate | ]. intros (-> & _). discriminate.
      - split; auto. }
  destruct (Js.truthy token) eqn:Ht.
  2:{ exists None, []. unfold with_log. rewrite set_log_nil.
      split; [ reflexivity | ]. split; [ | split; [ | auto ] ].
      - split; [ discriminate | ]. intros (_ & H & _). discriminate.
      - split; auto. }
  destruct mode as [m |]; [ | discriminate ].
  destruct token as [t |]; [ | discriminate ].
  destruct (String.eqb_spec m "subscribe") as [-> | Hne]; cbn [andb].
  - destruct (option_map Js.trim verify_key) as [v |] eqn:Hv.
    + destruct (String.eqb_spec t v) as [-> | Hne].
      * eexists _, _. split; [ reflexivity | ]. split; [ | split; [ | auto ] ].
        -- split; auto.
        -- split; [ discriminate | intros [H | H]; discriminate ].
      * exists (Some (SendStatus 403)), []. unfold with_log. rewrite set_log_nil.
        split; [ reflexivity | ]. split; [ | split; [ | auto ] ].
        -- split; [ discriminate | ]. intros (_ & _ & H). congruence.
        -- split; [ discriminate | intros [H | H]; discriminate ].
    + exists (Some (SendStatus 403)), []. unfold with_log. rewrite set_log_nil.
      split; [ reflexivity | ]. split; [ | split; [ | auto ] ].
      * split; [ discriminate | ]. intros (_ & _ & H). discriminate.
      * split; [ discriminate | intros [H | H]; discriminate ].
  - exists (Some (SendStatus 403)), []. unfold with_log. rewrite set_log_nil.
    split; [ reflexivity | ]. split; [ | split; [ | auto ] ].
    + split; [ discriminate | ]. intros (H & _). congruence.
    + split; [ discriminate | intros [H | H]; discriminate ].
Qed.

Lemma trim_all_spaces s : all_spaces s = true -> Js.trim s = "".
Proof.
  intros H. unfold Js.trim.
  replace (Js.trim_start s) with EmptyString; [ reflexivity | ].
  unfold Js.trim_start. symmetry.
  induction s as [| c s IH]; [ reflexivity | ].
  cbn [all_spaces] in H. apply andb_true_iff in H as [Hc Hs].
  cbn [Js.strip Js.space_width]. rewrite Hc. exact (IH Hs).
Qed.

Lemma truthy_trim x : Js.truthy (option_map Js.trim x) = true -> Js.truthy x = true.
Proof.
  destruct x as [s |]; cbn; [ | discriminate ].
  destruct (String.eqb_spec s "") as [-> | _]; [ | reflexivity ].
  cbn. discriminate.
Qed.

(** X15. [health] and [sendMessage] on the same variables: whenever
    [sendMessage] has what it needs to send, [health] reports the three
    WhatsApp variables as present; the converse fails for a variable
    that is set to white space only, which [health] reports as present
    while [sendMessage] takes it for missing and sends nothing. *)
Theorem health_reports_what_sendMessage_needs :
  forall (e : HealthEnv) (w : World),
  exists h : Health,
    WhatsappController.health e w = (Ok h, w)
    /\ (whatsapp_configured w = true ->
        hasApiKey h = true /\ hasVersion h = true /\ hasPhoneId h = true)
    /\ (forall s to text,
          WHATSAPP_API_KEY (env w) = Some s -> s <> "" -> all_spaces s = true ->
          hasApiKey h = true
          /\ requests (snd (WhatsappService.sendMessage to text w)) = requests w).
Proof.
  intros e w. eexists. split; [ reflexivity | ].
  cbn [hasApiKey hasVersion hasPhoneId]. split.
  - unfold whatsapp_configured. intros H.
    apply andb_true_iff in H as [H H3]. apply andb_true_iff in H as [H1 H2].
    auto using truthy_trim.
  - intros s to text Hkey Hne Hsp. rewrite Hkey. split.
    + apply truthy_some. exact Hne.
    + destruct (sendMessage_run to text w) as (lines & H).
      assert (Hc : whatsapp_configured w = false).
      { unfold whatsapp_configured. rewrite Hkey. cbn [option_map].
        rewrite (trim_all_spaces s Hsp). reflexivity. }
      rewrite Hc in H. cbn [andb] in H. destruct H as (t & _ & ->). reflexivity.
Qed.

Lemma health_reports_what_sendMessage_needs_witness :
  exists h,
    WhatsappController.health (mkHealthEnv None None None None) (demo_world [] [] [])
    = (Ok h, demo_world [] [] [])
    /\ hasApiKey h = true /\ hasVersion h = true /\ hasPhoneId h = true.
Proof.
  destruct (health_reports_what_sendMessage_needs (mkHealthEnv None None None None)
              (demo_world [] [] [])) as (h & Hrun & Hflags & _).
  exists h. split; [ exact Hrun | apply Hflags; reflexivity ].
Defined.

(** *** sendMessage on a recipient that nothing has checked *)

Lemma sendMessage_unchecked_other shown text w :
  sendMessage_unchecked (JsOther true shown) text w
  = if whatsapp_configured w
    then (Throw (TypeError "(to || '').replace is not a function"), w)
    else (Ok tt, with_log [mkLog WARN "Missing WhatsApp API env vars. Skipping send." None] w).
Proof.
  unfold sendMessage_unchecked, WhatsappService.env_trim, whatsapp_configured.
  rewrite !bind_gets.
  destruct (Js.truthy (option_map Js.trim (WHATSAPP_API_KEY (env w))));
    destruct (Js.truthy (option_map Js.trim (WHATSAPP_API_VERSION (env w))));
    destruct (Js.truthy (option_map Js.trim (WHATSAPP_PHONE_NUMBER_ID (env w))));
    reflexivity.
Qed.


(** X16. [sendTest] answers 400 and sends nothing when the body has no
    recipient (none, an empty one, or any falsy value).  With a
    recipient that is a non-empty string it answers [{ ok: true }],
    whatever became of the delivery, after one call of [sendMessage]
    with the text of the body, or the greeting when the body has no
    text.  With a truthy recipient that is not a string (a number of
    the JSON body, say) it answers nothing when the three variables are
    set: [sendMessage] throws and the handler rejects; without the
    variables it answers [{ ok: true }] and sends nothing. *)
Theorem sendTest_answers :
  forall (body : option SendTestBody) (w : World),
    let to := match body with Some b => body_to b | None => JsOther false "undefined" end in
    let text := Js.or_else (match body with Some b => body_text b | None => None end)
                           "Hello! How can I assist you today?" in
    (value_truthy to = false ->
     WhatsappController.sendTest body w
     = (Ok (StatusJsonError 400 "Missing to (phone number with country code)"), w))
    /\ (forall s, to = JsString s -> s <> "" ->
        exists w',
          WhatsappController.sendTest body w = (Ok JsonOk, w')
          /\ store_kept w w' /\ completions w' = completions w
          /\ sent_to w w' s text)
    /\ (forall shown, to = JsOther true shown ->
        if whatsapp_configured w then
          exists e, WhatsappController.sendTest body w = (Throw e, w)
        else
          exists w',
            WhatsappController.sendTest body w = (Ok JsonOk, w')
            /\ untouched w w').
Proof.
  intros body w to text. unfold WhatsappController.sendTest.
  fold to. fold text. split; [ | split ].
  - intros Ht. rewrite Ht. reflexivity.
  - intros s Hto Hs. rewrite Hto. cbn [value_truthy].
    rewrite (proj2 (truthy_some s) Hs). cbn [negb sendMessage_unchecked].
    destruct (sendMessage_sent s text w) as (w' & Hsend & Hk & Hc & Hsent).
    exists w'. rewrite (bind_ok _ _ _ _ _ Hsend). auto.
  - intros shown Hto. rewrite Hto. cbn [value_truthy negb].
    destruct (whatsapp_configured w) eqn:E.
    + eexists. unfold bind. rewrite sendMessage_unchecked_other, E. reflexivity.
    + eexists. split; [ | apply untouched_with_log ].
      unfold bind. rewrite sendMessage_unchecked_other, E. reflexivity.
Qed.

(** A run of X16: a recipient with a sign and spaces, no text. *)
Lemma sendTest_answers_witness :
  exists w' cfg,
    WhatsappController.sendTest (Some (mkSendTest (JsString "+1 (555) 0100") None))
      (demo_world [] [] [])
    = (Ok JsonOk, w')
    /\ requests w' = [cfg]
    /\ data_to cfg = "15550100"
    /\ data_body cfg = "Hello! How can I assist you today?".
Proof.
  destruct (proj1 (proj2 (sendTest_answers
                            (Some (mkSendTest (JsString "+1 (555) 0100") None))
                            (demo_world [] [] [])))
              "+1 (555) 0100" eq_refl ltac:(discriminate))
    as (w' & Hrun & _ & _ & Hsent).
  unfold sent_to in Hsent.
  change (whatsapp_configured (demo_world [] [] [])
          && Js.truthy (Some (Js.remove_non_digits "+1 (555) 0100"))) with true in Hsent.
  cbv iota in Hsent. destruct Hsent as (cfg & Hreq & Hto & Hbody).
  exists w', cfg. split; [ exact Hrun | ]. split; [ exact Hreq | ].
  split; [ exact Hto | exact Hbody ].
Defined.

(** ** handleWebhook *)


Lemma first_some {A : Type} (l : option (list A)) (x : A) :
  WhatsappController.first l = Some x -> exists rest, l = Some (x :: rest).
Proof.
  destruct l as [[| y rest] |]; cbn; try discriminate.
  intros H. injection H as ->. exists rest. reflexivity.
Qed.

Section WebhookRuns.

Variable f : JsValue -> string -> option string -> M unit.


Lemma handleWebhook_try_not_found body w :
  first_contact body = None \/ first_message body = None ->
  exists t, WhatsappController.handleWebhook_try f body w
            = (Ok (SendStatus 200), with_log [mkLog WARN t None] w).
Proof.
  unfold first_contact, first_message, WhatsappController.handleWebhook_try.
  destruct body as [[[[| [[[| [[v |]] changes] |]] entries] |]] |];
    cbn [body_entry entry_changes WhatsappController.first change_value];
    try (intros _; eexists; reflexivity).
  fold (WhatsappController.first (value_contacts v)).
  fold (WhatsappController.first (value_messages v)).
  destruct (WhatsappController.first (value_contacts v)),
           (WhatsappController.first (value_messages v));
    intros [H | H]; try discriminate; eexists; reflexivity.
Qed.


End WebhookRuns.



(** X18. A payload without an entry, or whose first change of the first
    entry has no contact or no message, is acknowledged and dropped:
    the answer is 200 and one warning is logged; no Sheets call, no row,
    no completion and no request is made. *)
Theorem handleWebhook_drops_payload_without_message :
  forall (f : JsValue -> string -> option string -> M unit)
         (body : option WebhookBody) (w : World),
    first_contact body = None \/ first_message body = None ->
    exists t,
      WhatsappController.handleWebhook f body w
      = (Ok (SendStatus 200), with_log [mkLog WARN t None] w).
Proof.
  intros f body w H. destruct (handleWebhook_try_not_found f body w H) as (t & Ht).
  exists t. unfold WhatsappController.handleWebhook. apply try_ok. exact Ht.
Qed.

Lemma handleWebhook_drops_payload_without_message_witness :
  exists t,
    WhatsappController.handleWebhook pipeline_for_strings
      (Some (mkBody (Some [mkEntry (Some [mkChange (Some (mkValue None None))])])))
      (demo_world [] [] [])
    = (Ok (SendStatus 200), with_log [mkLog WARN t None] (demo_world [] [] [])).
Proof.
  apply handleWebhook_drops_payload_without_message. left. reflexivity.
Defined.





(** * The window, for every limit of at least one *)

Lemma subsequence_skipn_filter {A : Type} (p : A -> bool) (l : list A) :
  forall n, subsequence (skipn n (filter p l)) l.
Proof.
  induction l as [| x l IH]; intros n.
  - rewrite skipn_nil. constructor.
  - cbn [filter]. destruct (p x).
    + destruct n as [| n]; [ | cbn [skipn]; apply subsequence_skip, IH ].
      cbn [skipn]. apply subsequence_keep. exact (IH 0%nat).
    + apply subsequence_skip, IH.
Qed.

Lemma subsequence_nil_l {A : Type} (l : list A) : subsequence [] l.
Proof. induction l; constructor; assumption. Qed.

(** X22. For every limit of at least one and whatever the outcome of
    the reads, [getRecentConversation] never throws and returns the
    turns of at most [limit] stored rows, each of them a row of the
    user, in the order of the sheet.  When the rows are read these are
    the last [limit] of the rows that pass the filter on the user and
    on the cutoff of the marker (no cutoff when the read of the marker
    failed); when the rows cannot be read, or the store is not
    configured, there is none. *)
Theorem positive_limit_bounds_the_window :
  forall (waId : string) (limit : Z) (w : World),
    0 < limit ->
    exists rows w',
      SheetsService.getRecentConversation waId limit w
      = (Ok (map SheetsService.to_turn rows), w')
      /\ Z.of_nat (length rows) <= limit
      /\ Forall (fun r => Js.cell_is r 1 waId = true) rows
      /\ subsequence rows (messages w)
      /\ (sheets_ready w = true -> hd None (tl (faults w)) = None ->
          rows = skipn (length (filtered w waId) - Z.to_nat limit) (filtered w waId))
      /\ (sheets_ready w = false \/ hd None (tl (faults w)) <> None -> rows = []).
Proof.
  intros waId limit w Hn.
  assert (Hwin : forall resetTime,
             let q := filter (SheetsService.in_window (Date_parse (env w)) waId resetTime)
                             (messages w) in
             Js.slice_from (- limit) q = skipn (length q - Z.to_nat limit) q
             /\ Z.of_nat (length (skipn (length q - Z.to_nat limit) q)) <= limit
             /\ Forall (fun r => Js.cell_is r 1 waId = true)
                       (skipn (length q - Z.to_nat limit) q)
             /\ subsequence (skipn (length q - Z.to_nat limit) q) (messages w)).
  { intros resetTime q. split; [ apply slice_from_last; exact Hn | ].
    split; [ rewrite length_skipn; lia | ]. split.
    - apply Forall_forall. intros r Hin.
      assert (Hq : In r q).
      { rewrite <- (firstn_skipn (length q - Z.to_nat limit) q).
        apply in_or_app. right. exact Hin. }
      apply filter_In in Hq as [_ Hq]. exact (in_window_belongs _ _ _ _ Hq).
    - apply subsequence_skipn_filter. }
  destruct (sheets_ready w) eqn:Hr.
  - rewrite (getRecentConversation_run waId limit w Hr). cbn zeta.
    change (faults (answered w)) with (tl (faults w)).
    unfold filtered, qualifying.
    destruct (hd None (faults w)) as [e1 |], (hd None (tl (faults w))) as [e2 |].
    + exists []. eexists. split; [ reflexivity | ]. split; [ cbn; lia | ].
      split; [ constructor | ]. split; [ apply subsequence_nil_l | ].
      split; [ discriminate | reflexivity ].
    + destruct (Hwin (Some 0)) as (Hslice & Hlen & Hall & Hsub). cbn zeta in *.
      rewrite Hslice. eexists _, _. split; [ reflexivity | ].
      split; [ exact Hlen | ]. split; [ exact Hall | ]. split; [ exact Hsub | ].
      split; [ reflexivity | ]. intros [H | H]; [ discriminate | congruence ].
    + exists []. eexists. split; [ reflexivity | ]. split; [ cbn; lia | ].
      split; [ constructor | ]. split; [ apply subsequence_nil_l | ].
      split; [ discriminate | reflexivity ].
    + destruct (Hwin (reset_time (Date_parse (env w))
                        (first_value ("reset:" ++ waId) (settings w))))
        as (Hslice & Hlen & Hall & Hsub). cbn zeta in *.
      rewrite Hslice. eexists _, _. split; [ reflexivity | ].
      split; [ exact Hlen | ]. split; [ exact Hall | ]. split; [ exact Hsub | ].
      split; [ reflexivity | ]. intros [H | H]; [ discriminate | congruence ].
  - unfold SheetsService.getRecentConversation.
    match goal with
    | |- context [bind SheetsService.getClient (fun sheets => if negb sheets then ret [] else ?k)] =>
        destruct (not_ready_returns (@nil ChatMessage) k w Hr) as (lines & ->)
    end.
    exists []. eexists. split; [ reflexivity | ]. split; [ cbn; lia | ].
    split; [ constructor | ]. split; [ apply subsequence_nil_l | ].
    split; [ discriminate | reflexivity ].
Qed.

(** A run of X22: four rows are stored, three of them of the user, the
    limit is two and the read of the marker fails. *)
Lemma positive_limit_bounds_the_window_witness :
  exists w',
    SheetsService.getRecentConversation "55501" 2
      (demo_world [Some boom]
         [["2024-05-01T09:00:00.000Z"; "55501"; "user"; "one"; "wamid.1"];
          ["2024-05-01T09:00:01.000Z"; "55502"; "user"; "other"; "wamid.2"];
          ["2024-05-01T09:00:02.000Z"; "55501"; "assistant"; "two"; ""];
          ["2024-05-01T09:00:03.000Z"; "55501"; "user"; "three"; "wamid.3"]] [])
    = (Ok [mkChat "assistant" "two"; mkChat "user" "three"], w').
Proof.
  destruct (positive_limit_bounds_the_window "55501" 2
              (demo_world [Some boom]
                 [["2024-05-01T09:00:00.000Z"; "55501"; "user"; "one"; "wamid.1"];
                  ["2024-05-01T09:00:01.000Z"; "55502"; "user"; "other"; "wamid.2"];
                  ["2024-05-01T09:00:02.000Z"; "55501"; "assistant"; "two"; ""];
                  ["2024-05-01T09:00:03.000Z"; "55501"; "user"; "three"; "wamid.3"]] []))
    as (rows & w' & Hrun & _ & _ & _ & Hrows & _); [ lia | ].
  exists w'. rewrite Hrun, (Hrows eq_refl eq_refl). reflexivity.
Defined.

(** * Clock order of the stored turns *)

Lemma clock_monotone_later e k0 k1 :
  (k0 <= k1)%nat -> clock_monotone e k0 -> clock_monotone e k1.
Proof. intros Hle H k k' Hk Hk'. apply H; lia. Qed.

Lemma nondecreasing_snoc ts t :
  nondecreasing ts -> Forall (fun x => x <= t) ts -> nondecreasing (ts ++ [t]).
Proof.
  induction ts as [| x ts IH]; cbn; intros Hs Hb.
  - split; [ constructor | exact I ].
  - destruct Hs as [Hx Hs]. apply Forall_cons_iff in Hb as [Hxt Hb].
    split; [ | apply IH; assumption ].
    apply Forall_app. split; [ exact Hx | constructor; [ exact Hxt | constructor ] ].
Qed.

(** A call that adds no row and does not put the clock back. *)
Lemma order_step w w' :
  env w' = env w -> (ticks w <= ticks w')%nat -> messages w' = messages w ->
  order_kept w w'.
Proof.
  intros He Ht Hm (Hclock & ts & Hts & Hsorted & Hbound).
  split; [ rewrite He; exact (clock_monotone_later _ _ _ Ht Hclock) | ].
  exists ts. unfold timestamp in *. rewrite He, Hm.
  split; [ exact Hts | ]. split; [ exact Hsorted | ].
  destruct (Hclock (ticks w) (ticks w') (Nat.le_refl _) Ht) as (t0 & t1 & H0 & H1 & Hle).
  apply Forall_forall. intros t Hin.
  rewrite Forall_forall in Hbound. destruct (Hbound t Hin) as (t0' & H0' & Hle').
  exists t1. split; [ exact H1 | ]. rewrite H0 in H0'. injection H0' as <-. lia.
Qed.

(** A call that adds one row stamped with the reading of the clock. *)
Lemma order_append w w' rest :
  env w' = env w -> ticks w' = S (ticks w) ->
  messages w' = (messages w ++ [clock (env w) (ticks w) :: rest])%list ->
  order_kept w w'.
Proof.
  intros He Ht Hm (Hclock & ts & Hts & Hsorted & Hbound).
  destruct (Hclock (ticks w) (S (ticks w)) (Nat.le_refl _) (Nat.le_succ_diag_r _))
    as (t0 & t1 & H0 & H1 & Hle).
  split; [ rewrite He, Ht; apply (clock_monotone_later _ (ticks w)); [ lia | exact Hclock ] | ].
  exists (ts ++ [t0])%list. unfold timestamp in *. rewrite He, Hm, Ht.
  split; [ | split ].
  - rewrite !map_app, Hts. cbn. rewrite H0. reflexivity.
  - apply nondecreasing_snoc; [ exact Hsorted | ].
    apply Forall_forall. intros t Hin. rewrite Forall_forall in Hbound.
    destruct (Hbound t Hin) as (t0' & H0' & Hle'). rewrite H0 in H0'. injection H0' as <-. exact Hle'.
  - apply Forall_app. split.
    + apply Forall_forall. intros t Hin. rewrite Forall_forall in Hbound.
      destruct (Hbound t Hin) as (t0' & H0' & Hle').
      rewrite H0 in H0'. injection H0' as <-. exists t1. split; [ exact H1 | lia ].
    + constructor; [ | constructor ]. exists t1. split; [ exact H1 | exact Hle ].
Qed.

Lemma order_kept_refl w : order_kept w w.
Proof. intros H. exact H. Qed.

Lemma order_kept_trans w1 w2 w3 : order_kept w1 w2 -> order_kept w2 w3 -> order_kept w1 w3.
Proof. unfold order_kept. auto. Qed.

Lemma store_kept_order_kept w w' : store_kept w w' -> order_kept w w'.
Proof.
  intros (He & Ht & Hm & _). apply order_step; [ exact He | rewrite Ht; apply Nat.le_refl | exact Hm ].
Qed.

Lemma keeps_order_appendMessage waId r content msgId :
  keeps order_kept (SheetsService.appendMessage waId r content msgId).
Proof.
  intros w. destruct (sheets_ready w) eqn:Hr.
  - destruct (appendMessage_run waId r content msgId w Hr) as (w1 & _ & K & ->).
    destruct K as ((He & _) & Ht & Hm & _). cbn zeta.
    destruct (hd None (faults w1)); cbn [snd].
    + apply order_step; cbn; [ exact He | lia | exact Hm ].
    + eapply order_append; cbn; [ exact He | reflexivity | reflexivity ].
  - destruct (appendMessage_not_ready waId r content msgId w Hr) as (lines & ->).
    apply order_step; cbn; auto.
Qed.

Lemma call_order_kept c w : order_kept w (call c w).
Proof.
  destruct c as [msgId | u r content msgId | u limit | key | key value | | v
                | number message msgId | to message | fs]; cbn [call].
  - apply store_kept_order_kept, keeps_store_hasMessage.
  - apply keeps_order_appendMessage.
  - apply store_kept_order_kept, keeps_store_getRecentConversation.
  - apply store_kept_order_kept, keeps_store_getSetting.
  - destruct (setSetting_effect key value w) as (He & Ht & Hm & _).
    apply order_step; [ exact He | rewrite Ht; apply Nat.le_refl | exact Hm ].
  - apply store_kept_order_kept, keeps_store_getAllSettings.
  - rewrite resetConversation_unfold.
    destruct (setSetting_effect ("reset:" ++ v) (clock (env w) (ticks w))
                (set_ticks (S (ticks w)) w)) as (He & Ht & Hm & _).
    apply order_step; [ exact He | rewrite Ht; cbn; lia | exact Hm ].
  - apply (keeps_handle order_kept);
      [ apply order_kept_refl | apply order_kept_trans | apply store_kept_order_kept
      | apply keeps_order_appendMessage | intros; apply keeps_order_appendMessage ].
  - apply store_kept_order_kept, keeps_store_sendMessage.
  - apply order_step; cbn; auto.
Qed.

(** X23. The store stays in clock order: when the stored rows are in
    non-decreasing order of their instants, none later than the clock,
    and the clock does not go back, this is still so after any sequence
    of calls on the store, the pipeline and the sender, however their
    Sheets calls end: every row is stamped with the clock and added at
    the end. *)
Theorem store_stays_in_clock_order :
  forall (cs : list StoreCall) (w : World),
    chronological w -> chronological (calls cs w).
Proof.
  induction cs as [| c cs IH]; intros w H; [ exact H | ].
  cbn. apply IH. exact (call_order_kept c w H).
Qed.

Lemma demo_clock_monotone : clock_monotone demo_env 0.
Proof.
  assert (H : forall k, exists t, iso_Date_parse (demo_clock k) = Some t
                                  /\ t = 1714557600000 + 60000 * Z.of_nat (Nat.min k 4)).
  { intros k. do 5 (destruct k as [| k]; [ eexists; split; vm_compute; reflexivity | ]).
    eexists. split; [ vm_compute; reflexivity | ].
    replace (Nat.min (S (S (S (S (S k))))) 4) with 4%nat by lia. reflexivity. }
  intros k k' _ Hle.
  destruct (H k) as (t & Ht & ->). destruct (H k') as (t' & Ht' & ->).
  eexists _, _. split; [ exact Ht | ]. split; [ exact Ht' | lia ].
Qed.

Lemma store_stays_in_clock_order_witness :
  chronological
    (calls [CallHandleUserMessage "55501" "Hi" (Some "wamid.1");
            CallResetConversation "55501";
            CallAppendMessage "55501" user "again" None]
       (demo_world [] [] [])).
Proof.
  apply store_stays_in_clock_order. split; [ exact demo_clock_monotone | ].
  exists []. split; [ reflexivity | ]. split; [ exact I | constructor ].
Defined.

Lemma ordered_filter w (p : list string -> bool) rows :
  ordered w rows -> ordered w (filter p rows).
Proof.
  intros (ts & Hts & Hs). revert ts Hts Hs.
  induction rows as [| r rows IH]; intros ts Hts Hs.
  - exists []. split; [ reflexivity | exact I ].
  - destruct ts as [| t ts]; [ discriminate | ].
    cbn in Hts. injection Hts as Ht Hts. destruct Hs as [Hle Hs].
    destruct (IH ts Hts Hs) as (ts' & Hts' & Hs').
    assert (Hsub : Forall (Z.le t) ts').
    { clear - Hts Hts' Hle. revert ts ts' Hts Hts' Hle.
      induction rows as [| r' rows IH']; intros ts ts' Hts Hts' Hle.
      - destruct ts'; [ constructor | discriminate ].
      - destruct ts as [| t0 ts]; [ discriminate | ].
        cbn in Hts. injection Hts as Ht0 Hts.
        apply Forall_cons_iff in Hle as [Hle0 Hle].
        cbn in Hts'. destruct (p r').
        + destruct ts' as [| t1 ts']; [ constructor | ].
          cbn in Hts'. injection Hts' as Ht1 Hts'.
          constructor; [ congruence | exact (IH' ts ts' Hts Hts' Hle) ].
        + exact (IH' ts ts' Hts Hts' Hle). }
    cbn. destruct (p r).
    + exists (t :: ts'). cbn. rewrite Ht, Hts'. split; [ reflexivity | split; assumption ].
    + exists ts'. split; assumption.
Qed.

Lemma ordered_skipn w n rows : ordered w rows -> ordered w (skipn n rows).
Proof.
  intros (ts & Hts & Hs). revert n ts Hts Hs.
  induction rows as [| r rows IH]; intros n ts Hts Hs.
  - rewrite skipn_nil. exists []. split; [ reflexivity | exact I ].
  - destruct n as [| n]; [ exists ts; split; assumption | ].
    destruct ts as [| t ts]; [ discriminate | ].
    cbn in Hts. injection Hts as _ Hts. destruct Hs as [_ Hs].
    cbn. exact (IH n ts Hts Hs).
Qed.

(** X24. Oldest first: the turns [getRecentConversation] returns are
    the turns of stored rows, taken in the order these rows have in the
    sheet; so when the stored rows are in non-decreasing order of their
    instants (as the store keeps them on a clock that does not go back),
    the turns are in non-decreasing order of the instants of their
    rows, for every user, every limit and every outcome of the reads. *)
Theorem window_is_oldest_first :
  forall (waId : string) (limit : Z) (w : World),
    ordered w (messages w) ->
    exists rows w',
      SheetsService.getRecentConversation waId limit w
      = (Ok (map SheetsService.to_turn rows), w')
      /\ subsequence rows (messages w)
      /\ ordered w rows.
Proof.
  intros waId limit w Hord.
  assert (Hnil : subsequence [] (messages w) /\ ordered w []).
  { split; [ apply subsequence_nil_l | ]. exists []. split; [ reflexivity | exact I ]. }
  assert (Hwin : forall resetTime,
             let rows := Js.slice_from (- limit)
                           (filter (SheetsService.in_window (Date_parse (env w)) waId resetTime)
                                   (messages w)) in
             subsequence rows (messages w) /\ ordered w rows).
  { intros resetTime. unfold Js.slice_from. cbn zeta. split.
    - apply subsequence_skipn_filter.
    - apply ordered_skipn, ordered_filter. exact Hord. }
  destruct (sheets_ready w) eqn:Hr.
  - rewrite (getRecentConversation_run waId limit w Hr). cbn zeta.
    destruct (hd None (faults w)), (hd None (faults (answered w))).
    + exists []. eexists. split; [ reflexivity | exact Hnil ].
    + eexists _, _. split; [ reflexivity | apply Hwin ].
    + exists []. eexists. split; [ reflexivity | exact Hnil ].
    + eexists _, _. split; [ reflexivity | apply Hwin ].
  - destruct (getRecentConversation_not_ready waId limit w Hr) as (lines & ->).
    exists []. eexists. split; [ reflexivity | exact Hnil ].
Qed.

(** A run of X24: three turns of the user are stored among others, and
    the window of two is the last two of them, the older one first. *)
Lemma window_is_oldest_first_witness :
  exists rows w',
    SheetsService.getRecentConversation "55501" 2
      (demo_world []
         [["2024-05-01T09:00:00.000Z"; "55501"; "user"; "Hi"; "wamid.1"];
          ["2024-05-01T09:00:05.000Z"; "55501"; "assistant"; "Hello!"; ""];
          ["2024-05-01T09:00:07.000Z"; "55502"; "user"; "other"; "wamid.2"];
          ["2024-05-01T09:00:09.000Z"; "55501"; "user"; "Hours?"; "wamid.3"]] [])
    = (Ok (map SheetsService.to_turn rows), w')
    /\ subsequence rows
         [["2024-05-01T09:00:00.000Z"; "55501"; "user"; "Hi"; "wamid.1"];
          ["2024-05-01T09:00:05.000Z"; "55501"; "assistant"; "Hello!"; ""];
          ["2024-05-01T09:00:07.000Z"; "55502"; "user"; "other"; "wamid.2"];
          ["2024-05-01T09:00:09.000Z"; "55501"; "user"; "Hours?"; "wamid.3"]]
    /\ ordered (demo_world []
                  [["2024-05-01T09:00:00.000Z"; "55501"; "user"; "Hi"; "wamid.1"];
                   ["2024-05-01T09:00:05.000Z"; "55501"; "assistant"; "Hello!"; ""];
                   ["2024-05-01T09:00:07.000Z"; "55502"; "user"; "other"; "wamid.2"];
                   ["2024-05-01T09:00:09.000Z"; "55501"; "user"; "Hours?"; "wamid.3"]] [])
               rows.
Proof.
  apply (window_is_oldest_first "55501" 2
           (demo_world []
              [["2024-05-01T09:00:00.000Z"; "55501"; "user"; "Hi"; "wamid.1"];
               ["2024-05-01T09:00:05.000Z"; "55501"; "assistant"; "Hello!"; ""];
               ["2024-05-01T09:00:07.000Z"; "55502"; "user"; "other"; "wamid.2"];
               ["2024-05-01T09:00:09.000Z"; "55501"; "user"; "Hours?"; "wamid.3"]] [])).
  exists [1714554000000; 1714554005000; 1714554007000; 1714554009000].
  split; [ vm_compute; reflexivity | ].
  cbn. repeat split; repeat constructor; lia.
Defined.

(** * The two versions of sendMessage *)

Lemma earlier_send_failed_logs error w :
  exists lines,
    EarlierWhatsappService.send_failed error w = (Ok tt, set_log (log w ++ lines) w).
Proof.
  unfold EarlierWhatsappService.send_failed, bind, logger, modify.
  destruct (WhatsappService.equals (e_status error) 401); cbn.
  - eexists. rewrite <- app_assoc. reflexivity.
  - eexists. reflexivity.
Qed.

(** X25. What the normalization changed: for a recipient that is
    non-empty and all digits, and variables without white space around
    them, the current [sendMessage] and the earlier one make the same
    requests and both return normally; for any other recipient the
    earlier version sends to the string as given, digits or not, while
    the current one sends to its digits only. *)
Theorem sendMessage_agrees_with_earlier_version :
  forall (to text : string) (w : World),
    variables_trimmed w ->
    (all_digits to = true -> to <> "" ->
     fst (WhatsappService.sendMessage to text w) = Ok tt
     /\ fst (EarlierWhatsappService.sendMessage to text w) = Ok tt
     /\ requests (snd (WhatsappService.sendMessage to text w))
        = requests (snd (EarlierWhatsappService.sendMessage to text w)))
    /\ (whatsapp_configured w = true ->
        exists cfg,
          requests (snd (EarlierWhatsappService.sendMessage to text w))
          = (requests w ++ [cfg])%list
          /\ data_to cfg = to /\ data_body cfg = text).
Proof.
  intros to text w (Hk & Hv & Hp).
  assert (Hearlier :
            exists lines,
              if whatsapp_configured w then
                exists cfg,
                  EarlierWhatsappService.sendMessage to text w
                  = (Ok tt, set_log (log w ++ lines) (set_requests (requests w ++ [cfg]) w))
                  /\ cfg = mkAxios ("https://graph.facebook.com/"
                                      ++ Js.or_else (WHATSAPP_API_VERSION (env w)) "" ++ "/"
                                      ++ Js.or_else (WHATSAPP_PHONE_NUMBER_ID (env w)) ""
                                      ++ "/messages")
                                   ("Bearer " ++ Js.or_else (WHATSAPP_API_KEY (env w)) "")
                                   to text
              else
                EarlierWhatsappService.sendMessage to text w
                = (Ok tt, set_log (log w ++ lines) w)).
  { unfold EarlierWhatsappService.sendMessage, whatsapp_configured.
    rewrite !bind_gets, Hk, Hv, Hp.
    destruct (Js.truthy (WHATSAPP_API_KEY (env w))); cbn [negb orb andb];
      [ | eexists; reflexivity ].
    destruct (Js.truthy (WHATSAPP_API_VERSION (env w))); cbn [negb orb andb];
      [ | eexists; reflexivity ].
    destruct (Js.truthy (WHATSAPP_PHONE_NUMBER_ID (env w))); cbn [negb orb andb];
      [ | eexists; reflexivity ].
    unfold try_catch, bind, WhatsappService.axios_request.
    match goal with
    | |- context [axios_api ?e ?k ?c] => destruct (axios_api e k c) as [st | err]
    end.
    - eexists. eexists. split; reflexivity.
    - match goal with
      | |- context [EarlierWhatsappService.send_failed ?e ?w0] =>
          destruct (earlier_send_failed_logs e w0) as (lines & ->)
      end.
      exists lines. eexists. split; reflexivity. }
  destruct Hearlier as (lines & Hearlier).
  split.
  - intros Hd Hne.
    assert (Hdigits : Js.remove_non_digits to = to) by (apply remove_non_digits_fixed; exact Hd).
    unfold WhatsappService.sendMessage, WhatsappService.env_trim.
    rewrite !bind_gets, Hk, Hv, Hp.
    unfold EarlierWhatsappService.sendMessage. rewrite !bind_gets.
    destruct (negb (Js.truthy (WHATSAPP_API_KEY (env w)))
              || negb (Js.truthy (WHATSAPP_API_VERSION (env w)))
              || negb (Js.truthy (WHATSAPP_PHONE_NUMBER_ID (env w)))).
    { repeat split. }
    replace (Js.or_else (Some to) "") with to
      by (cbn; destruct (String.eqb_spec to ""); congruence).
    cbv zeta. rewrite Hdigits, (proj2 (truthy_some to) Hne). cbn [negb].
    unfold try_catch, bind, WhatsappService.axios_request.
    match goal with
    | |- context [axios_api ?e ?k ?c] => destruct (axios_api e k c) as [st | err]
    end.
    + repeat split.
    + match goal with
      | |- context [EarlierWhatsappService.send_failed ?e ?w0] =>
          destruct (earlier_send_failed_logs e w0) as (l1 & ->);
          destruct (send_failed_logs e w0) as (l2 & ->)
      end.
      repeat split.
  - intros Hc. rewrite Hc in Hearlier. destruct Hearlier as (cfg & -> & ->).
    eexists. split; [ reflexivity | split; reflexivity ].
Qed.

Lemma sendMessage_agrees_with_earlier_version_witness :
  exists cfg,
    requests (snd (EarlierWhatsappService.sendMessage "+1 (555) 123-4567" "hi"
                     (demo_world [] [] [])))
    = [cfg]
    /\ data_to cfg = "+1 (555) 123-4567".
Proof.
  destruct (proj2 (sendMessage_agrees_with_earlier_version "+1 (555) 123-4567" "hi"
                     (demo_world [] [] [])
                     ltac:(repeat split; reflexivity)) eq_refl)
    as (cfg & Hreq & Hto & _).
  exists cfg. split; [ exact Hreq | exact Hto ].
Defined.
